(** * The ReAct orchestration engine of the stock-market agent

    A shallow embedding of the reasoning/acting loop of the repository:

    - [domain/agents/react_agent.py]            (StockReActAgent)
    - [domain/coordinators/react_coordinator.py] (ReActCoordinator._step)
    - [domain/tools/base.py]                     (BaseTool.execute)
    - [infra/agents/langgraph_workflow.py]       (should_continue, run)
    - [application/services/stock_analysis_service.py] (analyze)

    and of what surrounds it: the three tool adapters
    ([domain/tools/chat_tool.py], [domain/tools/tavily_search_tool.py],
    [domain/tools/rag_tool.py]), the health check
    ([application/services/health_check_service.py]), the response
    models ([api/models/responses.py]) and the two endpoints
    ([api/routers/agent.py], [api/routers/health.py]).

    Python strings are sequences of Unicode code points, exceptions are
    an explicit error result, dictionaries with a fixed set of keys are
    records whose fields may be absent. *)

From Stdlib Require Import List ZArith NArith Lia Bool String Ascii.
From stdpp Require Import gmap.
Import ListNotations.

(* ===================================================================== *)
(** ** Python strings *)
(* ===================================================================== *)

(** A [str] is a sequence of code points. *)
Abbreviation char := N (only parsing).
Abbreviation pystr := (list N) (only parsing).

(** Literals are written as UTF-8 text and decoded to code points. *)
Fixpoint utf8_decode (bs : list N) : pystr :=
  match bs with
  | [] => []
  | b0 :: r0 =>
    if (b0 <? 128)%N then b0 :: utf8_decode r0
    else if (b0 <? 224)%N then
      match r0 with
      | b1 :: r1 => ((b0 - 192) * 64 + (b1 - 128))%N :: utf8_decode r1
      | _ => []
      end
    else if (b0 <? 240)%N then
      match r0 with
      | b1 :: b2 :: r2 =>
        ((b0 - 224) * 4096 + (b1 - 128) * 64 + (b2 - 128))%N :: utf8_decode r2
      | _ => []
      end
    else
      match r0 with
      | b1 :: b2 :: b3 :: r3 =>
        ((b0 - 240) * 262144 + (b1 - 128) * 4096 + (b2 - 128) * 64 + (b3 - 128))%N
          :: utf8_decode r3
      | _ => []
      end
  end.

Definition utf8 (s : string) : pystr :=
  utf8_decode (map N_of_ascii (list_ascii_of_string s)).
Arguments utf8 s%_string.

(** [str.isspace] on one code point: the characters [str.strip()] removes. *)
Definition isspace (c : char) : bool :=
  ((9 <=? c) && (c <=? 13) || (28 <=? c) && (c <=? 32)
   || (c =? 133) || (c =? 160) || (c =? 5760)
   || (8192 <=? c) && (c <=? 8202)
   || (c =? 8232) || (c =? 8233) || (c =? 8239) || (c =? 8287)
   || (c =? 12288))%N.

Definition NL : pystr := [10%N].

(** [strip_prefix p s] is the rest of [s] after its prefix [p], if any. *)
Fixpoint strip_prefix (p s : pystr) : option pystr :=
  match p, s with
  | [], _ => Some s
  | c :: p', d :: s' => if (c =? d)%N then strip_prefix p' s' else None
  | _ :: _, [] => None
  end.

(** [s.startswith(p)] *)
Definition startswith (s p : pystr) : bool :=
  match strip_prefix p s with Some _ => true | None => false end.
Arguments startswith : simpl never.

(** [sub in s] *)
Fixpoint py_in (sub s : pystr) : bool :=
  startswith s sub ||
  match s with
  | [] => false
  | _ :: s' => py_in sub s'
  end.

Definition cons_head (c : char) (pieces : list pystr) : list pystr :=
  match pieces with
  | piece :: rest => (c :: piece) :: rest
  | [] => [[c]]
  end.

(** [s.split(sep)] for a non-empty separator: a left-to-right scan for
    non-overlapping occurrences.  (Python raises ValueError on an empty
    separator; every separator in the source is a non-empty literal.) *)
Fixpoint split_fuel (fuel : nat) (sep s : pystr) : list pystr :=
  match fuel with
  | O => [s]
  | S fuel' =>
    match strip_prefix sep s with
    | Some rest => [] :: split_fuel fuel' sep rest
    | None =>
      match s with
      | [] => [[]]
      | c :: s' => cons_head c (split_fuel fuel' sep s')
      end
    end
  end.

Definition split (s sep : pystr) : list pystr :=
  split_fuel (S (length s)) sep s.

(** [s.replace(old, new)] for a non-empty [old]. *)
Fixpoint replace_fuel (fuel : nat) (old new s : pystr) : pystr :=
  match fuel with
  | O => s
  | S fuel' =>
    match strip_prefix old s with
    | Some rest => new ++ replace_fuel fuel' old new rest
    | None =>
      match s with
      | [] => []
      | c :: s' => c :: replace_fuel fuel' old new s'
      end
    end
  end.

Definition replace (s old new : pystr) : pystr :=
  replace_fuel (S (length s)) old new s.

Fixpoint lstrip (s : pystr) : pystr :=
  match s with
  | [] => []
  | c :: s' => if isspace c then lstrip s' else s
  end.

Definition rstrip (s : pystr) : pystr := rev (lstrip (rev s)).

(** [s.strip()] *)
Definition strip (s : pystr) : pystr := rstrip (lstrip s).

(** [sep.join(pieces)] on a list of strings. *)
Fixpoint join (sep : pystr) (pieces : list pystr) : pystr :=
  match pieces with
  | [] => []
  | [p] => p
  | p :: rest => p ++ sep ++ join sep rest
  end.

(** [l[-1]] on a list known to be non-empty ([split] never returns an
    empty list). *)
Definition last_piece (l : list pystr) : pystr := List.last l [].

(** [len(x)] rendered by an f-string: decimal digits. *)
Fixpoint decimal_fuel (fuel : nat) (n : N) : pystr :=
  match fuel with
  | O => []
  | S fuel' =>
    (if (n <? 10)%N then [] else decimal_fuel fuel' (n / 10)%N)
      ++ [(48 + n mod 10)%N]
  end.

Definition decimal (n : nat) : pystr := decimal_fuel (S n) (N.of_nat n).

(* ===================================================================== *)
(** ** Values, exceptions and results *)
(* ===================================================================== *)

(** The payload a tool returns is a free-form [Dict[str, Any]]. *)
#[local] Unset Elimination Schemes.
Inductive pyval :=
| VNone
| VBool (b : bool)
| VInt (z : Z)
| VFloat (num : Z) (den : positive)
| VStr (s : pystr)
| VList (l : list pyval)
| VDict (d : list (pystr * pyval)).
#[local] Set Elimination Schemes.

Definition ToolDict := list (pystr * pyval).

(** Exceptions that the modelled code can see. [Failure] is whatever a
    collaborator (model provider, tool back end) raises. *)
Inductive exn :=
| KeyError (key : pystr)
| TypeError
| AttributeError
| UnboundLocalError (name : pystr)
| ValidationError
| GraphRecursionError
| Failure (msg : pystr).

Inductive result (A : Type) :=
| Ok (a : A)
| Raise (e : exn).
Arguments Ok {A} a.
Arguments Raise {A} e.

#[global] Instance result_ret : MRet result := fun _ a => Ok a.
#[global] Instance result_bind : MBind result := fun _ _ f m =>
  match m with
  | Ok a => f a
  | Raise e => Raise e
  end.

(** The two renderings that belong to the interpreter, not to the
    repository: [str(e)] on an exception and [str(v)] on a value that is
    not already a string. *)
Class PyBuiltins := {
  str_exn : exn -> pystr;
  str_val : pyval -> pystr
}.

(** What an f-string field [{v}] renders. *)
Definition fmt `{PyBuiltins} (v : pyval) : pystr :=
  match v with
  | VStr s => s
  | _ => str_val v
  end.

(** Truth value of an [Optional[str]]: [None] and [""] are falsy. *)
Definition truthy_str (o : option pystr) : bool :=
  match o with
  | Some (_ :: _) => true
  | _ => false
  end.

Definition truthy (v : pyval) : bool :=
  match v with
  | VNone => false
  | VBool b => b
  | VInt z => negb (z =? 0)%Z
  | VFloat num _ => negb (num =? 0)%Z
  | VStr s => match s with [] => false | _ => true end
  | VList l => match l with [] => false | _ => true end
  | VDict d => match d with [] => false | _ => true end
  end.

Definition py_len (v : pyval) : result nat :=
  match v with
  | VStr s => Ok (length s)
  | VList l => Ok (length l)
  | VDict d => Ok (length d)
  | _ => Raise TypeError
  end.

(** [d.get(key, default)] *)
Fixpoint dict_get (d : ToolDict) (key : pystr) (default : pyval) : pyval :=
  match d with
  | [] => default
  | (k, v) :: d' => if decide (k = key) then v else dict_get d' key default
  end.

(* ===================================================================== *)
(** ** domain/entities/query_context.py *)
(* ===================================================================== *)

(** One turn of the conversation: [{"role": ..., "content": ...}].
    [content = None] is a turn whose content is Python's [None]. *)
Record Message := {
  role : pystr;
  content : option pystr
}.

Definition turn (r : string) (c : pystr) : Message :=
  {| role := utf8 r; content := Some c |}.
Arguments turn r%_string c.

(** The state dictionary threaded through the steps.  The code reads it
    with [state[...]], [state.get(...)] and [{**state, ...}], so a key
    may be absent: [None] in the first five fields is an absent key.
    Every read of [final_answer] goes through [.get("final_answer")],
    which cannot tell an absent key from a key bound to [None]; both are
    [None] here. *)
Record AgentState := {
  messages : option (list Message);
  current_step : option Z;
  max_steps : option Z;
  tools_used : option (list pystr);
  intermediate_results : option (list ToolDict);
  final_answer : option pystr
}.

Record QueryContext := {
  query : pystr;
  user_id : option pystr;
  session_id : option pystr
}.

(** [QueryContext(query=tool_input)]: the model validates that [query]
    is a string. *)
Definition new_QueryContext (q : option pystr) : result QueryContext :=
  match q with
  | Some s => Ok {| query := s; user_id := None; session_id := None |}
  | None => Raise ValidationError
  end.

(** [state["messages"]] and friends. *)
Definition getitem {A} (key : string) (field : option A) : result A :=
  match field with
  | Some v => Ok v
  | None => Raise (KeyError (utf8 key))
  end.
Arguments getitem {A} key%_string field.

(** [AgentState] is declared as a pydantic model, and
    [ReActWorkflow.run] builds an instance of it; the steps return plain
    dictionaries.  Both reach the code under the same annotation.  An
    instance of the model has its fields as attributes, but it has no
    [__getitem__] and no [get], and it is not a mapping. *)
Inductive StateObject :=
| Mapping (state : AgentState)
| Model (fields : AgentState).

(** [state[key]] on either kind of object. *)
Definition subscript_state {A} (key : string) (field : AgentState -> option A)
    (o : StateObject) : result A :=
  match o with
  | Mapping state => getitem key (field state)
  | Model _ => Raise TypeError
  end.
Arguments subscript_state {A} key%_string field o.

(* ===================================================================== *)
(** ** domain/tools/base.py *)
(* ===================================================================== *)

Record BaseTool := {
  name : pystr;
  description : pystr;
  _execute_impl : QueryContext -> pystr -> result ToolDict
}.

(** [BaseTool.execute]: forwards to the implementation; there is no
    [try] around the call. *)
Definition execute (tool : BaseTool) (context : QueryContext) (q : pystr)
  : result ToolDict :=
  _execute_impl tool context q.

(** [ChatProvider.chat(prompt, model=None, temperature=0.1,
    max_tokens=2000)["response"]]: the reply text, or the exception the
    provider raised. *)
Definition ChatProvider := pystr -> result pystr.

(* ===================================================================== *)
(** ** domain/agents/react_agent.py *)
(* ===================================================================== *)

(** What [reason] returns: a dictionary with exactly these three keys. *)
Record ReasoningResult := {
  rr_messages : list Message;
  rr_current_step : Z;
  rr_final_answer : option pystr
}.

(** The abstract interface [ReActAgent]. *)
Record ReActAgent := {
  agent_reason : AgentState -> result ReasoningResult;
  agent_parse_tool_usage : pystr -> option pystr * option pystr;
  agent_format_tool_result : pystr -> ToolDict -> result pystr
}.

Definition ACTION : pystr := utf8 "Action:".
Definition ACTION_INPUT : pystr := utf8 "Action Input:".
Definition FINAL_ANSWER : pystr := utf8 "Final Answer:".

Module StockReActAgent.
Section Agent.
Context `{PyBuiltins}.

(** [_get_system_prompt]: the body is the docstring followed by a bare
    [return]; the triple-quoted prompt text on the following lines is
    indented at class level, so it is a separate expression statement of
    the class body and not the returned value.  The method returns
    [None]. *)
Definition _get_system_prompt : result (option pystr) := Ok None.

(** The [try] block of [reason].  Besides the outcome it reports the
    local variable [current_step] when the block got as far as binding
    it, because the handler reads that local. [get_system_prompt] is the
    outcome of the call [self._get_system_prompt()]. *)
Definition reason_try (get_system_prompt : result (option pystr))
    (state : AgentState) : option Z * result ReasoningResult :=
  match getitem "messages" (messages state) with
  | Raise e => (None, Raise e)
  | Ok msgs =>
    match getitem "current_step" (current_step state) with
    | Raise e => (None, Raise e)
    | Ok step =>
      match get_system_prompt with
      | Raise e => (Some step, Raise e)
      | Ok system_prompt =>
        let conversation :=
          {| role := utf8 "system"; content := system_prompt |} :: msgs in
        (Some step,
         Ok {| rr_messages := conversation;
               rr_current_step := step;
               rr_final_answer := None |})
      end
    end
  end.

(** The [except Exception as e] handler of [reason]: the dictionary
    display evaluates [state["messages"] + [...]], then
    [current_step + 1], then the final answer. *)
Definition reason_except (state : AgentState) (local_current_step : option Z)
    (e : exn) : result ReasoningResult :=
  msgs ← getitem "messages" (messages state);
  step ← match local_current_step with
          | Some n => Ok n
          | None => Raise (UnboundLocalError (utf8 "current_step"))
          end;
  Ok {| rr_messages := msgs ++ [turn "assistant" (utf8 "Lỗi xử lý: " ++ str_exn e)];
        rr_current_step := step + 1;
        rr_final_answer := Some (utf8 "Xin lỗi, đã xảy ra lỗi: " ++ str_exn e) |}.

Definition reason_with (get_system_prompt : result (option pystr))
    (state : AgentState) : result ReasoningResult :=
  match reason_try get_system_prompt state with
  | (_, Ok r) => Ok r
  | (local_current_step, Raise e) => reason_except state local_current_step e
  end.

Definition reason (state : AgentState) : result ReasoningResult :=
  reason_with _get_system_prompt state.

(** The same method on either kind of state object: the statements are
    those of [reason_try] and [reason_except], the subscripts are those
    of the object. *)
Definition reason_try_on (get_system_prompt : result (option pystr))
    (o : StateObject) : option Z * result ReasoningResult :=
  match subscript_state "messages" messages o with
  | Raise e => (None, Raise e)
  | Ok msgs =>
    match subscript_state "current_step" current_step o with
    | Raise e => (None, Raise e)
    | Ok step =>
      match get_system_prompt with
      | Raise e => (Some step, Raise e)
      | Ok system_prompt =>
        let conversation :=
          {| role := utf8 "system"; content := system_prompt |} :: msgs in
        (Some step,
         Ok {| rr_messages := conversation;
               rr_current_step := step;
               rr_final_answer := None |})
      end
    end
  end.

Definition reason_except_on (o : StateObject) (local_current_step : option Z)
    (e : exn) : result ReasoningResult :=
  msgs ← subscript_state "messages" messages o;
  step ← match local_current_step with
          | Some n => Ok n
          | None => Raise (UnboundLocalError (utf8 "current_step"))
          end;
  Ok {| rr_messages := msgs ++ [turn "assistant" (utf8 "Lỗi xử lý: " ++ str_exn e)];
        rr_current_step := step + 1;
        rr_final_answer := Some (utf8 "Xin lỗi, đã xảy ra lỗi: " ++ str_exn e) |}.

Definition reason_on (get_system_prompt : result (option pystr))
    (o : StateObject) : result ReasoningResult :=
  match reason_try_on get_system_prompt o with
  | (_, Ok r) => Ok r
  | (local_current_step, Raise e) => reason_except_on o local_current_step e
  end.

(** The [for] loop of [parse_tool_usage] over the lines. *)
Definition parse_line (acc : option pystr * option pystr) (line : pystr)
  : option pystr * option pystr :=
  let '(action_line, input_line) := acc in
  if startswith (strip line) ACTION then (Some (strip line), input_line)
  else if startswith (strip line) ACTION_INPUT then (action_line, Some (strip line))
  else (action_line, input_line).

Definition parse_lines (lines : list pystr) : option pystr * option pystr :=
  fold_left parse_line lines (None, None).

(** [parse_tool_usage]: no operation in the [try] block raises on a
    string, so the handler is not represented. *)
Definition parse_tool_usage (message : pystr) : option pystr * option pystr :=
  if negb (py_in ACTION message) then (None, None)
  else
    let lines := split message NL in
    let '(action_line, input_line) := parse_lines lines in
    if truthy_str action_line && truthy_str input_line then
      match action_line, input_line with
      | Some a, Some i =>
        let tool_name := strip (replace a ACTION []) in
        let tool_input := strip (replace i ACTION_INPUT []) in
        (Some tool_name, Some tool_input)
      | _, _ => (None, None)
      end
    else (None, None).

(** One entry of the [for result in results[:3]] loop. *)
Definition format_search_result (r : pyval) : result pystr :=
  match r with
  | VDict d =>
    let title := dict_get d (utf8 "title") (VStr []) in
    body ← match dict_get d (utf8 "content") (VStr []) with
            | VStr s => Ok (firstn 300 s ++ utf8 "...")
            | _ => Raise TypeError
            end;
    let url := dict_get d (utf8 "url") (VStr []) in
    Ok (utf8 "• " ++ fmt title ++ utf8 "
  " ++ body ++ utf8 "
  Nguồn: " ++ fmt url)
  | _ => Raise AttributeError
  end.

Fixpoint format_search_results (rs : list pyval) : result (list pystr) :=
  match rs with
  | [] => Ok []
  | r :: rs' =>
    x ← format_search_result r;
    xs ← format_search_results rs';
    Ok (x :: xs)
  end.

Definition format_tool_result (tool_name : pystr) (tool_result : ToolDict)
  : result pystr :=
  if decide (tool_name = utf8 "rag_knowledge") then
    let knowledge_context := dict_get tool_result (utf8 "knowledge_context") (VStr []) in
    let sources := dict_get tool_result (utf8 "sources") (VList []) in
    let text := utf8 "Thông tin từ cơ sở dữ liệu nội bộ:
" ++ fmt knowledge_context in
    if truthy sources then
      n ← py_len sources;
      Ok (text ++ utf8 "

Nguồn tham khảo: " ++ decimal n ++ utf8 " tài liệu")
    else Ok text
  else if decide (tool_name = utf8 "tavily_search") then
    let results := dict_get tool_result (utf8 "results") (VList []) in
    if negb (truthy results) then
      Ok (utf8 "Không tìm thấy thông tin liên quan trên web.")
    else
      top ← match results with
             | VList l => Ok (firstn 3 l)
             | VStr s => Ok (map (fun c => VStr [c]) (firstn 3 s))
             | _ => Raise TypeError
             end;
      formatted_results ← format_search_results top;
      Ok (utf8 "Kết quả tìm kiếm web:
" ++ join (utf8 "

") formatted_results)
  else if decide (tool_name = utf8 "chat_llm") then
    let response := dict_get tool_result (utf8 "response") (VStr []) in
    let model := dict_get tool_result (utf8 "model") (VStr (utf8 "unknown")) in
    Ok (utf8 "Kết quả từ LLM (" ++ fmt model ++ utf8 "):
" ++ fmt response)
  else Ok (str_val (VDict tool_result)).

(** The agent class, as a function of the outcome of its
    [_get_system_prompt] method. *)
Definition agent_with (get_system_prompt : result (option pystr)) : ReActAgent :=
  {| agent_reason := reason_with get_system_prompt;
     agent_parse_tool_usage := parse_tool_usage;
     agent_format_tool_result := format_tool_result |}.

(** [StockReActAgent(tools)] as shipped. *)
Definition agent : ReActAgent := agent_with _get_system_prompt.

End Agent.
End StockReActAgent.

(* ===================================================================== *)
(** ** domain/coordinators/react_coordinator.py *)
(* ===================================================================== *)

(** [[msg["content"] for msg in conversation]] followed by
    ["\n".join(...)]: [str.join] raises TypeError on an item that is not
    a string. *)
Fixpoint contents (conversation : list Message) : result (list pystr) :=
  match conversation with
  | [] => Ok []
  | msg :: rest =>
    match content msg with
    | Some c => cs ← contents rest; Ok (c :: cs)
    | None => Raise TypeError
    end
  end.

Definition flatten_prompt (conversation : list Message) : result pystr :=
  cs ← contents conversation; Ok (join NL cs).

Module ReActCoordinator.
Section Coordinator.
Variable agent : ReActAgent.
Variable chat_provider : ChatProvider.
Variable tools : gmap pystr BaseTool.

(** [response_content.split("Final Answer:")[-1].strip()] *)
Definition extract_final_answer (response_content : pystr) : pystr :=
  strip (last_piece (split response_content FINAL_ANSWER)).

Definition _step (state : AgentState) : result AgentState :=
  (* Reason step *)
  reasoning_result ← agent_reason agent state;
  let conversation := rr_messages reasoning_result in
  let step := rr_current_step reasoning_result in
  if truthy_str (rr_final_answer reasoning_result) then
    Ok {| messages := Some conversation;
          current_step := Some (step + 1)%Z;
          max_steps := max_steps state;
          tools_used := tools_used state;
          intermediate_results := intermediate_results state;
          final_answer := rr_final_answer reasoning_result |}
  else
    (* Get LLM response *)
    prompt ← flatten_prompt conversation;
    response_content ← chat_provider prompt;
    (* Update messages *)
    let msgs := conversation ++ [turn "assistant" response_content] in
    if py_in FINAL_ANSWER response_content then
      Ok {| messages := Some msgs;
            current_step := Some (step + 1)%Z;
            max_steps := max_steps state;
            tools_used := tools_used state;
            intermediate_results := intermediate_results state;
            final_answer := Some (extract_final_answer response_content) |}
    else
      (* Parse tool usage *)
      let '(tool_name, tool_input) := agent_parse_tool_usage agent response_content in
      let thinking :=
        Ok {| messages := Some msgs;
              current_step := Some (step + 1)%Z;
              max_steps := max_steps state;
              tools_used := tools_used state;
              intermediate_results := intermediate_results state;
              final_answer := final_answer state |} in
      match tool_name with
      | Some (c :: n) =>
        match tools !! (c :: n) with
        | Some tool =>
          context ← new_QueryContext tool_input;
          tool_result ← execute tool context (query context);
          observation ← agent_format_tool_result agent (c :: n) tool_result;
          Ok {| messages := Some (msgs ++ [turn "user" observation]);
                current_step := Some (step + 1)%Z;
                max_steps := max_steps state;
                tools_used := Some (default [] (tools_used state) ++ [c :: n]);
                intermediate_results :=
                  Some (default [] (intermediate_results state) ++ [tool_result]);
                final_answer := final_answer state |}
        | None => thinking
        end
      | _ => thinking
      end.

End Coordinator.

Section OnObjects.
Context `{PyBuiltins}.
Variable get_system_prompt : result (option pystr).
Variable chat_provider : ChatProvider.
Variable tools : gmap pystr BaseTool.

(** An agent whose [reason] has already returned [reasoning_result]. *)
Definition reasoned (reasoning_result : ReasoningResult) : ReActAgent :=
  {| agent_reason := fun _ => Ok reasoning_result;
     agent_parse_tool_usage := StockReActAgent.parse_tool_usage;
     agent_format_tool_result := StockReActAgent.format_tool_result |}.

(** [_step] with an agent of the class [StockReActAgent], called with
    either kind of state object.  After the call of [reason] the step
    reads [state] in its [return] statements only, and each of them
    begins with [**state]: on an instance of the model, which is not a
    mapping, the statement that would return raises TypeError. *)
Definition step_on (o : StateObject) : result AgentState :=
  match o with
  | Mapping state =>
    _step (StockReActAgent.agent_with get_system_prompt) chat_provider tools state
  | Model fields =>
    reasoning_result ← StockReActAgent.reason_on get_system_prompt o;
    _ ← _step (reasoned reasoning_result) chat_provider tools fields;
    Raise TypeError
  end.

End OnObjects.
End ReActCoordinator.

(* ===================================================================== *)
(** ** infra/agents/langgraph_workflow.py *)
(* ===================================================================== *)

Module ReActWorkflow.

Inductive Decision := Continue | End_.

(** The targets of the conditional edge:
    [{"continue": "agent", "end": END}]. *)
Inductive Node := AgentNode | END.

Definition edge (d : Decision) : Node :=
  match d with
  | Continue => AgentNode
  | End_ => END
  end.

(** [messages[-1] if messages else None] *)
Definition last_message (msgs : list Message) : option Message :=
  last msgs.

Definition should_continue (state : AgentState) : result Decision :=
  msgs ← getitem "messages" (messages state);
  if truthy_str (final_answer state) then Ok End_
  else
    step ← getitem "current_step" (current_step state);
    bound ← getitem "max_steps" (max_steps state);
    if (step >=? bound)%Z then Ok End_
    else
      match last_message msgs with
      | None => Ok End_
      | Some msg =>
        (* a two-key dictionary is truthy;
           ["Action:" in None] raises TypeError *)
        match content msg with
        | None => Raise TypeError
        | Some text => if py_in ACTION text then Ok Continue else Ok End_
        end
      end.

Section Workflow.
Variable agent : ReActAgent.
Variable chat_provider : ChatProvider.
Variable tools : gmap pystr BaseTool.

Definition agent_node (state : AgentState) : result AgentState :=
  ReActCoordinator._step agent chat_provider tools state.

(** The compiled graph is run by the LangGraph library, which is not
    part of the repository.  Its scheduling is modelled after the wiring
    in [_build_workflow]: the entry point is the agent node, and after
    every run of the node the conditional edge applies [should_continue]
    to the state the node returned.  The number of node runs the library
    allows is [recursion_limit]; beyond it the library raises.  The
    result is the last state the node returned. *)
Fixpoint astream (recursion_limit : nat) (state : AgentState) : result AgentState :=
  match recursion_limit with
  | O => Raise GraphRecursionError
  | S limit =>
    state' ← agent_node state;
    decision ← should_continue state';
    match edge decision with
    | AgentNode => astream limit state'
    | END => Ok state'
    end
  end.

(** The field values that [run] gives to [AgentState(...)]. *)
Definition initial_state (q : pystr) : AgentState :=
  {| messages := Some [turn "user" q];
     current_step := Some 0%Z;
     max_steps := Some 10%Z;
     tools_used := Some [];
     intermediate_results := Some [];
     final_answer := None |}.

End Workflow.

Section Run.
Context `{PyBuiltins}.
Variable get_system_prompt : result (option pystr).
Variable chat_provider : ChatProvider.
Variable tools : gmap pystr BaseTool.

(** [run]: the coordinator's agent is a [StockReActAgent], the only
    implementation, given here by the outcome of its
    [_get_system_prompt].  [run] builds an instance of the model
    [AgentState] and streams the graph on it; the entry point of the
    graph is the agent node, which passes the instance to [_step].  An
    exception of the node ends the stream, and the handler of [run] logs
    it and re-raises it.  On an instance the step never returns
    ([step_on]), so the conditional edge, any further run of the node
    and the fallback dictionary of [run] are not reached. *)
Definition run (q : pystr) (sid : option pystr) : result AgentState :=
  ReActCoordinator.step_on get_system_prompt chat_provider tools
    (Model (initial_state q)).

End Run.
End ReActWorkflow.

(* ===================================================================== *)
(** ** application/services/stock_analysis_service.py *)
(* ===================================================================== *)

Module StockAnalysisService.

Record Metadata := {
  success : bool;
  md_session_id : option pystr;
  steps : nat;
  md_tools_used : list pystr;
  md_intermediate_results : list ToolDict
}.

Record Response := {
  answer : pystr;
  metadata : Metadata
}.

(** The loop that builds [combined_answer]: turns whose role is ["user"]
    are skipped, every other content is appended with a newline.
    [None + "\n"] raises TypeError. *)
Fixpoint combine (combined_answer : pystr) (msgs : list Message) : result pystr :=
  match msgs with
  | [] => Ok combined_answer
  | msg :: rest =>
    if decide (role msg = utf8 "user") then combine combined_answer rest
    else
      match content msg with
      | Some c => combine (combined_answer ++ c ++ NL) rest
      | None => Raise TypeError
      end
  end.

Section Service.
Context `{PyBuiltins}.

(** The [try] block of [analyze] after the workflow has returned. *)
Definition reshape (final_state : AgentState) (sid : option pystr) : result Response :=
  let fa := final_answer final_state in
  let msgs := default [] (messages final_state) in
  let used := default [] (tools_used final_state) in
  let results := default [] (intermediate_results final_state) in
  combined_answer ← combine [] msgs;
  Ok {| answer := match fa with
                  | Some (c :: a) => c :: a
                  | _ => strip combined_answer
                  end;
        metadata := {| success := true;
                       md_session_id := sid;
                       steps := length msgs;
                       md_tools_used := used;
                       md_intermediate_results := results |} |}.

Definition failure_payload (e : exn) (sid : option pystr) : Response :=
  {| answer := utf8 "Xin lỗi, đã xảy ra lỗi trong quá trình phân tích: " ++ str_exn e;
     metadata := {| success := false;
                    md_session_id := sid;
                    steps := 0;
                    md_tools_used := [];
                    md_intermediate_results := [] |} |}.

(** [analyze], as a function of the outcome of
    [self.workflow_manager.run(query, session_id)]. *)
Definition analyze_outcome (outcome : result AgentState) (sid : option pystr)
  : Response :=
  match (final_state ← outcome; reshape final_state sid) with
  | Ok r => r
  | Raise e => failure_payload e sid
  end.

(** [analyze] on a service whose coordinator holds an agent of the
    class, the model provider and the tools. *)
Definition analyze (get_system_prompt : result (option pystr))
    (chat_provider : ChatProvider) (tools : gmap pystr BaseTool)
    (q : pystr) (sid : option pystr) : Response :=
  analyze_outcome (ReActWorkflow.run get_system_prompt chat_provider tools q sid) sid.

End Service.
End StockAnalysisService.

(* ===================================================================== *)
(** ** Dictionaries read with a subscript *)
(* ===================================================================== *)

(** [d[key]] on a dictionary, [None] for an absent key. *)
Fixpoint dict_lookup (d : ToolDict) (key : pystr) : option pyval :=
  match d with
  | [] => None
  | (k, v) :: d' => if decide (k = key) then Some v else dict_lookup d' key
  end.

(** [d[key] = v]: an existing key keeps its place, a new key goes to the
    end. *)
Fixpoint dict_set (d : ToolDict) (key : pystr) (v : pyval) : ToolDict :=
  match d with
  | [] => [(key, v)]
  | (k, x) :: d' =>
    if decide (k = key) then (k, v) :: d' else (k, x) :: dict_set d' key v
  end.

(** [v[key]] for a string key: only a dictionary can be subscripted
    with one. *)
Definition subscript (v : pyval) (key : pystr) : result pyval :=
  match v with
  | VDict d =>
    match dict_lookup d key with
    | Some x => Ok x
    | None => Raise (KeyError key)
    end
  | _ => Raise TypeError
  end.

(** [v == s] for a string literal [s]. *)
Definition eq_str (v : pyval) (s : pystr) : bool :=
  match v with
  | VStr t => bool_decide (t = s)
  | _ => false
  end.

(* ===================================================================== *)
(** ** domain/tools/chat_tool.py *)
(* ===================================================================== *)

Module ChatTool.

Definition sensitive_terms : list pystr :=
  [utf8 "inappropriate"; utf8 "offensive"; utf8 "harmful"].

Definition FILTERED : pystr := utf8 "[FILTERED]".

(** [_apply_content_filter]: the terms are replaced one after the other,
    each on the text the previous replacement left. *)
Definition _apply_content_filter (text : pystr) : pystr :=
  fold_left (fun filtered_text term => replace filtered_text term FILTERED)
            sensitive_terms text.

(** [_apply_content_filter] on a value read from the provider's
    dictionary: [str.replace] needs a string. *)
Definition filter_value (v : pyval) : result pyval :=
  match v with
  | VStr text => Ok (VStr (_apply_content_filter text))
  | _ => Raise AttributeError
  end.

Section Tool.

(** [enable_content_filter] and [default_provider] are the settings
    [llm.enable_content_filter] and [llm.default_provider];
    [_enhance_query_for_vietnamese_market] lower-cases the query with
    [str.lower] and searches it with the [re] module and is kept as the
    function from the query to the enhanced query; [chat] is the
    injected [ChatProvider.chat] as a function of the prompt, giving
    the provider's dictionary. *)
Variable enable_content_filter : bool.
Variable default_provider : pystr.
Variable _enhance_query_for_vietnamese_market : pystr -> pystr.
Variable chat : pystr -> result pyval.

(** [_execute_impl(context, query=q)]: the coordinator passes no other
    keyword; the handler logs and re-raises. *)
Definition _execute_impl (context : QueryContext) (q : pystr) : result ToolDict :=
  let enhanced_query := _enhance_query_for_vietnamese_market q in
  let enhanced_query :=
    if enable_content_filter then _apply_content_filter enhanced_query
    else enhanced_query in
  chat_response ← chat enhanced_query;
  response ← subscript chat_response (utf8 "response");
  response ← (if enable_content_filter then filter_value response else Ok response);
  model ← subscript chat_response (utf8 "model");
  usage ← subscript chat_response (utf8 "usage");
  total_tokens ← subscript usage (utf8 "total_tokens");
  Ok [(utf8 "query", VStr enhanced_query);
      (utf8 "response", response);
      (utf8 "model", model);
      (utf8 "usage", usage);
      (utf8 "total_tokens", total_tokens);
      (utf8 "provider", VStr default_provider)].

(** [ChatTool(chat_provider)] *)
Definition tool : BaseTool :=
  Build_BaseTool
    (utf8 "chat_llm")
    (utf8 "Interact with an LLM to answer queries about Vietnamese stocks, market news, and financial data")
    _execute_impl.

End Tool.
End ChatTool.

(* ===================================================================== *)
(** ** domain/tools/tavily_search_tool.py *)
(* ===================================================================== *)

Module TavilySearchTool.

(** One iteration of the loop of [_format_results]: [result.get] needs a
    dictionary. *)
Definition format_result (r : pyval) : result pyval :=
  match r with
  | VDict d =>
    Ok (VDict [(utf8 "title", dict_get d (utf8 "title") (VStr []));
               (utf8 "url", dict_get d (utf8 "url") (VStr []));
               (utf8 "content", dict_get d (utf8 "content") (VStr []));
               (utf8 "score", dict_get d (utf8 "score") (VFloat 0 1));
               (utf8 "published_date", dict_get d (utf8 "published_date") (VStr []))])
  | _ => Raise AttributeError
  end.

Fixpoint _format_results (results : list pyval) : result (list pyval) :=
  match results with
  | [] => Ok []
  | r :: rest =>
    x ← format_result r;
    xs ← _format_results rest;
    Ok (x :: xs)
  end.

Section Tool.

(** [_enhance_query_for_vietnamese_market] lower-cases the query with
    [str.lower] and searches it with the [re] module; it is kept as the
    function from the query to the enhanced query.  [search] is the
    injected [WebSearchRetriever.search(query, max_results)]. *)
Variable _enhance_query_for_vietnamese_market : pystr -> pystr.
Variable search : pystr -> Z -> result (list pyval).

(** [_execute_impl(context, query=q)]: [max_results] is not passed by
    the coordinator and defaults to 5; the handler logs and re-raises. *)
Definition _execute_impl (context : QueryContext) (q : pystr) : result ToolDict :=
  let max_results := 5%Z in
  let enhanced_query := _enhance_query_for_vietnamese_market q in
  search_results ← search enhanced_query max_results;
  formatted_results ← _format_results search_results;
  Ok [(utf8 "query", VStr enhanced_query);
      (utf8 "results", VList formatted_results);
      (utf8 "total_results", VInt (Z.of_nat (length formatted_results)))].

(** [TavilySearchTool(web_search_retriever)] *)
Definition tool : BaseTool :=
  Build_BaseTool
    (utf8 "tavily_search")
    (utf8 "Search the web for current information about Vietnamese stocks, market news, and financial data")
    _execute_impl.

End Tool.
End TavilySearchTool.

(** Results that are dictionaries, the only ones [_format_results]
    accepts. *)
Definition is_dict (v : pyval) : bool :=
  match v with
  | VDict _ => true
  | _ => false
  end.

(** The dictionary [_format_results] builds from one raw result. *)
Definition reshaped (v : pyval) : pyval :=
  match TavilySearchTool.format_result v with
  | Ok x => x
  | Raise _ => v
  end.

(* ===================================================================== *)
(** ** domain/tools/rag_tool.py *)
(* ===================================================================== *)

Module RAGTool.

(** The default [min_score], the float [0.7], as the exact ratio of
    that float. *)
Definition MIN_SCORE_NUM : Z := 3152519739159347.
Definition MIN_SCORE_DEN : Z := 4503599627370496.

(** [score >= min_score]: numbers are compared by value; a string,
    [None], a list or a dictionary cannot be ordered against a float. *)
Definition at_least_min_score (score : pyval) : result bool :=
  match score with
  | VBool b => Ok ((if b then 1 else 0) * MIN_SCORE_DEN >=? MIN_SCORE_NUM)%Z
  | VInt z => Ok (z * MIN_SCORE_DEN >=? MIN_SCORE_NUM)%Z
  | VFloat num den => Ok (num * MIN_SCORE_DEN >=? MIN_SCORE_NUM * Z.pos den)%Z
  | _ => Raise TypeError
  end.

(** [[result for result in search_results
      if result.get("score", 0) >= min_score]] *)
Fixpoint filter_by_score (search_results : list pyval) : result (list pyval) :=
  match search_results with
  | [] => Ok []
  | r :: rest =>
    keep ← match r return result bool with
            | VDict d => at_least_min_score (dict_get d (utf8 "score") (VInt 0))
            | _ => Raise AttributeError
            end;
    kept ← filter_by_score rest;
    Ok (if (keep : bool) then r :: kept else kept)
  end.

(** [[r.get("score", 0) for r in filtered_results]] *)
Fixpoint confidence_scores (results : list pyval) : result (list pyval) :=
  match results with
  | [] => Ok []
  | r :: rest =>
    x ← match r return result pyval with
         | VDict d => Ok (dict_get d (utf8 "score") (VInt 0))
         | _ => Raise AttributeError
         end;
    xs ← confidence_scores rest;
    Ok (x :: xs)
  end.

(** One iteration of the loop of [_extract_sources]. *)
Definition source_of (r : pyval) : result pyval :=
  match r with
  | VDict d =>
    match dict_get d (utf8 "metadata") (VDict []) with
    | VDict metadata =>
      Ok (VDict [(utf8 "title", dict_get metadata (utf8 "title") (VStr (utf8 "Unknown")));
                 (utf8 "source", dict_get metadata (utf8 "source") (VStr []));
                 (utf8 "document_type",
                  dict_get metadata (utf8 "document_type") (VStr []));
                 (utf8 "score", dict_get d (utf8 "score") (VInt 0))])
    | _ => Raise AttributeError
    end
  | _ => Raise AttributeError
  end.

Fixpoint _extract_sources (results : list pyval) : result (list pyval) :=
  match results with
  | [] => Ok []
  | r :: rest =>
    x ← source_of r;
    xs ← _extract_sources rest;
    Ok (x :: xs)
  end.

Definition NOT_FOUND : pystr :=
  utf8 "Không tìm thấy thông tin liên quan trong cơ sở dữ liệu nội bộ.".

Section Tool.
Context `{PyBuiltins}.

(** [retrieve] is the injected [RagRetriever.retrieve(query,
    max_results)]; [format_2f] is the interpreter's rendering of the
    field [{score:.2f}], which raises on a value that is not a number. *)
Variable retrieve : pystr -> Z -> result (list pyval).
Variable format_2f : pyval -> result pystr.

(** One iteration of the loop of [_format_knowledge_context], for the
    [i]-th result. *)
Definition context_part (i : nat) (r : pyval) : result pystr :=
  match r with
  | VDict d =>
    let content := dict_get d (utf8 "content") (VStr []) in
    source ← match dict_get d (utf8 "metadata") (VDict []) return result pyval with
              | VDict metadata =>
                Ok (dict_get metadata (utf8 "title") (VStr (utf8 "Unknown")))
              | _ => Raise AttributeError
              end;
    let score := dict_get d (utf8 "score") (VInt 0) in
    score_text ← format_2f score;
    Ok (utf8 "[Nguồn " ++ decimal i ++ utf8 ": " ++ fmt source
        ++ utf8 " (độ tin cậy: " ++ score_text ++ utf8 ")]
" ++ fmt content ++ NL)
  | _ => Raise AttributeError
  end.

Fixpoint context_parts (i : nat) (results : list pyval) : result (list pystr) :=
  match results with
  | [] => Ok []
  | r :: rest =>
    x ← context_part i r;
    xs ← context_parts (S i) rest;
    Ok (x :: xs)
  end.

Definition _format_knowledge_context (results : list pyval) : result pystr :=
  match results with
  | [] => Ok NOT_FOUND
  | _ :: _ =>
    context_parts ← context_parts 1 results;
    Ok (join (utf8 "
---
") context_parts)
  end.

(** [_execute_impl(context, query=q)]: [max_results] and [min_score]
    are not passed by the coordinator and take their defaults; the
    handler logs and re-raises. *)
Definition _execute_impl (context : QueryContext) (q : pystr) : result ToolDict :=
  let max_results := 5%Z in
  search_results ← retrieve q max_results;
  filtered_results ← filter_by_score search_results;
  knowledge_context ← _format_knowledge_context filtered_results;
  sources ← _extract_sources filtered_results;
  scores ← confidence_scores filtered_results;
  Ok [(utf8 "query", VStr q);
      (utf8 "knowledge_context", VStr knowledge_context);
      (utf8 "sources", VList sources);
      (utf8 "total_results", VInt (Z.of_nat (length filtered_results)));
      (utf8 "confidence_scores", VList scores)].

(** [RAGTool(rag_retriever)] *)
Definition tool : BaseTool :=
  Build_BaseTool
    (utf8 "rag_knowledge")
    (utf8 "Search internal knowledge base for Vietnamese stock market information from uploaded documents")
    _execute_impl.

End Tool.
End RAGTool.

(* ===================================================================== *)
(** ** application/services/health_check_service.py *)
(* ===================================================================== *)

Definition STATUS : pystr := utf8 "status".
Definition UNHEALTHY : pystr := utf8 "unhealthy".

Module HealthCheckService.
Section Service.
Context `{PyBuiltins}.

(** The entry the inner handler stores for a service. *)
Definition failed (service_name : pystr) (e : exn) : pyval :=
  VDict [(STATUS, VStr UNHEALTHY);
         (utf8 "details",
          VDict [(utf8 "error", VStr (str_exn e));
                 (utf8 "message",
                  VStr (utf8 "Failed to check health of " ++ service_name))])].

(** One iteration of the loop over [self.services.items()], on the pair
    of [results] and [overall_status].  [outcome] is what
    [await service.check_health()] gave.  The assignment
    [results[service_name] = result] comes before the read of
    [result["status"]], so the handler overwrites an entry that is
    already there. *)
Definition check_service (acc : ToolDict * pystr)
    (service : pystr * result pyval) : ToolDict * pystr :=
  let '(results, overall_status) := acc in
  let '(service_name, outcome) := service in
  match outcome with
  | Ok r =>
    let results := dict_set results service_name r in
    match subscript r STATUS with
    | Ok status =>
      (results, if eq_str status UNHEALTHY then UNHEALTHY else overall_status)
    | Raise e => (dict_set results service_name (failed service_name e), UNHEALTHY)
    end
  | Raise e => (dict_set results service_name (failed service_name e), UNHEALTHY)
  end.

(** [check_health]: [services] lists the registered services in the
    order of the dictionary, each with the outcome of its own check;
    [version] is [settings.app.version].  Every statement of the loop
    that can raise is inside the inner [try], whose handler catches
    [Exception], so the outer handler is not reached. *)
Definition check_health (services : list (pystr * result pyval)) (version : pyval)
  : ToolDict :=
  let '(results, overall_status) :=
    fold_left check_service services ([], utf8 "healthy") in
  [(STATUS, VStr overall_status);
   (utf8 "version", version);
   (utf8 "services", VDict results)].

End Service.
End HealthCheckService.

(* ===================================================================== *)
(** ** api/models/responses.py *)
(* ===================================================================== *)

Module Responses.

Record ToolResultResponse := {
  trr_tool_name : pystr;
  trr_success : bool;
  trr_execution_time : pyval;
  trr_error_message : option pystr
}.

Record AgentResponse := {
  ar_answer : pystr;
  ar_success : bool;
  ar_steps : nat;
  ar_tools_used : list pystr;
  ar_intermediate_results : list ToolResultResponse;
  ar_session_id : option pystr
}.

Record HealthResponse := {
  hr_status : pystr;
  hr_version : pystr;
  hr_services : list (pystr * pystr)
}.

Section Validation.

(** The models are validated by the pydantic library.  What it makes of
    a scalar of another type (a number given for a [str] field, a string
    given for a [bool] or [float] field) depends on its version and is
    kept as functions of the value. *)
Variable coerce_str : pyval -> option pystr.
Variable bool_field : pyval -> option bool.
Variable float_field : pyval -> option pyval.

(** A [str] field: a string is accepted, [None], a list and a
    dictionary are rejected. *)
Definition str_field (v : pyval) : option pystr :=
  match v with
  | VStr s => Some s
  | VNone | VList _ | VDict _ => None
  | _ => coerce_str v
  end.

(** A field without a default is required. *)
Definition required {A} (kwargs : ToolDict) (key : string)
    (field : pyval -> option A) : result A :=
  match dict_lookup kwargs (utf8 key) with
  | Some v =>
    match field v with
    | Some a => Ok a
    | None => Raise ValidationError
    end
  | None => Raise ValidationError
  end.

(** [error_message: Optional[str] = None] *)
Definition optional_str (kwargs : ToolDict) (key : string) : result (option pystr) :=
  match dict_lookup kwargs (utf8 key) with
  | None | Some VNone => Ok None
  | Some v =>
    match str_field v with
    | Some s => Ok (Some s)
    | None => Raise ValidationError
    end
  end.

(** A dictionary given where a [ToolResultResponse] is expected. *)
Definition ToolResultResponse_validate (d : ToolDict) : result ToolResultResponse :=
  tool_name ← required d "tool_name" str_field;
  success ← required d "success" bool_field;
  execution_time ← required d "execution_time" float_field;
  error_message ← optional_str d "error_message";
  Ok {| trr_tool_name := tool_name;
        trr_success := success;
        trr_execution_time := execution_time;
        trr_error_message := error_message |}.

Fixpoint validate_results (ds : list ToolDict) : result (list ToolResultResponse) :=
  match ds with
  | [] => Ok []
  | d :: rest =>
    x ← ToolResultResponse_validate d;
    xs ← validate_results rest;
    Ok (x :: xs)
  end.

(** [AgentResponse(answer=..., success=..., steps=..., tools_used=...,
    intermediate_results=..., session_id=...)] on values that already
    have the types of the first four and the last field. *)
Definition new_AgentResponse (answer : pystr) (success : bool) (steps : nat)
    (tools_used : list pystr) (intermediate_results : list ToolDict)
    (session_id : option pystr) : result AgentResponse :=
  results ← validate_results intermediate_results;
  Ok {| ar_answer := answer;
        ar_success := success;
        ar_steps := steps;
        ar_tools_used := tools_used;
        ar_intermediate_results := results;
        ar_session_id := session_id |}.

(** The values of a [Dict[str, str]] field given as a dictionary. *)
Fixpoint str_values (items : ToolDict) : option (list (pystr * pystr)) :=
  match items with
  | [] => Some []
  | (k, v) :: rest =>
    match str_field v, str_values rest with
    | Some s, Some xs => Some ((k, s) :: xs)
    | _, _ => None
    end
  end.

Variable coerce_dict : pyval -> option (list (pystr * pystr)).

Definition services_field (v : pyval) : option (list (pystr * pystr)) :=
  match v with
  | VDict items => str_values items
  | _ => coerce_dict v
  end.

(** [HealthResponse] built from the keyword arguments [kwargs]. *)
Definition new_HealthResponse (kwargs : ToolDict) : result HealthResponse :=
  status ← required kwargs "status" str_field;
  version ← required kwargs "version" str_field;
  services ← required kwargs "services" services_field;
  Ok {| hr_status := status; hr_version := version; hr_services := services |}.

End Validation.
End Responses.

(* ===================================================================== *)
(** ** api/routers/health.py *)
(* ===================================================================== *)

Module HealthRouter.
Section Router.
Context `{PyBuiltins}.
Variable coerce_str : pyval -> option pystr.
Variable coerce_dict : pyval -> option (list (pystr * pystr)).

Definition service_names : list pystr :=
  [utf8 "vector_store"; utf8 "llm"; utf8 "search"; utf8 "rag_provider";
   utf8 "cohere_embedding"; utf8 "gemini_embedding"; utf8 "hf_embedding";
   utf8 "s3_loader"].

(** The response of the handler. *)
Definition unknown (e : exn) (version : pystr) : Responses.HealthResponse :=
  {| Responses.hr_status := UNHEALTHY;
     Responses.hr_version := version;
     Responses.hr_services :=
       map (fun service_name =>
              (service_name, utf8 "Status: Unknown - Detailed Error: " ++ str_exn e))
           service_names |}.

(** [health_check]: [constructed] is the outcome of
    [HealthCheckService()], the registered services with the outcome of
    each one's check; [version] is [settings.app.version]. *)
Definition health_check
    (constructed : result (list (pystr * result pyval))) (version : pystr)
  : Responses.HealthResponse :=
  match (services ← constructed;
         Responses.new_HealthResponse coerce_str coerce_dict
           (HealthCheckService.check_health services (VStr version))) with
  | Ok response => response
  | Raise e => unknown e version
  end.

End Router.
End HealthRouter.

(* ===================================================================== *)
(** ** api/routers/agent.py *)
(* ===================================================================== *)

Module AgentRouter.

(** What the endpoint gives: the response model, or an [HTTPException]
    with its status code and detail. *)
Inductive Reply :=
| Returned (response : Responses.AgentResponse)
| HTTPException (status_code : Z) (detail : pystr).

Section Router.
Context `{PyBuiltins}.
Variable coerce_str : pyval -> option pystr.
Variable bool_field : pyval -> option bool.
Variable float_field : pyval -> option pyval.

(** [[name for name, status in services.items()
      if status["status"] == "unhealthy"]] *)
Fixpoint unhealthy_items (items : ToolDict) : result (list pystr) :=
  match items with
  | [] => Ok []
  | (service_name, entry) :: rest =>
    status ← subscript entry STATUS;
    names ← unhealthy_items rest;
    Ok (if eq_str status UNHEALTHY then service_name :: names else names)
  end.

Definition unhealthy_services (services : pyval) : result (list pystr) :=
  match services with
  | VDict items => unhealthy_items items
  | _ => Raise AttributeError
  end.

(** [query_agent]: [health_status] is what
    [health_service.check_health()] returned and [analysis] what
    [stock_analysis_service.analyze(...)] returns (it is awaited only
    when the services are healthy).  An [HTTPException] raised in the
    [try] block is re-raised as it is; any other exception becomes the
    status 500. *)
Definition query_agent (health_status : ToolDict)
    (analysis : StockAnalysisService.Response) : Reply :=
  let body : result Reply :=
    status ← subscript (VDict health_status) STATUS;
    if eq_str status UNHEALTHY then
      services ← subscript (VDict health_status) (utf8 "services");
      names ← unhealthy_services services;
      Ok (HTTPException 503
            (utf8 "Cannot process query: unhealthy services: "
             ++ str_val (VList (map VStr names))))
    else
      let metadata := StockAnalysisService.metadata analysis in
      response ← Responses.new_AgentResponse coerce_str bool_field float_field
                   (StockAnalysisService.answer analysis)
                   (StockAnalysisService.success metadata)
                   (StockAnalysisService.steps metadata)
                   (StockAnalysisService.md_tools_used metadata)
                   (StockAnalysisService.md_intermediate_results metadata)
                   (StockAnalysisService.md_session_id metadata);
      Ok (Returned response)
  in
  match body with
  | Ok reply => reply
  | Raise e =>
    HTTPException 500 (utf8 "Query processing failed: " ++ str_exn e)
  end.

End Router.
End AgentRouter.

(** A service whose check raised, or whose result has no readable
    status, or reports the status "unhealthy". *)
Definition troubled (service : pystr * result pyval) : bool :=
  match snd service with
  | Ok r =>
    match subscript r STATUS with
    | Ok status => eq_str status UNHEALTHY
    | Raise _ => true
    end
  | Raise _ => true
  end.

(** The entry that [check_health] stores for a service: the result of
    its check when that has a readable status, otherwise the entry of
    the handler. *)
Definition recorded `{PyBuiltins} (service : pystr * result pyval) : pystr * pyval :=
  (fst service,
   match snd service with
   | Ok r =>
     match subscript r STATUS with
     | Ok _ => r
     | Raise e => HealthCheckService.failed (fst service) e
     end
   | Raise e => HealthCheckService.failed (fst service) e
   end).

(** The score of a retrieved result, 0 when it has none. *)
Definition score_of (r : pyval) : pyval :=
  match r with
  | VDict d => dict_get d (utf8 "score") (VInt 0)
  | _ => VInt 0
  end.

(** A retrieved result whose score is a number not below the float
    0.7, which is 3152519739159347 / 2^52. *)
Definition passes_min_score (r : pyval) : bool :=
  match score_of r with
  | VBool b => b
  | VInt z => (3152519739159347 <=? z * 2 ^ 52)%Z
  | VFloat num den => (3152519739159347 * Z.pos den <=? num * 2 ^ 52)%Z
  | _ => false
  end.

(** A tool payload that has the three required fields of
    [ToolResultResponse]. *)
Definition has_required_fields (d : ToolDict) : bool :=
  match dict_lookup d (utf8 "tool_name"), dict_lookup d (utf8 "success"),
        dict_lookup d (utf8 "execution_time") with
  | Some _, Some _, Some _ => true
  | _, _, _ => false
  end.

(* ===================================================================== *)
(** ** Vocabulary of the statements *)
(* ===================================================================== *)

(** A string that does not begin with whitespace. *)
Definition no_lead (s : pystr) : Prop :=
  match s with
  | [] => True
  | x :: _ => isspace x = false
  end.

(** [t] is [s] without its leading and trailing whitespace: [s] is [t]
    between two runs of whitespace, and [t] neither begins nor ends with
    whitespace. *)
Definition trimmed (t s : pystr) : Prop :=
  (exists w1 w2, s = w1 ++ t ++ w2 /\
                 forallb isspace w1 = true /\ forallb isspace w2 = true) /\
  no_lead t /\ no_lead (rev t).

(** The stripped lines of a message that begin with a marker, in order. *)
Definition marker_lines (marker message : pystr) : list pystr :=
  List.filter (fun l => startswith l marker) (map strip (split message NL)).

(** No proper non-empty prefix of [m] is also a suffix of [m]: two
    occurrences of such a marker never overlap. *)
Definition border_free (m : pystr) : bool :=
  forallb (fun k => negb (bool_decide (firstn k m = skipn (length m - k) m)))
          (seq 1 (length m - 1)).

Definition non_user (m : Message) : bool :=
  negb (bool_decide (role m = utf8 "user")).

(** The text [analyze] builds from the turns: every content of a turn
    whose role is not "user", each followed by a newline. *)
Definition synthesized (msgs : list Message) : pystr :=
  concat (map (fun m => default [] (content m) ++ NL) (List.filter non_user msgs)).

(** The predicate as the specification words it: terminated exactly
    when final_answer is set, or current_step >= max_steps, or the
    content of the most recent assistant turn has no "Action:". *)
Definition most_recent_assistant (msgs : list Message) : option Message :=
  last (List.filter (fun m => bool_decide (role m = utf8 "assistant")) msgs).

Definition specified_should_continue (state : AgentState) : ReActWorkflow.Decision :=
  let set := match final_answer state with Some _ => true | None => false end in
  let exhausted :=
    match current_step state, max_steps state with
    | Some n, Some bound => (n >=? bound)%Z
    | _, _ => false
    end in
  let directive :=
    match most_recent_assistant (default [] (messages state)) with
    | Some m => match content m with Some text => py_in ACTION text | None => false end
    | None => false
    end in
  if set || exhausted || negb directive then ReActWorkflow.End_ else ReActWorkflow.Continue.

(* ===================================================================== *)
(** ** Sample collaborators and states *)
(* ===================================================================== *)

Module Fixtures.

#[export] Instance sample_builtins : PyBuiltins :=
  {| str_exn := fun e => match e with Failure msg => msg | _ => utf8 "error" end;
     str_val := fun _ => utf8 "value" |}.

(** An agent of the same class whose [_get_system_prompt] returns a
    string. *)
Definition SYSTEM : pystr := utf8 "You are a ReAct agent.".
Definition prompted_agent : ReActAgent :=
  StockReActAgent.agent_with (Ok (Some SYSTEM)).

(** A model that always gives the same reply. *)
Definition scripted (reply : pystr) : ChatProvider := fun _ => Ok reply.

Definition final_reply : pystr :=
  join NL [utf8 "Thought: enough"; utf8 "Final Answer: draft";
           utf8 "Final Answer:  VNM closed higher  "].

Definition tool_reply : pystr :=
  join NL [utf8 "Thought: ask the model"; utf8 "Action: chat_llm";
           utf8 "Action Input: hi"].

Definition failing_tool : BaseTool :=
  {| name := utf8 "chat_llm";
     description := utf8 "Interact with an LLM";
     _execute_impl := fun _ _ => Raise (Failure (utf8 "connection refused")) |}.

Definition registry : gmap pystr BaseTool :=
  {[ utf8 "chat_llm" := failing_tool ]}.

(** A tool that answers. *)
Definition greeting : ToolDict :=
  [(utf8 "response", VStr (utf8 "Xin chào")); (utf8 "model", VStr (utf8 "gpt"))].

Definition greeting_tool : BaseTool :=
  {| name := utf8 "chat_llm";
     description := utf8 "Interact with an LLM";
     _execute_impl := fun _ _ => Ok greeting |}.

Definition working_registry : gmap pystr BaseTool :=
  {[ utf8 "chat_llm" := greeting_tool ]}.

Definition hi_state : AgentState := ReActWorkflow.initial_state (utf8 "hi").

Definition hi_reasoning : ReasoningResult :=
  {| rr_messages := [turn "system" SYSTEM; turn "user" (utf8 "hi")];
     rr_current_step := 0;
     rr_final_answer := None |}.

Definition hi_prompt : pystr := join NL [SYSTEM; utf8 "hi"].

(** A state that already carries a final answer. *)
Definition answered_state : AgentState :=
  {| messages := Some [turn "user" (utf8 "hi"); turn "assistant" (utf8 "Final Answer: FPT fell")];
     current_step := Some 1%Z;
     max_steps := Some 10%Z;
     tools_used := Some [];
     intermediate_results := Some [];
     final_answer := Some (utf8 "FPT fell") |}.

Definition overwritten_state : AgentState :=
  {| messages := Some [turn "system" SYSTEM; turn "user" (utf8 "hi");
                       turn "assistant" (utf8 "Final Answer: FPT fell");
                       turn "assistant" final_reply];
     current_step := Some 2%Z;
     max_steps := Some 10%Z;
     tools_used := Some [];
     intermediate_results := Some [];
     final_answer := Some (utf8 "VNM closed higher") |}.

(** The state after a tool call: the last turn is the observation,
    which has role "user". *)
Definition observed_state : AgentState :=
  {| messages := Some [turn "system" SYSTEM; turn "user" (utf8 "hi");
                       turn "assistant" tool_reply;
                       turn "user" (utf8 "Kết quả từ LLM (gpt):
Xin chào")];
     current_step := Some 1%Z;
     max_steps := Some 10%Z;
     tools_used := Some [utf8 "chat_llm"];
     intermediate_results := Some [greeting];
     final_answer := None |}.

(** The state after the reply "Action: chat_llm / Final Answer:": the
    extracted final answer is the empty string. *)
Definition empty_answer_reply : pystr :=
  join NL [utf8 "Action: chat_llm"; utf8 "Final Answer:"].

Definition empty_answer_state : AgentState :=
  {| messages := Some [turn "system" SYSTEM; turn "user" (utf8 "hi");
                       turn "assistant" empty_answer_reply];
     current_step := Some 1%Z;
     max_steps := Some 10%Z;
     tools_used := Some [];
     intermediate_results := Some [];
     final_answer := Some [] |}.

(** A state whose last turn asks for a tool. *)
Definition asking_state : AgentState :=
  {| messages := Some [turn "system" SYSTEM; turn "user" (utf8 "hi");
                       turn "assistant" tool_reply];
     current_step := Some 1%Z;
     max_steps := Some 10%Z;
     tools_used := Some [];
     intermediate_results := Some [];
     final_answer := None |}.

(** Terminal states without a final answer. *)
Definition silent_state : AgentState :=
  {| messages := Some [turn "user" (utf8 "hi")];
     current_step := Some 10%Z;
     max_steps := Some 10%Z;
     tools_used := Some [];
     intermediate_results := Some [];
     final_answer := None |}.

Definition two_turn_state : AgentState :=
  {| messages := Some [turn "user" (utf8 "hi"); turn "assistant" (utf8 "a");
                       turn "assistant" (utf8 "b")];
     current_step := Some 10%Z;
     max_steps := Some 10%Z;
     tools_used := Some [];
     intermediate_results := Some [];
     final_answer := None |}.

(** Services with distinct names: all well, and some in trouble (a
    check that raised, a result without a status, a reported
    "unhealthy"). *)
Definition healthy_services : list (pystr * result pyval) :=
  [(utf8 "vector_store", Ok (VDict [(utf8 "status", VStr (utf8 "healthy"))]));
   (utf8 "llm", Ok (VDict [(utf8 "status", VStr (utf8 "degraded"))]))].

Definition troubled_services : list (pystr * result pyval) :=
  [(utf8 "vector_store", Ok (VDict [(utf8 "status", VStr (utf8 "healthy"))]));
   (utf8 "llm", Raise (Failure (utf8 "timeout")));
   (utf8 "search", Ok (VDict [(utf8 "state", VStr (utf8 "up"))]));
   (utf8 "s3_loader", Ok (VDict [(utf8 "status", VStr (utf8 "unhealthy"))]))].

(** A validation that coerces nothing. *)
Definition no_coercion {A : Type} (v : pyval) : option A := None.

(** A retriever with one result. *)
Definition sample_results : list pyval :=
  [VDict [(utf8 "title", VStr (utf8 "VNM"));
          (utf8 "content", VStr (utf8 "up"));
          (utf8 "raw_content", VNone)]].

Definition sample_search (q : pystr) (max_results : Z) : result (list pyval) :=
  Ok sample_results.

(** Retrieved documents with the scores 0.75, 0.5, none and 1. *)
Definition rag_results : list pyval :=
  [VDict [(utf8 "content", VStr (utf8 "Q3 report"));
          (utf8 "metadata", VDict [(utf8 "title", VStr (utf8 "VNM memo"))]);
          (utf8 "score", VFloat 3 4)];
   VDict [(utf8 "content", VStr (utf8 "old")); (utf8 "score", VFloat 1 2)];
   VDict [(utf8 "content", VStr (utf8 "note"))];
   VDict [(utf8 "content", VStr (utf8 "audit")); (utf8 "score", VInt 1)]].

(** A chat provider whose reply holds a sensitive term. *)
Definition sample_chat (prompt : pystr) : result pyval :=
  Ok (VDict [(utf8 "response", VStr (utf8 "not harmful at all"));
             (utf8 "model", VStr (utf8 "gpt"));
             (utf8 "usage", VDict [(utf8 "total_tokens", VInt 7)])]).

End Fixtures.

(* ===================================================================== *)
(** * Properties *)
(* ===================================================================== *)

(** ** The string primitives on the literals of the source *)

Example utf8_ascii : utf8 "Action:" = [65; 99; 116; 105; 111; 110; 58]%N.
Proof. reflexivity. Qed.

Example split_example :
  split (utf8 "x Final Answer: 1 Final Answer: 2 ") (utf8 "Final Answer:")
  = [utf8 "x "; utf8 " 1 "; utf8 " 2 "].
Proof. vm_compute. reflexivity. Qed.

Example replace_example :
  strip (replace (utf8 "Action: a Action: b") (utf8 "Action:") [])
  = utf8 "a  b".
Proof. vm_compute. reflexivity. Qed.

Example decimal_example : decimal 305 = utf8 "305".
Proof. vm_compute. reflexivity. Qed.

(** ** Prefixes and substrings *)

Lemma strip_prefix_spec (p s r : pystr) :
  strip_prefix p s = Some r <-> s = p ++ r.
Proof.
  revert s; induction p as [|c p IH]; intros s; simpl.
  - split; [intros [= ->]; reflexivity | intros ->; reflexivity].
  - destruct s as [|d s]; [split; discriminate|].
    destruct (N.eqb_spec c d) as [->|Hne].
    + rewrite IH. split; [intros ->; reflexivity | intros [= ->]; reflexivity].
    + split; [discriminate | intros [= -> _]; contradiction].
Qed.

Lemma strip_prefix_app (p r : pystr) : strip_prefix p (p ++ r) = Some r.
Proof. apply strip_prefix_spec; reflexivity. Qed.

Lemma strip_prefix_nil (p : pystr) : p <> [] -> strip_prefix p [] = None.
Proof. destruct p; [contradiction | reflexivity]. Qed.

Lemma strip_prefix_shorter (p s r : pystr) :
  p <> [] -> strip_prefix p s = Some r -> length r < length s.
Proof.
  intros Hp Hs. apply strip_prefix_spec in Hs. subst s.
  rewrite length_app. destruct p; [contradiction | simpl; lia].
Qed.

Lemma startswith_spec (s p : pystr) :
  startswith s p = true <-> exists r, s = p ++ r.
Proof.
  unfold startswith. destruct (strip_prefix p s) as [r|] eqn:E.
  - apply strip_prefix_spec in E. split; eauto.
  - split; [discriminate|]. intros [r Hr].
    apply strip_prefix_spec in Hr. congruence.
Qed.

Lemma py_in_spec (sub s : pystr) :
  py_in sub s = true <-> exists a b, s = a ++ sub ++ b.
Proof.
  induction s as [|c s IH]; simpl.
  - rewrite orb_false_r, startswith_spec. split.
    + intros [r Hr]. exists [], r. exact Hr.
    + intros (a & b & Hab). destruct a; [eauto|discriminate].
  - rewrite orb_true_iff, startswith_spec, IH. split.
    + intros [[r Hr]|(a & b & Hab)].
      * exists [], r. exact Hr.
      * exists (c :: a), b. rewrite Hab. reflexivity.
    + intros (a & b & Hab). destruct a as [|x a]; simpl in Hab.
      * left. eauto.
      * right. injection Hab as _ Hab. eauto.
Qed.

Lemma py_in_occurrence (sub a b : pystr) : py_in sub (a ++ sub ++ b) = true.
Proof. apply py_in_spec. eauto. Qed.

Lemma py_in_prefix (sub b : pystr) : py_in sub (sub ++ b) = true.
Proof. apply (py_in_occurrence sub [] b). Qed.

(** ** The left-to-right scan shared by [split] and [replace] *)

Section Scan.
Variable sep : pystr.
Hypothesis sep_nonempty : sep <> [].

Lemma scan_ind (P : pystr -> Prop) :
  P [] ->
  (forall s rest, strip_prefix sep s = Some rest -> P rest -> P s) ->
  (forall c s, strip_prefix sep (c :: s) = None -> P s -> P (c :: s)) ->
  forall s, P s.
Proof.
  intros Hnil Hhit Hmiss s.
  remember (length s) as n eqn:Hn. revert s Hn.
  induction n as [n IH] using lt_wf_ind. intros s Hn.
  destruct (strip_prefix sep s) as [rest|] eqn:E.
  - apply (Hhit s rest E). apply (IH (length rest)); [|reflexivity].
    subst n. eapply strip_prefix_shorter; eauto.
  - destruct s as [|c s]; [exact Hnil|].
    apply (Hmiss c s E). apply (IH (length s)); [|reflexivity].
    subst n. simpl. lia.
Qed.

Lemma split_fuel_enough (fuel1 fuel2 : nat) (s : pystr) :
  length s < fuel1 -> length s < fuel2 ->
  split_fuel fuel1 sep s = split_fuel fuel2 sep s.
Proof.
  revert fuel2 s. induction fuel1 as [|fuel1 IH]; intros fuel2 s H1 H2; [lia|].
  destruct fuel2 as [|fuel2]; [lia|]. simpl.
  destruct (strip_prefix sep s) as [rest|] eqn:E.
  - f_equal. pose proof (strip_prefix_shorter _ _ _ sep_nonempty E).
    apply IH; lia.
  - destruct s as [|c s]; [reflexivity|]. simpl in *.
    f_equal. apply IH; lia.
Qed.

Lemma split_fuel_S (fuel : nat) (s : pystr) :
  split_fuel (S fuel) sep s =
  match strip_prefix sep s with
  | Some rest => [] :: split_fuel fuel sep rest
  | None =>
    match s with
    | [] => [[]]
    | c :: s' => cons_head c (split_fuel fuel sep s')
    end
  end.
Proof. reflexivity. Qed.

Lemma split_hit (s rest : pystr) :
  strip_prefix sep s = Some rest -> split s sep = [] :: split rest sep.
Proof.
  intros E. unfold split. rewrite split_fuel_S, E. f_equal.
  pose proof (strip_prefix_shorter _ _ _ sep_nonempty E).
  apply split_fuel_enough; lia.
Qed.

Lemma split_miss (c : char) (s : pystr) :
  strip_prefix sep (c :: s) = None ->
  split (c :: s) sep = cons_head c (split s sep).
Proof.
  intros E. unfold split. rewrite split_fuel_S, E. reflexivity.
Qed.

Lemma split_nil : split [] sep = [[]].
Proof. unfold split. simpl. rewrite strip_prefix_nil by assumption. reflexivity. Qed.

Lemma split_nonempty (s : pystr) : split s sep <> [].
Proof.
  induction s as [| s rest E IH | c s E IH] using scan_ind.
  - rewrite split_nil. discriminate.
  - rewrite (split_hit _ _ E). discriminate.
  - rewrite (split_miss _ _ E). destruct (split s sep); discriminate.
Qed.

Lemma join_cons (p : pystr) (l : list pystr) :
  l <> [] -> join sep (p :: l) = p ++ sep ++ join sep l.
Proof. destruct l; [contradiction | reflexivity]. Qed.

Lemma join_cons_head (c : char) (l : list pystr) :
  l <> [] -> join sep (cons_head c l) = c :: join sep l.
Proof.
  destruct l as [|p [|q l]]; [contradiction | reflexivity | reflexivity].
Qed.

(** [sep.join(s.split(sep)) == s] *)
Lemma join_split (s : pystr) : join sep (split s sep) = s.
Proof.
  induction s as [| s rest E IH | c s E IH] using scan_ind.
  - rewrite split_nil. reflexivity.
  - rewrite (split_hit _ _ E), join_cons by apply split_nonempty.
    rewrite IH. simpl. apply strip_prefix_spec in E. congruence.
  - rewrite (split_miss _ _ E), join_cons_head by apply split_nonempty.
    rewrite IH. reflexivity.
Qed.

Lemma last_cons_head (c : char) (p q : pystr) (l : list pystr) :
  last_piece (cons_head c (p :: q :: l)) = last_piece (p :: q :: l).
Proof. reflexivity. Qed.

(** No occurrence: one piece.  Some occurrence: at least two pieces, and
    the last piece is what follows an occurrence and holds none itself. *)
Lemma split_last (s : pystr) :
  if py_in sep s
  then (exists p q l, split s sep = p :: q :: l) /\
       exists pre, s = pre ++ sep ++ last_piece (split s sep) /\
                   py_in sep (last_piece (split s sep)) = false
  else split s sep = [s].
Proof.
  induction s as [| s rest E IH | c s E IH] using scan_ind.
  - simpl. unfold startswith. rewrite strip_prefix_nil by assumption.
    simpl. apply split_nil.
  - assert (Hin : py_in sep s = true).
    { apply py_in_spec. exists [], rest. apply strip_prefix_spec in E. exact E. }
    rewrite Hin, (split_hit _ _ E). apply strip_prefix_spec in E.
    destruct (py_in sep rest) eqn:Hrest.
    + destruct IH as [(p & q & l & Hs) (pre & Hpre & Hlast)].
      rewrite Hs in *. split; [eauto|].
      exists (sep ++ pre). split; [|exact Hlast].
      change (last_piece ([] :: p :: q :: l)) with (last_piece (p :: q :: l)).
      rewrite E, Hpre at 1. rewrite <- !app_assoc. reflexivity.
    + rewrite IH. split; [eauto|]. exists []. simpl. split; [exact E | exact Hrest].
  - rewrite (split_miss _ _ E). simpl.
    unfold startswith at 1. rewrite E. simpl.
    destruct (py_in sep s) eqn:Hs.
    + destruct IH as [(p & q & l & Hsp) (pre & Hpre & Hlast)].
      rewrite Hsp in *. split; [simpl; eauto|].
      rewrite last_cons_head. exists (c :: pre). split; [|exact Hlast].
      simpl. f_equal. exact Hpre.
    + rewrite IH. reflexivity.
Qed.

Lemma replace_fuel_enough (new : pystr) (fuel1 fuel2 : nat) (s : pystr) :
  length s < fuel1 -> length s < fuel2 ->
  replace_fuel fuel1 sep new s = replace_fuel fuel2 sep new s.
Proof.
  revert fuel2 s. induction fuel1 as [|fuel1 IH]; intros fuel2 s H1 H2; [lia|].
  destruct fuel2 as [|fuel2]; [lia|]. simpl.
  destruct (strip_prefix sep s) as [rest|] eqn:E.
  - f_equal. pose proof (strip_prefix_shorter _ _ _ sep_nonempty E).
    apply IH; lia.
  - destruct s as [|c s]; [reflexivity|]. simpl in *.
    f_equal. apply IH; lia.
Qed.

Lemma replace_fuel_S (new : pystr) (fuel : nat) (s : pystr) :
  replace_fuel (S fuel) sep new s =
  match strip_prefix sep s with
  | Some rest => new ++ replace_fuel fuel sep new rest
  | None =>
    match s with
    | [] => []
    | c :: s' => c :: replace_fuel fuel sep new s'
    end
  end.
Proof. reflexivity. Qed.

Lemma replace_hit (new s rest : pystr) :
  strip_prefix sep s = Some rest ->
  replace s sep new = new ++ replace rest sep new.
Proof.
  intros E. unfold replace. rewrite replace_fuel_S, E. f_equal.
  pose proof (strip_prefix_shorter _ _ _ sep_nonempty E).
  apply replace_fuel_enough; lia.
Qed.

Lemma replace_miss (new : pystr) (c : char) (s : pystr) :
  strip_prefix sep (c :: s) = None ->
  replace (c :: s) sep new = c :: replace s sep new.
Proof.
  intros E. unfold replace. rewrite replace_fuel_S, E. reflexivity.
Qed.

(** Nothing to replace: the string is returned as it is. *)
Lemma replace_absent (new s : pystr) :
  py_in sep s = false -> replace s sep new = s.
Proof.
  induction s as [| s rest E IH | c s E IH] using scan_ind; intros Hin.
  - unfold replace. simpl. rewrite strip_prefix_nil by assumption. reflexivity.
  - apply strip_prefix_spec in E. subst s.
    pose proof (py_in_occurrence sep [] rest) as Hyes. simpl in Hyes. congruence.
  - rewrite (replace_miss _ _ _ E). simpl in Hin.
    apply orb_false_iff in Hin as [_ Hin]. rewrite IH by assumption. reflexivity.
Qed.

End Scan.

(** ** Lines: splitting on one character *)

Lemma startswith_nil (s : pystr) : startswith s [] = true.
Proof. destruct s; reflexivity. Qed.

Lemma startswith_cons (x d : char) (s m : pystr) :
  startswith (x :: s) (d :: m) = (d =? x)%N && startswith s m.
Proof. unfold startswith. simpl. destruct (d =? x)%N; reflexivity. Qed.

Lemma startswith_empty (m : pystr) : m <> [] -> startswith [] m = false.
Proof. destruct m; [contradiction | reflexivity]. Qed.

Lemma py_in_nil (m : pystr) : m <> [] -> py_in m [] = false.
Proof. intros Hm. simpl. rewrite startswith_empty by assumption. reflexivity. Qed.

Section Lines.
Variable c : char.

Lemma strip_prefix_char (x : char) (s : pystr) :
  strip_prefix [c] (x :: s) = if (c =? x)%N then Some s else None.
Proof. reflexivity. Qed.

Lemma char_sep_nonempty : [c] <> [].
Proof. discriminate. Qed.

Lemma split_char_cons (x : char) (s : pystr) :
  split (x :: s) [c] =
  if (c =? x)%N then [] :: split s [c] else cons_head x (split s [c]).
Proof.
  destruct (c =? x)%N eqn:E.
  - apply split_hit; [apply char_sep_nonempty|]. rewrite strip_prefix_char, E. reflexivity.
  - apply split_miss. rewrite strip_prefix_char, E. reflexivity.
Qed.

(** No piece of a split holds the separator character. *)
Lemma split_char_pieces (s : pystr) :
  Forall (fun l => ~ In c l) (split s [c]).
Proof.
  induction s as [|x s IH].
  - rewrite split_nil by apply char_sep_nonempty. repeat constructor. intros [].
  - rewrite split_char_cons. destruct (N.eqb_spec c x) as [->|Hne].
    + constructor; [intros []|exact IH].
    + destruct (split s [c]) as [|p l]; simpl.
      * repeat constructor. intros [?|[]]; congruence.
      * inversion IH; subst. constructor; [|assumption].
        intros [?|?]; [congruence|contradiction].
Qed.

(** [("\n".join(lines)).split("\n") == lines] for lines without a
    newline. *)
Lemma split_join_char (ls : list pystr) :
  ls <> [] -> Forall (fun l => ~ In c l) ls -> split (join [c] ls) [c] = ls.
Proof.
  induction ls as [|l ls IH]; [contradiction|]. intros _ Hall.
  inversion Hall as [|? ? Hl Hls]; subst.
  induction l as [|x l IHl].
  - destruct ls as [|q ls].
    + simpl. apply split_nil, char_sep_nonempty.
    + change (join [c] ([] :: q :: ls)) with (c :: join [c] (q :: ls)).
      rewrite split_char_cons, N.eqb_refl. f_equal. apply IH; [discriminate|assumption].
  - assert (Hx : c <> x) by (intros ->; apply Hl; left; reflexivity).
    assert (Hl' : ~ In c l) by (intros ?; apply Hl; right; assumption).
    assert (E : join [c] ((x :: l) :: ls) = x :: join [c] (l :: ls))
      by (destruct ls; reflexivity).
    rewrite E, split_char_cons. apply N.eqb_neq in Hx. rewrite Hx.
    rewrite IHl; [reflexivity| |assumption].
    constructor; assumption.
Qed.

Variable m : pystr.
Hypothesis m_nonempty : m <> [].
Hypothesis m_without_c : ~ In c m.

Lemma startswith_before_char (a b : pystr) :
  startswith (a ++ c :: b) m = startswith a m.
Proof.
  clear m_nonempty. revert a m_without_c.
  induction m as [|d m' IH]; intros a Hc.
  - rewrite !startswith_nil. reflexivity.
  - destruct a as [|x a]; simpl app.
    + rewrite startswith_cons. simpl.
      destruct (N.eqb_spec d c) as [->|?]; [|reflexivity].
      exfalso. apply Hc. left. reflexivity.
    + rewrite !startswith_cons. f_equal. apply IH.
      intros ?. apply Hc. right. assumption.
Qed.

Lemma startswith_char (b : pystr) : startswith (c :: b) m = false.
Proof.
  pose proof (startswith_before_char [] b) as E. simpl in E.
  rewrite E. apply startswith_empty, m_nonempty.
Qed.

(** An occurrence of [m] cannot straddle a character that [m] lacks. *)
Lemma py_in_around_char (a b : pystr) :
  py_in m (a ++ c :: b) = py_in m a || py_in m b.
Proof.
  induction a as [|x a IH].
  - simpl app. rewrite (py_in_nil m m_nonempty). simpl.
    rewrite startswith_char. reflexivity.
  - pose proof (startswith_before_char (x :: a) b) as E.
    simpl in *. rewrite IH, E, orb_assoc. reflexivity.
Qed.

Lemma py_in_join (ls : list pystr) :
  py_in m (join [c] ls) = existsb (py_in m) ls.
Proof.
  induction ls as [|p ls IH].
  - apply py_in_nil, m_nonempty.
  - destruct ls as [|q ls].
    + simpl. rewrite orb_false_r. reflexivity.
    + change (join [c] (p :: q :: ls)) with (p ++ c :: join [c] (q :: ls)).
      rewrite py_in_around_char, IH. reflexivity.
Qed.

End Lines.

(** ** Whitespace *)

Lemma lstrip_decomp (s : pystr) :
  exists w, s = w ++ lstrip s /\ forallb isspace w = true.
Proof.
  induction s as [|x s (w & Hw & Hall)].
  - exists []. split; reflexivity.
  - simpl. destruct (isspace x) eqn:E.
    + exists (x :: w). simpl. rewrite E, Hall. split; [congruence | reflexivity].
    + exists []. split; reflexivity.
Qed.

Lemma lstrip_no_lead (s : pystr) : no_lead (lstrip s).
Proof.
  induction s as [|x s IH]; simpl; [exact I|].
  destruct (isspace x) eqn:E; [exact IH | exact E].
Qed.

Lemma lstrip_id (s : pystr) : no_lead s -> lstrip s = s.
Proof. destruct s as [|x s]; simpl; [reflexivity|]. intros ->. reflexivity. Qed.

Lemma forallb_rev (f : char -> bool) (w : pystr) :
  forallb f (rev w) = forallb f w.
Proof.
  induction w as [|x w IH]; [reflexivity|].
  simpl. rewrite forallb_app, IH. simpl. rewrite andb_true_r, andb_comm. reflexivity.
Qed.

Lemma rstrip_decomp (s : pystr) :
  exists w, s = rstrip s ++ w /\ forallb isspace w = true.
Proof.
  destruct (lstrip_decomp (rev s)) as (w & Hw & Hall).
  exists (rev w). split; [|rewrite forallb_rev; exact Hall].
  unfold rstrip. rewrite <- rev_app_distr, <- Hw, rev_involutive. reflexivity.
Qed.

Lemma rev_rstrip (s : pystr) : rev (rstrip s) = lstrip (rev s).
Proof. unfold rstrip. apply rev_involutive. Qed.

Lemma rstrip_id (s : pystr) : no_lead (rev s) -> rstrip s = s.
Proof. intros Hs. unfold rstrip. rewrite lstrip_id by assumption. apply rev_involutive. Qed.

Lemma rstrip_no_lead (s : pystr) : no_lead s -> no_lead (rstrip s).
Proof.
  intros Hs. destruct (rstrip_decomp s) as (w & Hw & _).
  destruct (rstrip s) as [|x t]; [exact I|].
  rewrite Hw in Hs. exact Hs.
Qed.

(** [s.strip()] cuts a run of whitespace from each end of [s]. *)
Lemma strip_decomp (s : pystr) :
  exists w1 w2, s = w1 ++ strip s ++ w2 /\
                forallb isspace w1 = true /\ forallb isspace w2 = true.
Proof.
  destruct (lstrip_decomp s) as (w1 & H1 & Hall1).
  destruct (rstrip_decomp (lstrip s)) as (w2 & H2 & Hall2).
  exists w1, w2. unfold strip. rewrite <- H2. auto.
Qed.

Lemma strip_idem (s : pystr) : strip (strip s) = strip s.
Proof.
  unfold strip.
  rewrite (lstrip_id (rstrip (lstrip s))) by apply rstrip_no_lead, lstrip_no_lead.
  apply rstrip_id. rewrite rev_rstrip. apply lstrip_no_lead.
Qed.

Lemma strip_in (x : char) (s : pystr) : In x (strip s) -> In x s.
Proof.
  destruct (strip_decomp s) as (w1 & w2 & Hs & _). intros Hx.
  rewrite Hs. apply in_or_app. right. apply in_or_app. left. exact Hx.
Qed.

(** The ends of a stripped string are not whitespace. *)
Lemma strip_ends (s : pystr) : no_lead (strip s) /\ no_lead (rev (strip s)).
Proof.
  unfold strip. split.
  - apply rstrip_no_lead, lstrip_no_lead.
  - rewrite rev_rstrip. apply lstrip_no_lead.
Qed.

Section Marker.
Variable m : pystr.
Hypothesis m_nonempty : m <> [].
Hypothesis m_no_space : forall x, In x m -> isspace x = false.

Lemma m_without_space (x : char) : isspace x = true -> ~ In x m.
Proof. intros Hx Hin. apply m_no_space in Hin. congruence. Qed.

Lemma py_in_all_space (w : pystr) : forallb isspace w = true -> py_in m w = false.
Proof.
  induction w as [|x w IH]; intros Hall.
  - apply py_in_nil, m_nonempty.
  - simpl in Hall. apply andb_true_iff in Hall as [Hx Hw].
    change (x :: w) with ([] ++ x :: w).
    rewrite (py_in_around_char x m m_nonempty (m_without_space x Hx)).
    rewrite (py_in_nil m m_nonempty), IH by assumption. reflexivity.
Qed.

Lemma py_in_space_prefix (w t : pystr) :
  forallb isspace w = true -> py_in m (w ++ t) = py_in m t.
Proof.
  induction w as [|x w IH]; intros Hall; [reflexivity|].
  simpl in Hall. apply andb_true_iff in Hall as [Hx Hw].
  change ((x :: w) ++ t) with ([] ++ x :: (w ++ t)).
  rewrite (py_in_around_char x m m_nonempty (m_without_space x Hx)).
  rewrite (py_in_nil m m_nonempty), IH by assumption. reflexivity.
Qed.

Lemma py_in_space_suffix (t w : pystr) :
  forallb isspace w = true -> py_in m (t ++ w) = py_in m t.
Proof.
  destruct w as [|x w]; intros Hall.
  - rewrite app_nil_r. reflexivity.
  - simpl in Hall. apply andb_true_iff in Hall as [Hx Hw].
    rewrite (py_in_around_char x m m_nonempty (m_without_space x Hx)).
    rewrite (py_in_all_space w Hw), orb_false_r. reflexivity.
Qed.

(** A marker without whitespace occurs in a line exactly when it occurs
    in the stripped line. *)
Lemma py_in_strip (s : pystr) : py_in m (strip s) = py_in m s.
Proof.
  destruct (strip_decomp s) as (w1 & w2 & Hs & H1 & H2).
  rewrite Hs at 2.
  rewrite (py_in_space_prefix w1 _ H1), (py_in_space_suffix _ w2 H2). reflexivity.
Qed.

End Marker.

(** ** The markers of the text protocol *)

Lemma last_In {A} (x : A) (l : list A) : last l = Some x -> In x l.
Proof. intros Hx. apply list_elem_of_In, last_Some_elem_of, Hx. Qed.

Ltac marker_chars H :=
  vm_compute in H;
  repeat (destruct H as [<-|H]; [reflexivity|]); destruct H.

Lemma ACTION_nonempty : ACTION <> [].
Proof. discriminate. Qed.

Lemma ACTION_no_space (x : char) : In x ACTION -> isspace x = false.
Proof. intros Hx. marker_chars Hx. Qed.

Lemma ACTION_no_newline : ~ In 10%N ACTION.
Proof. intros Hx. apply ACTION_no_space in Hx. discriminate. Qed.

Lemma ACTION_INPUT_nonempty : ACTION_INPUT <> [].
Proof. discriminate. Qed.

Lemma FINAL_ANSWER_nonempty : FINAL_ANSWER <> [].
Proof. discriminate. Qed.

(** A line cannot begin with both markers: they differ at the seventh
    character. *)
Lemma action_not_input (l : pystr) :
  startswith l ACTION = true -> startswith l ACTION_INPUT = false.
Proof.
  intros Ha. apply startswith_spec in Ha as [r ->].
  destruct (startswith (ACTION ++ r) ACTION_INPUT) eqn:E; [|reflexivity].
  apply startswith_spec in E as [r' E]. vm_compute in E. discriminate.
Qed.

Lemma startswith_py_in (l m : pystr) : startswith l m = true -> py_in m l = true.
Proof.
  intros Hl. apply startswith_spec in Hl as [r ->]. apply (py_in_occurrence m [] r).
Qed.

Lemma marker_lines_start (marker message l : pystr) :
  In l (marker_lines marker message) -> startswith l marker = true.
Proof. unfold marker_lines. rewrite filter_In. tauto. Qed.

(** The guard ["Action:" not in message] only cuts short messages that
    have no Action line anyway. *)
Lemma no_action_no_lines (message : pystr) :
  py_in ACTION message = false -> marker_lines ACTION message = [].
Proof.
  intros Hno. unfold marker_lines.
  rewrite <- (join_split NL (char_sep_nonempty 10%N) message) in Hno.
  rewrite (py_in_join 10%N ACTION ACTION_nonempty ACTION_no_newline) in Hno.
  induction (split message NL) as [|l ls IH]; [reflexivity|].
  simpl in Hno. apply orb_false_iff in Hno as [Hl Hls].
  simpl. rewrite (IH Hls).
  destruct (startswith (strip l) ACTION) eqn:E; [|reflexivity].
  apply startswith_py_in in E.
  rewrite (py_in_strip ACTION ACTION_nonempty ACTION_no_space) in E. congruence.
Qed.

Import StockReActAgent.

Lemma parse_lines_from (lines : list pystr) (a0 i0 : option pystr) :
  fold_left parse_line lines (a0, i0) =
  (match last (List.filter (fun l => startswith l ACTION) (map strip lines)) with
   | Some a => Some a
   | None => a0
   end,
   match last (List.filter (fun l => startswith l ACTION_INPUT) (map strip lines)) with
   | Some i => Some i
   | None => i0
   end).
Proof.
  revert a0 i0. induction lines as [|l lines IH]; intros a0 i0; [reflexivity|].
  cbn [fold_left map List.filter]. unfold parse_line at 2.
  destruct (startswith (strip l) ACTION) eqn:Ea.
  - rewrite (action_not_input _ Ea), IH, last_cons.
    destruct (last (List.filter _ (map strip lines))); reflexivity.
  - destruct (startswith (strip l) ACTION_INPUT) eqn:Ei; rewrite IH.
    + rewrite last_cons.
      destruct (last (List.filter (fun l0 => startswith l0 ACTION_INPUT) _)); reflexivity.
    + reflexivity.
Qed.

Lemma parse_lines_last (message : pystr) :
  parse_lines (split message NL) =
  (last (marker_lines ACTION message),
   last (marker_lines ACTION_INPUT message)).
Proof.
  unfold parse_lines. rewrite parse_lines_from. unfold marker_lines.
  destruct (last _), (last _); reflexivity.
Qed.

Lemma marker_line_truthy (marker message a : pystr) :
  marker <> [] ->
  last (marker_lines marker message) = Some a -> truthy_str (Some a) = true.
Proof.
  intros Hm Ha. apply last_In, marker_lines_start, startswith_spec in Ha as [r ->].
  destruct marker; [contradiction | reflexivity].
Qed.

(** [parse_tool_usage] in closed form. *)
Lemma parse_tool_usage_closed (message : pystr) :
  parse_tool_usage message =
  match last (marker_lines ACTION message),
        last (marker_lines ACTION_INPUT message) with
  | Some a, Some i =>
    (Some (strip (replace a ACTION [])), Some (strip (replace i ACTION_INPUT [])))
  | _, _ => (None, None)
  end.
Proof.
  unfold parse_tool_usage.
  destruct (py_in ACTION message) eqn:Hin; simpl.
  - rewrite parse_lines_last.
    destruct (last (marker_lines ACTION message)) as [a|] eqn:Ea;
      [|reflexivity].
    destruct (last (marker_lines ACTION_INPUT message)) as [i|] eqn:Ei.
    + rewrite (marker_line_truthy _ _ _ ACTION_nonempty Ea).
      rewrite (marker_line_truthy _ _ _ ACTION_INPUT_nonempty Ei). reflexivity.
    + rewrite andb_false_r. reflexivity.
  - rewrite (no_action_no_lines _ Hin). reflexivity.
Qed.

(** When the marker opens the line and does not recur in it, what
    [replace] and [strip] leave is the stripped text after the marker. *)
Lemma after_marker (marker rest : pystr) :
  marker <> [] -> py_in marker rest = false ->
  strip (replace (marker ++ rest) marker []) = strip rest.
Proof.
  intros Hm Hrest.
  rewrite (replace_hit marker Hm [] (marker ++ rest) rest (strip_prefix_app _ _)).
  simpl. rewrite (replace_absent marker Hm [] rest Hrest). reflexivity.
Qed.

Lemma strip_lines_no_newline (message : pystr) :
  Forall (fun l => ~ In 10%N l) (map strip (split message NL)).
Proof.
  generalize (split_char_pieces 10%N message). fold NL.
  generalize (split message NL). intros pieces Hp.
  induction Hp as [|l ls Hl _ IH]; simpl; constructor; [|exact IH].
  intros Hin. apply Hl. eapply strip_in, Hin.
Qed.

Lemma marker_lines_join (marker : pystr) (ls : list pystr) :
  ls <> [] -> Forall (fun l => ~ In 10%N l) ls ->
  marker_lines marker (join NL ls) =
  List.filter (fun l => startswith l marker) (map strip ls).
Proof.
  intros Hne Hall. unfold marker_lines, NL.
  rewrite (split_join_char 10%N ls Hne Hall). reflexivity.
Qed.

Lemma marker_lines_stripped (marker message : pystr) :
  marker_lines marker (join NL (map strip (split message NL))) =
  marker_lines marker message.
Proof.
  rewrite marker_lines_join.
  - unfold marker_lines. rewrite map_map.
    f_equal. apply map_ext. intros l. apply strip_idem.
  - pose proof (split_nonempty NL (char_sep_nonempty 10%N) message).
    destruct (split message NL); [contradiction | discriminate].
  - apply strip_lines_no_newline.
Qed.

Lemma lstrip_space_prefix (w s : pystr) :
  forallb isspace w = true -> lstrip (w ++ s) = lstrip s.
Proof.
  induction w as [|x w IH]; [reflexivity|]. simpl.
  intros Hall. apply andb_true_iff in Hall as [-> Hw]. apply IH, Hw.
Qed.

Lemma strip_space_prefix (w s : pystr) :
  forallb isspace w = true -> strip (w ++ s) = strip s.
Proof. intros Hw. unfold strip. rewrite lstrip_space_prefix by assumption. reflexivity. Qed.

Lemma lstrip_all_space (w : pystr) : forallb isspace w = true -> lstrip w = [].
Proof.
  intros Hw. rewrite <- (app_nil_r w). rewrite lstrip_space_prefix by assumption.
  reflexivity.
Qed.

Lemma lstrip_app (a b : pystr) :
  lstrip (a ++ b) = match lstrip a with [] => lstrip b | _ => lstrip a ++ b end.
Proof.
  induction a as [|x a IH]; [reflexivity|]. simpl.
  destruct (isspace x); [exact IH | reflexivity].
Qed.

Lemma rstrip_space_suffix (x w : pystr) :
  forallb isspace w = true -> rstrip (x ++ w) = rstrip x.
Proof.
  intros Hw. unfold rstrip. rewrite rev_app_distr, lstrip_space_prefix; [reflexivity|].
  rewrite forallb_rev. exact Hw.
Qed.

Lemma strip_space_suffix (x w : pystr) :
  forallb isspace w = true -> strip (x ++ w) = strip x.
Proof.
  intros Hw. unfold strip. rewrite lstrip_app.
  destruct (lstrip x) as [|c r] eqn:E.
  - rewrite lstrip_all_space by assumption. reflexivity.
  - apply rstrip_space_suffix, Hw.
Qed.

(** [strip] removes whitespace from both ends and nothing else. *)
Lemma strip_trimmed (s : pystr) : trimmed (strip s) s.
Proof.
  destruct (strip_decomp s) as (w1 & w2 & Hs & H1 & H2).
  destruct (strip_ends s) as [Hl Hr].
  split; [exists w1, w2; auto | split; assumption].
Qed.

(** C4: parse_tool_usage returns (None, None) when no stripped line
    begins with "Action:" or none begins with "Action Input:"; otherwise
    it returns the stripped remainders of the LAST stripped line bearing
    each marker (the marker removed by replace), which is the stripped
    text after the marker when the marker does not recur in that line;
    the two examples of the specification evaluate as stated.  The
    returned name and input never begin or end with whitespace: they
    are the texts after the markers with the whitespace of both ends
    removed, as in "Action: chat_llm   " giving "chat_llm". *)
Theorem parse_tool_usage_last_wins :
  (forall message,
     parse_tool_usage message =
     match last (marker_lines ACTION message),
           last (marker_lines ACTION_INPUT message) with
     | Some a, Some i =>
       (Some (strip (replace a ACTION [])), Some (strip (replace i ACTION_INPUT [])))
     | _, _ => (None, None)
     end) /\
  (forall message,
     marker_lines ACTION message = [] \/ marker_lines ACTION_INPUT message = [] ->
     parse_tool_usage message = (None, None)) /\
  (forall message name_text input_text,
     last (marker_lines ACTION message) = Some (ACTION ++ name_text) ->
     last (marker_lines ACTION_INPUT message) = Some (ACTION_INPUT ++ input_text) ->
     py_in ACTION name_text = false ->
     py_in ACTION_INPUT input_text = false ->
     parse_tool_usage message = (Some (strip name_text), Some (strip input_text))) /\
  parse_tool_usage
    (join NL [utf8 "Action: a"; utf8 "Action Input: x";
              utf8 "Action: b"; utf8 "Action Input: y"])
  = (Some (utf8 "b"), Some (utf8 "y")) /\
  parse_tool_usage (utf8 "no markers here") = (None, None) /\
  (forall message tool_name tool_input,
     parse_tool_usage message = (Some tool_name, Some tool_input) ->
     no_lead tool_name /\ no_lead (rev tool_name) /\
     no_lead tool_input /\ no_lead (rev tool_input)) /\
  (forall message name_text input_text,
     last (marker_lines ACTION message) = Some (ACTION ++ name_text) ->
     last (marker_lines ACTION_INPUT message) = Some (ACTION_INPUT ++ input_text) ->
     py_in ACTION name_text = false ->
     py_in ACTION_INPUT input_text = false ->
     exists tool_name tool_input,
       parse_tool_usage message = (Some tool_name, Some tool_input) /\
       trimmed tool_name name_text /\ trimmed tool_input input_text) /\
  parse_tool_usage
    (join NL [utf8 "Action: rag_knowledge"; utf8 "Action Input: old";
              utf8 "Action: chat_llm   "; utf8 "Action Input:   VNM price  " ++ [9%N]])
  = (Some (utf8 "chat_llm"), Some (utf8 "VNM price")).
Proof.
  assert (Hgiven : forall message name_text input_text,
     last (marker_lines ACTION message) = Some (ACTION ++ name_text) ->
     last (marker_lines ACTION_INPUT message) = Some (ACTION_INPUT ++ input_text) ->
     py_in ACTION name_text = false ->
     py_in ACTION_INPUT input_text = false ->
     parse_tool_usage message = (Some (strip name_text), Some (strip input_text))).
  { intros message name_text input_text Ha Hi Hname Hinput.
    rewrite parse_tool_usage_closed, Ha, Hi.
    rewrite (after_marker ACTION name_text ACTION_nonempty Hname).
    rewrite (after_marker ACTION_INPUT input_text ACTION_INPUT_nonempty Hinput).
    reflexivity. }
  split; [exact parse_tool_usage_closed|].
  split.
  { intros message Hno. rewrite parse_tool_usage_closed.
    destruct Hno as [-> | ->]; simpl; [reflexivity|].
    destruct (last (marker_lines ACTION message)); reflexivity. }
  split; [exact Hgiven|].
  split; [vm_compute; reflexivity|].
  split; [vm_compute; reflexivity|].
  split.
  { intros message tool_name tool_input. rewrite parse_tool_usage_closed.
    destruct (last (marker_lines ACTION message)) as [a|]; [|discriminate].
    destruct (last (marker_lines ACTION_INPUT message)) as [i|]; [|discriminate].
    intros [= <- <-].
    destruct (strip_ends (replace a ACTION [])) as [H1 H2].
    destruct (strip_ends (replace i ACTION_INPUT [])) as [H3 H4]. auto. }
  split; [|vm_compute; reflexivity].
  intros message name_text input_text Ha Hi Hname Hinput.
  exists (strip name_text), (strip input_text).
  split; [apply Hgiven; assumption|].
  split; apply strip_trimmed.
Qed.

(** C10: the marker test is applied to the stripped line: stripping
    every line of the message beforehand does not change the result,
    indenting an Action line with any whitespace leaves the result
    unchanged, and the indented line "   Action: chat_llm" yields the
    tool name "chat_llm".  Whitespace at either end of any line of the
    message does not change the result, and a message whose lines carry
    leading and trailing whitespace gives the bare name and input. *)
Theorem parse_tool_usage_strips_each_line :
  (forall message,
     parse_tool_usage (join NL (map strip (split message NL))) =
     parse_tool_usage message) /\
  (forall indent line rest,
     forallb isspace indent = true ->
     Forall (fun l => ~ In 10%N l) ((indent ++ line) :: rest) ->
     parse_tool_usage (join NL ((indent ++ line) :: rest)) =
     parse_tool_usage (join NL (line :: rest))) /\
  parse_tool_usage
    (join NL [utf8 "   Action: chat_llm"; utf8 "Action Input: hello"])
  = (Some (utf8 "chat_llm"), Some (utf8 "hello")) /\
  (forall before line after indent trail,
     forallb isspace indent = true ->
     forallb isspace trail = true ->
     Forall (fun l => ~ In 10%N l) (before ++ (indent ++ line ++ trail) :: after) ->
     parse_tool_usage (join NL (before ++ (indent ++ line ++ trail) :: after)) =
     parse_tool_usage (join NL (before ++ line :: after))) /\
  parse_tool_usage
    (join NL [utf8 "Thought: ask  ";
              [9%N] ++ utf8 "  Action: chat_llm   ";
              utf8 "   Action Input: hello  " ++ [9%N; 32%N]])
  = (Some (utf8 "chat_llm"), Some (utf8 "hello")).
Proof.
  split.
  { intros message. rewrite !parse_tool_usage_closed, !marker_lines_stripped.
    reflexivity. }
  split.
  { intros indent line rest Hindent Hall.
    assert (Hall' : Forall (fun l => ~ In 10%N l) (line :: rest)).
    { inversion Hall as [|? ? Hl Hrest]; subst. constructor; [|assumption].
      intros Hin. apply Hl, in_or_app. right. exact Hin. }
    rewrite !parse_tool_usage_closed.
    rewrite !marker_lines_join by (assumption || discriminate).
    cbn [map]. rewrite strip_space_prefix by assumption. reflexivity. }
  split; [vm_compute; reflexivity|].
  split; [|vm_compute; reflexivity].
  intros before line after indent trail Hindent Htrail Hall.
  assert (Hall' : Forall (fun l => ~ In 10%N l) (before ++ line :: after)).
  { apply List.Forall_app in Hall as [Hb Hrest]. apply List.Forall_app. split; [exact Hb|].
    inversion Hrest as [|? ? Hl Hafter]; subst. constructor; [|assumption].
    intros Hin. apply Hl, in_or_app. right. apply in_or_app. left. exact Hin. }
  rewrite !parse_tool_usage_closed.
  rewrite !marker_lines_join
    by (assumption || (intros E; apply app_eq_nil in E as [_ E]; discriminate)).
  rewrite !List.map_app. cbn [map].
  rewrite strip_space_prefix by assumption.
  rewrite strip_space_suffix by assumption. reflexivity.
Qed.

(** ** The text after the last occurrence of a marker *)

Lemma border_free_spec (m u v w : pystr) :
  border_free m = true -> m = u ++ v -> m = v ++ w -> u <> [] -> v <> [] -> False.
Proof.
  intros Hfree Huv Hvw Hu Hv.
  unfold border_free in Hfree. rewrite forallb_forall in Hfree.
  specialize (Hfree (length v)).
  assert (Hlen : length m = length u + length v) by (rewrite Huv; apply length_app).
  assert (0 < length u) by (destruct u; [contradiction | simpl; lia]).
  assert (0 < length v) by (destruct v; [contradiction | simpl; lia]).
  rewrite in_seq in Hfree.
  assert (Hk : negb (bool_decide (firstn (length v) m = skipn (length m - length v) m)) = true)
    by (apply Hfree; lia).
  apply negb_true_iff, bool_decide_eq_false in Hk. apply Hk.
  rewrite Hvw at 1. rewrite take_app_length.
  replace (length m - length v) with (length u) by lia.
  rewrite Huv, drop_app_length. reflexivity.
Qed.

Lemma FINAL_ANSWER_border_free : border_free FINAL_ANSWER = true.
Proof. vm_compute. reflexivity. Qed.

Section LastOccurrence.
Variable m : pystr.
Hypothesis m_border_free : border_free m = true.

(** If [m] is followed in [s] by a text without [m], that occurrence is
    the last one: no occurrence starts further right. *)
Lemma occurrence_is_last (pre post pre' post' : pystr) :
  py_in m post = false ->
  pre ++ m ++ post = pre' ++ m ++ post' ->
  length pre' <= length pre.
Proof.
  intros Hpost Heq.
  destruct (le_lt_dec (length pre') (length pre)) as [|Hlt]; [assumption|exfalso].
  apply app_eq_app in Heq as [l [[Hpre _]|[Hpre Hrest]]].
  { rewrite Hpre, length_app in Hlt. lia. }
  assert (Hl : l <> []).
  { intros ->. rewrite app_nil_r in Hpre. subst. lia. }
  apply app_eq_app in Hrest as [l2 [[Hm Hrest]|[Hm Hrest]]].
  - (* the second occurrence would start inside the first one *)
    destruct l2 as [|x l2].
    + simpl in Hrest. rewrite <- Hrest, py_in_prefix in Hpost. discriminate.
    + apply app_eq_app in Hrest as [l3 [[Hm2 _]|[Hl2 _]]].
      * eapply (border_free_spec m l (x :: l2) l3); eauto.
      * assert (Hlen : length m = length l + length (x :: l2))
          by (rewrite Hm at 1; apply length_app).
        rewrite Hl2, length_app in Hlen.
        destruct l; [contradiction | simpl in Hlen; lia].
  - (* the second occurrence would lie in [post] *)
    rewrite Hrest, (py_in_occurrence m l2 post') in Hpost. discriminate.
Qed.

End LastOccurrence.

(** [split("Final Answer:")[-1]] is the text after the last occurrence
    of the marker. *)
Lemma after_last_final_answer (reply : pystr) :
  py_in FINAL_ANSWER reply = true ->
  exists pre,
    reply = pre ++ FINAL_ANSWER ++ last_piece (split reply FINAL_ANSWER) /\
    forall pre' post', reply = pre' ++ FINAL_ANSWER ++ post' ->
                       length pre' <= length pre.
Proof.
  intros Hin. pose proof (split_last FINAL_ANSWER FINAL_ANSWER_nonempty reply) as Hs.
  rewrite Hin in Hs. destruct Hs as [_ (pre & Hpre & Hlast)].
  exists pre. split; [exact Hpre|].
  intros pre' post' Heq.
  eapply (occurrence_is_last FINAL_ANSWER FINAL_ANSWER_border_free); [exact Hlast|].
  rewrite <- Hpre. exact Heq.
Qed.

(** ** One orchestration step *)

Import ReActCoordinator.

Lemma bind_Ok {A B} (a : A) (f : A -> result B) : (Ok a ≫= f) = f a.
Proof. reflexivity. Qed.

Section Step.
Variable agent : ReActAgent.
Variable chat : ChatProvider.
Variable tools : gmap pystr BaseTool.

(** A step that returns has added one to the counter that [reason]
    returned, and has left [max_steps] alone. *)
Lemma step_counter (state state' : AgentState) :
  _step agent chat tools state = Ok state' ->
  exists rr, agent_reason agent state = Ok rr /\
             current_step state' = Some (rr_current_step rr + 1)%Z /\
             max_steps state' = max_steps state.
Proof.
  unfold _step. destruct (agent_reason agent state) as [rr|e]; [|discriminate].
  rewrite bind_Ok. intros Hstep. exists rr. split; [reflexivity|].
  destruct (truthy_str (rr_final_answer rr)); [injection Hstep as <-; split; reflexivity|].
  destruct (flatten_prompt (rr_messages rr)) as [prompt|e]; [|discriminate].
  rewrite bind_Ok in Hstep.
  destruct (chat prompt) as [reply|e]; [|discriminate].
  rewrite bind_Ok in Hstep.
  destruct (py_in FINAL_ANSWER reply); [injection Hstep as <-; split; reflexivity|].
  destruct (agent_parse_tool_usage agent reply) as [[[|c n]|] tool_input];
    try (injection Hstep as <-; split; reflexivity).
  destruct (tools !! (c :: n)) as [tool|]; [|injection Hstep as <-; split; reflexivity].
  destruct (new_QueryContext tool_input) as [ctx|e]; [|discriminate].
  rewrite bind_Ok in Hstep.
  destruct (execute tool ctx (query ctx)) as [tool_result|e]; [|discriminate].
  rewrite bind_Ok in Hstep.
  destruct (agent_format_tool_result agent (c :: n) tool_result) as [obs|e];
    [|discriminate].
  rewrite bind_Ok in Hstep. injection Hstep as <-. split; reflexivity.
Qed.

(** C8: when the model's reply contains "Final Answer:", the step
    returns the conversation with the raw reply appended as an
    assistant turn, the counter returned by reason plus one, and as
    final_answer the stripped text after the LAST occurrence of the
    marker: the text after it with the whitespace of both ends removed
    and nothing else.  For an agent of the class StockReActAgent the
    counter reason returns is the counter of the state, so the step
    increments it, and the conversation is the history behind one
    system turn. *)
Theorem step_final_answer_marker
    (state : AgentState) (rr : ReasoningResult) (prompt reply : pystr) :
  agent_reason agent state = Ok rr ->
  truthy_str (rr_final_answer rr) = false ->
  flatten_prompt (rr_messages rr) = Ok prompt ->
  chat prompt = Ok reply ->
  py_in FINAL_ANSWER reply = true ->
  exists pre post,
    reply = pre ++ FINAL_ANSWER ++ post /\
    (forall pre' post', reply = pre' ++ FINAL_ANSWER ++ post' ->
                        length pre' <= length pre) /\
    _step agent chat tools state =
    Ok {| messages := Some (rr_messages rr ++ [turn "assistant" reply]);
          current_step := Some (rr_current_step rr + 1)%Z;
          max_steps := max_steps state;
          tools_used := tools_used state;
          intermediate_results := intermediate_results state;
          final_answer := Some (strip post) |} /\
    trimmed (strip post) post /\
    (forall (builtins : PyBuiltins) system_prompt,
       agent = @StockReActAgent.agent_with builtins (Ok system_prompt) ->
       exists msgs n,
         messages state = Some msgs /\ current_step state = Some n /\
         rr_messages rr = {| role := utf8 "system"; content := system_prompt |} :: msgs /\
         rr_current_step rr = n).
Proof.
  intros Hreason Hfa Hprompt Hchat Hmarker.
  destruct (after_last_final_answer reply Hmarker) as (pre & Hpre & Hlast).
  exists pre, (last_piece (split reply FINAL_ANSWER)).
  split; [exact Hpre|]. split; [exact Hlast|].
  split.
  { unfold _step.
    rewrite Hreason, bind_Ok, Hfa, Hprompt, bind_Ok, Hchat, bind_Ok, Hmarker.
    reflexivity. }
  split; [apply strip_trimmed|].
  intros builtins system_prompt Hagent. subst agent.
  cbn [agent_reason StockReActAgent.agent_with] in Hreason.
  unfold StockReActAgent.reason_with, StockReActAgent.reason_try,
    StockReActAgent.reason_except in Hreason.
  destruct (messages state) as [msgs|]; [|discriminate].
  destruct (current_step state) as [n|]; [|discriminate].
  cbn [getitem] in Hreason. injection Hreason as <-.
  exists msgs, n. auto.
Qed.

(** C2 (amended): when the tool named by the model's reply is
    registered and its execution fails with an exception, that exception
    leaves the step: no state is returned, nothing is appended to
    intermediate_results and no observation turn is produced. *)
Theorem step_tool_failure_propagates
    (state : AgentState) (rr : ReasoningResult) (prompt reply : pystr)
    (tool_name tool_input : pystr) (tool : BaseTool) (e : exn) :
  agent_reason agent state = Ok rr ->
  truthy_str (rr_final_answer rr) = false ->
  flatten_prompt (rr_messages rr) = Ok prompt ->
  chat prompt = Ok reply ->
  py_in FINAL_ANSWER reply = false ->
  agent_parse_tool_usage agent reply = (Some tool_name, Some tool_input) ->
  tool_name <> [] ->
  tools !! tool_name = Some tool ->
  _execute_impl tool {| query := tool_input; user_id := None; session_id := None |}
                tool_input = Raise e ->
  _step agent chat tools state = Raise e.
Proof.
  intros Hreason Hfa Hprompt Hchat Hmarker Hparse Hname Htool Hfail.
  unfold _step. rewrite Hreason, bind_Ok, Hfa, Hprompt, bind_Ok, Hchat, bind_Ok, Hmarker.
  rewrite Hparse. destruct tool_name as [|c n]; [contradiction|].
  rewrite Htool. simpl. unfold execute. simpl. rewrite Hfail. reflexivity.
Qed.

End Step.

Section StepFate.
Variable agent : ReActAgent.
Variable chat : ChatProvider.
Variable tools : gmap pystr BaseTool.

(** When [reason] hands back a final answer the step returns at once,
    with one more added to the counter [reason] returned. *)
Lemma step_after_reasoning_answer (state : AgentState) (rr : ReasoningResult) :
  agent_reason agent state = Ok rr ->
  truthy_str (rr_final_answer rr) = true ->
  _step agent chat tools state =
  Ok {| messages := Some (rr_messages rr);
        current_step := Some (rr_current_step rr + 1)%Z;
        max_steps := max_steps state;
        tools_used := tools_used state;
        intermediate_results := intermediate_results state;
        final_answer := rr_final_answer rr |}.
Proof.
  intros Hreason Hfa. unfold _step. rewrite Hreason, bind_Ok, Hfa. reflexivity.
Qed.

(** C5 (amended): a step that returns leaves final_answer as it was
    only on the tool and thinking paths; when the model's reply contains
    "Final Answer:" the stored final_answer is replaced by the newly
    extracted text, and when reason itself returned a final answer it is
    replaced by that one. *)
Theorem step_final_answer_fate (state state' : AgentState) :
  _step agent chat tools state = Ok state' ->
  exists rr, agent_reason agent state = Ok rr /\
    if truthy_str (rr_final_answer rr)
    then final_answer state' = rr_final_answer rr
    else exists prompt reply,
      flatten_prompt (rr_messages rr) = Ok prompt /\
      chat prompt = Ok reply /\
      final_answer state' =
      if py_in FINAL_ANSWER reply
      then Some (extract_final_answer reply)
      else final_answer state.
Proof.
  unfold _step. destruct (agent_reason agent state) as [rr|e]; [|discriminate].
  rewrite bind_Ok. intros Hstep. exists rr. split; [reflexivity|].
  destruct (truthy_str (rr_final_answer rr)); [injection Hstep as <-; reflexivity|].
  destruct (flatten_prompt (rr_messages rr)) as [prompt|e]; [|discriminate].
  rewrite bind_Ok in Hstep.
  destruct (chat prompt) as [reply|e] eqn:Hchat; [|discriminate].
  rewrite bind_Ok in Hstep.
  exists prompt, reply. split; [reflexivity|]. split; [exact Hchat|].
  destruct (py_in FINAL_ANSWER reply); [injection Hstep as <-; reflexivity|].
  destruct (agent_parse_tool_usage agent reply) as [[[|c n]|] tool_input];
    try (injection Hstep as <-; reflexivity).
  destruct (tools !! (c :: n)) as [tool|]; [|injection Hstep as <-; reflexivity].
  destruct (new_QueryContext tool_input) as [ctx|e]; [|discriminate].
  rewrite bind_Ok in Hstep.
  destruct (execute tool ctx (query ctx)) as [tool_result|e]; [|discriminate].
  rewrite bind_Ok in Hstep.
  destruct (agent_format_tool_result agent (c :: n) tool_result) as [obs|e];
    [|discriminate].
  rewrite bind_Ok in Hstep. injection Hstep as <-. reflexivity.
Qed.

End StepFate.

(** ** The shipped agent *)

Section Shipped.
Context `{PyBuiltins}.

(** C6: on the path where the try block of reason succeeds, the result
    is the message history with one system turn prepended, the counter
    unchanged and final_answer unset; the content of the prepended turn
    is None, because _get_system_prompt returns None and not the
    protocol text. reason takes no model provider. *)
Theorem reason_prepends_system_turn
    (msgs : list Message) (n : Z) (bound : option Z) (used : option (list pystr))
    (results : option (list ToolDict)) (fa : option pystr) :
  _get_system_prompt = Ok None /\
  reason {| messages := Some msgs; current_step := Some n; max_steps := bound;
            tools_used := used; intermediate_results := results;
            final_answer := fa |}
  = Ok {| rr_messages := {| role := utf8 "system"; content := None |} :: msgs;
          rr_current_step := n;
          rr_final_answer := None |}.
Proof. split; reflexivity. Qed.

Lemma reason_closed_form (state : AgentState) :
  reason state =
  match messages state, current_step state with
  | None, _ => Raise (KeyError (utf8 "messages"))
  | Some _, None => Raise (UnboundLocalError (utf8 "current_step"))
  | Some msgs, Some n =>
    Ok {| rr_messages := {| role := utf8 "system"; content := None |} :: msgs;
          rr_current_step := n;
          rr_final_answer := None |}
  end.
Proof.
  unfold reason, reason_with, reason_try, reason_except.
  destruct (messages state), (current_step state); reflexivity.
Qed.

(** The handler does return the degraded result when the failure comes
    after the local [current_step] was bound, that is, from the call of
    [_get_system_prompt]; the shipped method cannot fail. *)
Lemma reason_degraded (e : exn) (state : AgentState) (msgs : list Message) (n : Z) :
  messages state = Some msgs -> current_step state = Some n ->
  reason_with (Raise e) state =
  Ok {| rr_messages := msgs ++ [turn "assistant" (utf8 "Lỗi xử lý: " ++ str_exn e)];
        rr_current_step := (n + 1)%Z;
        rr_final_answer := Some (utf8 "Xin lỗi, đã xảy ra lỗi: " ++ str_exn e) |}.
Proof.
  intros Hm Hn. unfold reason_with, reason_try, reason_except.
  rewrite Hm, Hn. reflexivity.
Qed.

(** C7: whenever the try block of reason fails, the handler fails as
    well and reason raises: KeyError when the messages key is absent,
    UnboundLocalError when current_step is absent (the handler reads the
    local current_step, which was never bound); every result reason does
    return is the undegraded one. *)
Theorem reason_failure_raises :
  (forall state, messages state = None ->
     reason state = Raise (KeyError (utf8 "messages"))) /\
  (forall state msgs, messages state = Some msgs -> current_step state = None ->
     reason state = Raise (UnboundLocalError (utf8 "current_step"))) /\
  (forall state rr, reason state = Ok rr ->
     rr_final_answer rr = None /\ current_step state = Some (rr_current_step rr)) /\
  reason {| messages := Some [turn "user" (utf8 "hi")]; current_step := None;
            max_steps := Some 10%Z; tools_used := Some [];
            intermediate_results := Some []; final_answer := None |}
  = Raise (UnboundLocalError (utf8 "current_step")).
Proof.
  split; [|split; [|split]].
  - intros state Hm. rewrite reason_closed_form, Hm. reflexivity.
  - intros state msgs Hm Hn. rewrite reason_closed_form, Hm, Hn. reflexivity.
  - intros state rr Hrr. rewrite reason_closed_form in Hrr.
    destruct (messages state), (current_step state); try discriminate.
    injection Hrr as <-. split; reflexivity.
  - reflexivity.
Qed.

Lemma step_shipped_closed_form
    (chat : ChatProvider) (tools : gmap pystr BaseTool) (state : AgentState) :
  _step StockReActAgent.agent chat tools state =
  match messages state, current_step state with
  | None, _ => Raise (KeyError (utf8 "messages"))
  | Some _, None => Raise (UnboundLocalError (utf8 "current_step"))
  | Some _, Some _ => Raise TypeError
  end.
Proof.
  unfold _step.
  change (agent_reason StockReActAgent.agent state) with (reason state).
  rewrite reason_closed_form.
  destruct (messages state), (current_step state); reflexivity.
Qed.

(** C1: with the shipped agent a step never returns a state, so the
    counter is not advanced: the system turn that reason prepends has
    content None, and joining the contents into the prompt raises
    TypeError before the model is called.  On the dictionary with the
    fields of the initial state of a run the step raises TypeError
    whatever the model provider and the tools are. *)
Theorem step_shipped_agent_raises :
  (forall chat tools state,
     ~ exists state', _step StockReActAgent.agent chat tools state = Ok state') /\
  (forall chat tools q,
     _step StockReActAgent.agent chat tools (ReActWorkflow.initial_state q)
     = Raise TypeError).
Proof.
  split.
  - intros chat tools state [state' Hok]. rewrite step_shipped_closed_form in Hok.
    destruct (messages state), (current_step state); discriminate.
  - intros chat tools q. rewrite step_shipped_closed_form. reflexivity.
Qed.

(** Had [reason] returned its degraded result, the step would add one
    to a counter that [reason] has already advanced. *)
Lemma step_after_degraded_reason
    (e : exn) (chat : ChatProvider) (tools : gmap pystr BaseTool)
    (state : AgentState) (msgs : list Message) (n : Z) :
  messages state = Some msgs -> current_step state = Some n ->
  exists state',
    _step (agent_with (Raise e)) chat tools state = Ok state' /\
    current_step state' = Some (n + 2)%Z.
Proof.
  intros Hm Hn. eexists. split.
  - apply step_after_reasoning_answer.
    + cbn [agent_reason agent_with]. apply reason_degraded; eassumption.
    + reflexivity.
  - simpl. f_equal. lia.
Qed.

End Shipped.

(** ** The continue/stop predicate and the driver *)

Import ReActWorkflow.

(** C3 (amended): for a state with its keys present whose last message,
    if any, has a string content, should_continue yields "end" exactly
    when final_answer is a non-empty string, or current_step >=
    max_steps, or the message list is empty, or the content of the LAST
    message (whatever its role) lacks "Action:"; in every other case it
    yields "continue", and the conditional edge then runs the agent node
    again on that state. *)
Theorem should_continue_decides
    (state : AgentState) (msgs : list Message) (n bound : Z) :
  messages state = Some msgs ->
  current_step state = Some n ->
  max_steps state = Some bound ->
  (forall m, last msgs = Some m -> content m <> None) ->
  let stop :=
    truthy_str (final_answer state) = true \/
    (n >= bound)%Z \/
    (forall m text, last msgs = Some m -> content m = Some text ->
                    py_in ACTION text = false) in
  (stop -> should_continue state = Ok End_) /\
  (~ stop -> should_continue state = Ok Continue) /\
  (forall agent chat tools limit previous,
     agent_node agent chat tools previous = Ok state ->
     (stop -> astream agent chat tools (S limit) previous = Ok state) /\
     (~ stop -> astream agent chat tools (S limit) previous
                = astream agent chat tools limit state)).
Proof.
  intros Hm Hn Hb Hlast stop.
  assert (Hend : stop -> should_continue state = Ok End_).
  { intros Hstop. unfold should_continue. rewrite Hm, Hn, Hb. simpl.
    destruct (truthy_str (final_answer state)) eqn:Hfa; [reflexivity|].
    rewrite ?bind_Ok.
    destruct (Z.geb_spec n bound) as [Hge|Hlt]; [reflexivity|].
    unfold last_message. destruct (last msgs) as [m|] eqn:El; [|reflexivity].
    destruct (content m) as [text|] eqn:Ec; [|exfalso; eapply Hlast; eauto].
    destruct Hstop as [Hs|[Hs|Hs]]; [discriminate | lia |].
    rewrite (Hs m text eq_refl Ec). reflexivity. }
  assert (Hgo : ~ stop -> should_continue state = Ok Continue).
  { intros Hgo. unfold should_continue. rewrite Hm, Hn, Hb. simpl.
    destruct (truthy_str (final_answer state)) eqn:Hfa;
      [exfalso; apply Hgo; left; reflexivity|].
    rewrite ?bind_Ok.
    destruct (Z.geb_spec n bound) as [Hge|Hlt];
      [exfalso; apply Hgo; right; left; lia|].
    unfold last_message. destruct (last msgs) as [m|] eqn:El;
      [|exfalso; apply Hgo; right; right; intros; discriminate].
    destruct (content m) as [text|] eqn:Ec; [|exfalso; eapply Hlast; eauto].
    destruct (py_in ACTION text) eqn:Ea; [reflexivity|].
    exfalso. apply Hgo. right. right. intros m' text' [= <-] Hc. congruence. }
  split; [exact Hend|]. split; [exact Hgo|].
  intros agent chat tools limit previous Hnode. split; intros Hs.
  - cbn [astream]. rewrite Hnode, bind_Ok, (Hend Hs). reflexivity.
  - cbn [astream]. rewrite Hnode, bind_Ok, (Hgo Hs). reflexivity.
Qed.

(** ** The state object of a run *)

Section StateObjects.
Context `{PyBuiltins}.
Variable get_system_prompt : result (option pystr).

(** On a dictionary the method is the one the claims are about. *)
Lemma reason_on_mapping (state : AgentState) :
  reason_on get_system_prompt (Mapping state) = reason_with get_system_prompt state.
Proof. reflexivity. Qed.

(** On an instance of the model the first subscript of the [try] block
    raises TypeError, and so does the subscript in the handler. *)
Lemma reason_on_model (fields : AgentState) :
  reason_on get_system_prompt (Model fields) = Raise TypeError.
Proof. reflexivity. Qed.

Lemma step_on_model
    (chat : ChatProvider) (tools : gmap pystr BaseTool) (fields : AgentState) :
  step_on get_system_prompt chat tools (Model fields) = Raise TypeError.
Proof. unfold step_on. rewrite reason_on_model. reflexivity. Qed.

Lemma run_raises
    (chat : ChatProvider) (tools : gmap pystr BaseTool)
    (q : pystr) (sid : option pystr) :
  run get_system_prompt chat tools q sid = Raise TypeError.
Proof. unfold run. apply step_on_model. Qed.

End StateObjects.

(** With the shipped agent every run of the workflow raises. *)
Lemma run_shipped_agent_raises `{PyBuiltins}
    (chat : ChatProvider) (tools : gmap pystr BaseTool)
    (q : pystr) (sid : option pystr) :
  run StockReActAgent._get_system_prompt chat tools q sid = Raise TypeError.
Proof. apply run_raises. Qed.

(** ** The same class with a prompt *)

Section Prompted.
Context `{PyBuiltins}.
Variable system_prompt : option pystr.
Variable chat : ChatProvider.
Variable tools : gmap pystr BaseTool.

Lemma reason_with_prompt (state : AgentState) :
  reason_with (Ok system_prompt) state =
  match messages state, current_step state with
  | None, _ => Raise (KeyError (utf8 "messages"))
  | Some _, None => Raise (UnboundLocalError (utf8 "current_step"))
  | Some msgs, Some n =>
    Ok {| rr_messages := {| role := utf8 "system"; content := system_prompt |} :: msgs;
          rr_current_step := n;
          rr_final_answer := None |}
  end.
Proof.
  unfold reason_with, reason_try, reason_except.
  destruct (messages state), (current_step state); reflexivity.
Qed.

(** Whatever [_get_system_prompt] returns, a step that returns has
    advanced the counter of the state by exactly one. *)
Lemma step_counter_prompted (state state' : AgentState) :
  _step (agent_with (Ok system_prompt)) chat tools state = Ok state' ->
  exists n, current_step state = Some n /\
            current_step state' = Some (n + 1)%Z /\
            max_steps state' = max_steps state.
Proof.
  intros Hstep. apply step_counter in Hstep as (rr & Hrr & Hn & Hb).
  cbn [agent_reason agent_with] in Hrr. rewrite reason_with_prompt in Hrr.
  destruct (messages state), (current_step state) as [n|]; try discriminate.
  injection Hrr as <-. exists n. auto.
Qed.

(** Driven by the workflow from a state below its budget, the counter
    ends above where it started and within the budget. *)
Lemma astream_counter_bounded (limit : nat) (state final : AgentState) (n bound : Z) :
  current_step state = Some n -> max_steps state = Some bound -> (n < bound)%Z ->
  astream (agent_with (Ok system_prompt)) chat tools limit state = Ok final ->
  exists k, current_step final = Some k /\ (n < k <= bound)%Z.
Proof.
  revert state n. induction limit as [|limit IH]; intros state n Hn Hb Hlt Hrun;
    [discriminate|].
  cbn [astream] in Hrun. unfold agent_node in Hrun.
  destruct (_step _ chat tools state) as [state'|e] eqn:Hstep; [|discriminate].
  rewrite bind_Ok in Hrun.
  apply step_counter_prompted in Hstep as (n' & Hn' & Hnext & Hbound).
  assert (n' = n) by congruence. subst n'. rewrite Hb in Hbound.
  destruct (should_continue state') as [[|]|e] eqn:Hcont; try discriminate;
    rewrite bind_Ok in Hrun; cbn [edge] in Hrun.
  - assert (Hbelow : (n + 1 < bound)%Z).
    { unfold should_continue in Hcont.
      destruct (messages state'); [|discriminate]. simpl in Hcont.
      destruct (truthy_str (final_answer state')); [discriminate|].
      rewrite Hnext, Hbound in Hcont. simpl in Hcont.
      destruct (Z.geb_spec (n + 1) bound); [discriminate | lia]. }
    destruct (IH state' (n + 1)%Z Hnext Hbound Hbelow Hrun) as (k & Hk & Hrange).
    exists k. split; [exact Hk | lia].
  - injection Hrun as <-. exists (n + 1)%Z. split; [exact Hnext | lia].
Qed.

End Prompted.

(** ** The answer of the service *)

Import StockAnalysisService.

Lemma combine_synthesized (acc : pystr) (msgs : list Message) :
  Forall (fun m => role m = utf8 "user" \/ content m <> None) msgs ->
  combine acc msgs = Ok (acc ++ synthesized msgs).
Proof.
  intros Hall. revert acc. induction Hall as [|m msgs Hm _ IH]; intros acc.
  - simpl. rewrite app_nil_r. reflexivity.
  - cbn [combine]. unfold synthesized. cbn [List.filter]. unfold non_user at 1.
    destruct (decide (role m = utf8 "user")) as [Hu|Hu].
    + rewrite bool_decide_eq_true_2 by assumption. simpl. apply IH.
    + rewrite bool_decide_eq_false_2 by assumption. simpl.
      destruct (content m) as [c|]; [|destruct Hm; contradiction].
      rewrite IH. unfold synthesized. simpl. rewrite <- !app_assoc. reflexivity.
Qed.

Section Answer.
Context `{PyBuiltins}.

(** C9 (amended): for a terminal state whose non-user turns all have
    string contents, the answer is final_answer when that is a non-empty
    string; otherwise it is the non-user turn contents, each followed by
    a newline, concatenated and then stripped; no fallback text is
    supplied, so when that text is empty as well the answer is the empty
    string. *)
Theorem analyze_answer (final_state : AgentState) (sid : option pystr) :
  Forall (fun m => role m = utf8 "user" \/ content m <> None)
         (default [] (messages final_state)) ->
  let msgs := default [] (messages final_state) in
  let r := analyze_outcome (Ok final_state) sid in
  answer r = match final_answer final_state with
             | Some (c :: a) => c :: a
             | _ => strip (synthesized msgs)
             end /\
  (truthy_str (final_answer final_state) = false ->
   strip (synthesized msgs) = [] -> answer r = []) /\
  success (metadata r) = true /\
  steps (metadata r) = length msgs.
Proof.
  intros Hall msgs r. subst r. unfold analyze_outcome, reshape.
  rewrite bind_Ok. fold msgs. rewrite (combine_synthesized [] msgs Hall).
  rewrite bind_Ok. cbn [answer metadata success steps app].
  split; [reflexivity|]. split; [|split; reflexivity].
  intros Hfa Hempty. rewrite Hempty.
  destruct (final_answer final_state) as [[|c a]|]; [reflexivity|discriminate|reflexivity].
Qed.

(** With the shipped agent every analysis ends in the failure payload. *)
Lemma analyze_shipped_agent_fails
    (chat : ChatProvider) (tools : gmap pystr BaseTool)
    (q : pystr) (sid : option pystr) :
  analyze StockReActAgent._get_system_prompt chat tools q sid =
  failure_payload TypeError sid.
Proof.
  unfold analyze. rewrite run_shipped_agent_raises. reflexivity.
Qed.

End Answer.

(* ===================================================================== *)
(** * Concrete runs *)
(* ===================================================================== *)

Import Fixtures.

Lemma step_final_answer_marker_witness :
  _step prompted_agent (scripted final_reply) ∅ hi_state =
  Ok {| messages := Some [turn "system" SYSTEM; turn "user" (utf8 "hi");
                          turn "assistant" final_reply];
        current_step := Some 1%Z;
        max_steps := Some 10%Z;
        tools_used := Some [];
        intermediate_results := Some [];
        final_answer := Some (utf8 "VNM closed higher") |} /\
  exists pre post,
    final_reply = pre ++ FINAL_ANSWER ++ post /\
    (forall pre' post', final_reply = pre' ++ FINAL_ANSWER ++ post' ->
                        length pre' <= length pre) /\
    trimmed (utf8 "VNM closed higher") post.
Proof.
  destruct (step_final_answer_marker prompted_agent (scripted final_reply) ∅
              hi_state hi_reasoning hi_prompt final_reply)
    as (pre & post & Hsplit & Hlast & Hstep & Htrim & _);
    try (vm_compute; reflexivity).
  assert (Hrun : _step prompted_agent (scripted final_reply) ∅ hi_state =
    Ok {| messages := Some [turn "system" SYSTEM; turn "user" (utf8 "hi");
                            turn "assistant" final_reply];
          current_step := Some 1%Z;
          max_steps := Some 10%Z;
          tools_used := Some [];
          intermediate_results := Some [];
          final_answer := Some (utf8 "VNM closed higher") |})
    by (vm_compute; reflexivity).
  split; [exact Hrun|].
  exists pre, post. split; [exact Hsplit|]. split; [exact Hlast|].
  rewrite Hrun in Hstep. injection Hstep as Hanswer.
  rewrite Hanswer. exact Htrim.
Defined.

Example step_final_answer_run :
  _step prompted_agent (scripted final_reply) ∅ hi_state =
  Ok {| messages := Some [turn "system" SYSTEM; turn "user" (utf8 "hi");
                          turn "assistant" final_reply];
        current_step := Some 1%Z;
        max_steps := Some 10%Z;
        tools_used := Some [];
        intermediate_results := Some [];
        final_answer := Some (utf8 "VNM closed higher") |}.
Proof. vm_compute. reflexivity. Qed.

Lemma step_tool_failure_propagates_witness :
  _step prompted_agent (scripted tool_reply) registry hi_state =
  Raise (Failure (utf8 "connection refused")).
Proof.
  apply (step_tool_failure_propagates prompted_agent (scripted tool_reply) registry
           hi_state hi_reasoning hi_prompt tool_reply
           (utf8 "chat_llm") (utf8 "hi") failing_tool);
    try (vm_compute; reflexivity).
  discriminate.
Defined.

(** C2 as stated fails: the tool named in the reply is registered, its
    execution fails, and the step raises instead of returning a state. *)
Lemma tool_failure_escapes_step :
  registry !! utf8 "chat_llm" = Some failing_tool /\
  execute failing_tool {| query := utf8 "hi"; user_id := None; session_id := None |}
          (utf8 "hi") = Raise (Failure (utf8 "connection refused")) /\
  _step prompted_agent (scripted tool_reply) registry hi_state =
  Raise (Failure (utf8 "connection refused")) /\
  ~ exists state', _step prompted_agent (scripted tool_reply) registry hi_state = Ok state'.
Proof.
  assert (Hstep : _step prompted_agent (scripted tool_reply) registry hi_state =
                  Raise (Failure (utf8 "connection refused")))
    by (vm_compute; reflexivity).
  split; [vm_compute; reflexivity|]. split; [reflexivity|]. split; [exact Hstep|].
  intros [state' Hok]. rewrite Hstep in Hok. discriminate.
Qed.

Lemma step_final_answer_fate_witness :
  exists rr, agent_reason prompted_agent answered_state = Ok rr /\
    if truthy_str (rr_final_answer rr)
    then final_answer overwritten_state = rr_final_answer rr
    else exists prompt reply,
      flatten_prompt (rr_messages rr) = Ok prompt /\
      scripted final_reply prompt = Ok reply /\
      final_answer overwritten_state =
      if py_in FINAL_ANSWER reply
      then Some (extract_final_answer reply)
      else final_answer answered_state.
Proof.
  apply (step_final_answer_fate prompted_agent (scripted final_reply) ∅
           answered_state overwritten_state).
  vm_compute. reflexivity.
Defined.

(** C5 as stated fails: the state carries the final answer "FPT fell",
    the next reply contains "Final Answer:", and the step returns a
    state whose final answer is "VNM closed higher". *)
Lemma step_overwrites_final_answer :
  final_answer answered_state = Some (utf8 "FPT fell") /\
  _step prompted_agent (scripted final_reply) ∅ answered_state = Ok overwritten_state /\
  final_answer overwritten_state = Some (utf8 "VNM closed higher") /\
  final_answer overwritten_state <> final_answer answered_state.
Proof.
  split; [reflexivity|]. split; [vm_compute; reflexivity|].
  split; [reflexivity|]. vm_compute. discriminate.
Qed.

Example step_tool_run :
  _step prompted_agent (scripted tool_reply) working_registry hi_state = Ok observed_state.
Proof. vm_compute. reflexivity. Qed.

Example step_empty_final_answer_run :
  _step prompted_agent (scripted empty_answer_reply) ∅ hi_state = Ok empty_answer_state.
Proof. vm_compute. reflexivity. Qed.

Lemma should_continue_decides_witness :
  ReActWorkflow.should_continue asking_state = Ok ReActWorkflow.Continue.
Proof.
  refine (proj1 (proj2 (should_continue_decides asking_state
            [turn "system" SYSTEM; turn "user" (utf8 "hi"); turn "assistant" tool_reply]
            1 10 eq_refl eq_refl eq_refl _)) _).
  - intros m Hm. vm_compute in Hm. injection Hm as <-. discriminate.
  - intros [Hs|[Hs|Hs]]; [discriminate | lia |].
    specialize (Hs _ _ eq_refl eq_refl). vm_compute in Hs. discriminate.
Defined.

(** C3 as stated fails twice.  After a tool call the most recent
    assistant turn contains "Action:", no final answer is set and the
    budget is not used up, yet the predicate yields "end", because the
    last message is the observation.  And with final_answer set to the
    empty string the predicate yields "continue". *)
Lemma should_continue_reads_last_message :
  (ReActWorkflow.should_continue observed_state = Ok ReActWorkflow.End_ /\
   specified_should_continue observed_state = ReActWorkflow.Continue) /\
  (ReActWorkflow.should_continue empty_answer_state = Ok ReActWorkflow.Continue /\
   specified_should_continue empty_answer_state = ReActWorkflow.End_).
Proof. repeat split; vm_compute; reflexivity. Qed.

Lemma analyze_answer_witness :
  answer (analyze_outcome (Ok two_turn_state) None) =
  strip (synthesized (default [] (messages two_turn_state))).
Proof.
  refine (proj1 (analyze_answer two_turn_state None _)).
  repeat (constructor; [right; discriminate|]). constructor.
Defined.

(** C9 as stated fails: with no final answer and no non-user turn the
    answer is the empty string, not a fallback text; and the contents of
    several turns are joined by newlines. *)
Lemma analyze_has_no_fallback :
  final_answer silent_state = None /\
  answer (analyze_outcome (Ok silent_state) None) = [] /\
  answer (analyze_outcome (Ok two_turn_state) None) = join NL [utf8 "a"; utf8 "b"] /\
  answer (analyze_outcome (Ok two_turn_state) None) <> utf8 "ab".
Proof.
  split; [reflexivity|]. split; [vm_compute; reflexivity|].
  split; [vm_compute; reflexivity|]. vm_compute. discriminate.
Qed.

(** ** Further runs of the model *)

Example parse_tool_usage_plain :
  StockReActAgent.parse_tool_usage
    (join NL [utf8 "Action: chat_llm"; utf8 "Action Input: hello"])
  = (Some (utf8 "chat_llm"), Some (utf8 "hello")).
Proof. vm_compute. reflexivity. Qed.

Example parse_tool_usage_action_only :
  StockReActAgent.parse_tool_usage
    (join NL [utf8 "Thought: search"; utf8 "Action: tavily_search"])
  = (None, None).
Proof. vm_compute. reflexivity. Qed.

Example format_rag_result :
  StockReActAgent.format_tool_result (utf8 "rag_knowledge")
    [(utf8 "knowledge_context", VStr (utf8 "VNM: 70,000 VND"));
     (utf8 "sources", VList [VDict []; VDict []])]
  = Ok (utf8 "Thông tin từ cơ sở dữ liệu nội bộ:
VNM: 70,000 VND

Nguồn tham khảo: 2 tài liệu").
Proof. vm_compute. reflexivity. Qed.

Example format_search_result_empty :
  StockReActAgent.format_tool_result (utf8 "tavily_search") [(utf8 "results", VList [])]
  = Ok (utf8 "Không tìm thấy thông tin liên quan trên web.").
Proof. vm_compute. reflexivity. Qed.

Example format_search_result_one :
  StockReActAgent.format_tool_result (utf8 "tavily_search")
    [(utf8 "results",
      VList [VDict [(utf8 "title", VStr (utf8 "VN-Index"));
                    (utf8 "content", VStr (utf8 "up 1.2%"));
                    (utf8 "url", VStr (utf8 "cafef.vn"))]])]
  = Ok (utf8 "Kết quả tìm kiếm web:
• VN-Index
  up 1.2%...
  Nguồn: cafef.vn").
Proof. vm_compute. reflexivity. Qed.

(** A step on the dictionary with the fields of the initial state, with
    an agent that has a prompt, and the service on the state it
    returns. *)
Example step_to_final_answer :
  exists state',
    _step prompted_agent (scripted final_reply) ∅ hi_state = Ok state' /\
    ReActWorkflow.should_continue state' = Ok ReActWorkflow.End_ /\
    StockAnalysisService.answer (StockAnalysisService.analyze_outcome (Ok state') None)
    = utf8 "VNM closed higher".
Proof. eexists. split; [vm_compute; reflexivity|]. split; vm_compute; reflexivity. Qed.

(** After a tool call the predicate ends the run on the observation. *)
Example stop_after_tool_call :
  _step prompted_agent (scripted tool_reply) working_registry hi_state = Ok observed_state /\
  ReActWorkflow.should_continue observed_state = Ok ReActWorkflow.End_.
Proof. split; vm_compute; reflexivity. Qed.

(** A run hands the step an instance of the model: whatever the prompt,
    the run raises and the service answers with its failure payload. *)
Example run_prompted_agent :
  ReActWorkflow.run (Ok (Some SYSTEM)) (scripted final_reply) ∅ (utf8 "hi") None
  = Raise TypeError.
Proof. vm_compute. reflexivity. Qed.

Example run_shipped_agent :
  StockAnalysisService.analyze StockReActAgent._get_system_prompt (scripted final_reply) ∅
    (utf8 "hi") None
  = StockAnalysisService.failure_payload TypeError None.
Proof. vm_compute. reflexivity. Qed.

(** A terminal state that holds a turn with content None: building the
    combined answer raises, and the service answers with its failure
    payload even though a final answer is present. *)
Example analyze_none_content :
  StockAnalysisService.analyze_outcome
    (Ok {| messages := Some [{| role := utf8 "system"; content := None |};
                             turn "user" (utf8 "hi")];
           current_step := Some 1%Z;
           max_steps := Some 10%Z;
           tools_used := Some [];
           intermediate_results := Some [];
           final_answer := Some (utf8 "FPT fell") |})
    None
  = StockAnalysisService.failure_payload TypeError None.
Proof. vm_compute. reflexivity. Qed.

(* ===================================================================== *)
(** * Further properties of the code *)
(* ===================================================================== *)

(** ** The remaining paths of a step *)

Section StepPaths.
Variable agent : ReActAgent.
Variable chat : ChatProvider.
Variable tools : gmap pystr BaseTool.

(** What the step does once the model has replied with [reply]:
    everything after the model call. *)
Lemma step_until_reply
    (state : AgentState) (rr : ReasoningResult) (prompt reply : pystr) :
  agent_reason agent state = Ok rr ->
  truthy_str (rr_final_answer rr) = false ->
  flatten_prompt (rr_messages rr) = Ok prompt ->
  chat prompt = Ok reply ->
  py_in FINAL_ANSWER reply = false ->
  _step agent chat tools state =
  let '(tool_name, tool_input) := agent_parse_tool_usage agent reply in
  let msgs := rr_messages rr ++ [turn "assistant" reply] in
  let thinking :=
    Ok {| messages := Some msgs;
          current_step := Some (rr_current_step rr + 1)%Z;
          max_steps := max_steps state;
          tools_used := tools_used state;
          intermediate_results := intermediate_results state;
          final_answer := final_answer state |} in
  match tool_name with
  | Some (c :: n) =>
    match tools !! (c :: n) with
    | Some tool =>
      context ← new_QueryContext tool_input;
      tool_result ← execute tool context (query context);
      observation ← agent_format_tool_result agent (c :: n) tool_result;
      Ok {| messages := Some (msgs ++ [turn "user" observation]);
            current_step := Some (rr_current_step rr + 1)%Z;
            max_steps := max_steps state;
            tools_used := Some (default [] (tools_used state) ++ [c :: n]);
            intermediate_results :=
              Some (default [] (intermediate_results state) ++ [tool_result]);
            final_answer := final_answer state |}
    | None => thinking
    end
  | _ => thinking
  end.
Proof.
  intros Hreason Hfa Hprompt Hchat Hmarker.
  unfold _step. rewrite Hreason, bind_Ok, Hfa, Hprompt, bind_Ok, Hchat, bind_Ok, Hmarker.
  reflexivity.
Qed.

(** The tool path of the step in closed form. *)
Lemma step_tool_path
    (state : AgentState) (rr : ReasoningResult) (prompt reply : pystr)
    (tool_name tool_input : pystr) (tool : BaseTool)
    (tool_result : ToolDict) (observation : pystr) :
  agent_reason agent state = Ok rr ->
  truthy_str (rr_final_answer rr) = false ->
  flatten_prompt (rr_messages rr) = Ok prompt ->
  chat prompt = Ok reply ->
  py_in FINAL_ANSWER reply = false ->
  agent_parse_tool_usage agent reply = (Some tool_name, Some tool_input) ->
  tool_name <> [] ->
  tools !! tool_name = Some tool ->
  _execute_impl tool {| query := tool_input; user_id := None; session_id := None |}
                tool_input = Ok tool_result ->
  agent_format_tool_result agent tool_name tool_result = Ok observation ->
  _step agent chat tools state =
  Ok {| messages := Some (rr_messages rr ++
                          [turn "assistant" reply; turn "user" observation]);
        current_step := Some (rr_current_step rr + 1)%Z;
        max_steps := max_steps state;
        tools_used := Some (default [] (tools_used state) ++ [tool_name]);
        intermediate_results :=
          Some (default [] (intermediate_results state) ++ [tool_result]);
        final_answer := final_answer state |}.
Proof.
  intros Hreason Hfa Hprompt Hchat Hmarker Hparse Hname Htool Hrun Hobs.
  rewrite (step_until_reply state rr prompt reply) by assumption.
  rewrite Hparse. destruct tool_name as [|c n]; [contradiction|].
  rewrite Htool. simpl. unfold execute. simpl. rewrite Hrun. simpl.
  rewrite Hobs. simpl. rewrite <- app_assoc. reflexivity.
Qed.

(** X1: a reply that names a registered tool whose execution and
    formatting succeed makes the step append the reply as an assistant
    turn and the observation as a user turn, record the tool name at the
    end of tools_used and the raw result at the end of
    intermediate_results, add one to the counter and leave final_answer
    as it was. *)
Theorem step_tool_call
    (state : AgentState) (rr : ReasoningResult) (prompt reply : pystr)
    (tool_name tool_input : pystr) (tool : BaseTool)
    (tool_result : ToolDict) (observation : pystr) :
  agent_reason agent state = Ok rr ->
  truthy_str (rr_final_answer rr) = false ->
  flatten_prompt (rr_messages rr) = Ok prompt ->
  chat prompt = Ok reply ->
  py_in FINAL_ANSWER reply = false ->
  agent_parse_tool_usage agent reply = (Some tool_name, Some tool_input) ->
  tool_name <> [] ->
  tools !! tool_name = Some tool ->
  _execute_impl tool {| query := tool_input; user_id := None; session_id := None |}
                tool_input = Ok tool_result ->
  agent_format_tool_result agent tool_name tool_result = Ok observation ->
  _step agent chat tools state =
  Ok {| messages := Some (rr_messages rr ++
                          [turn "assistant" reply; turn "user" observation]);
        current_step := Some (rr_current_step rr + 1)%Z;
        max_steps := max_steps state;
        tools_used := Some (default [] (tools_used state) ++ [tool_name]);
        intermediate_results :=
          Some (default [] (intermediate_results state) ++ [tool_result]);
        final_answer := final_answer state |}.
Proof.
  intros Hreason Hfa Hprompt Hchat Hmarker Hparse Hname Htool Hrun Hobs.
  eapply step_tool_path; eassumption.
Qed.

(** The thinking path of the step in closed form. *)
Lemma step_thinking_path
    (state : AgentState) (rr : ReasoningResult) (prompt reply : pystr)
    (tool_name tool_input : option pystr) :
  agent_reason agent state = Ok rr ->
  truthy_str (rr_final_answer rr) = false ->
  flatten_prompt (rr_messages rr) = Ok prompt ->
  chat prompt = Ok reply ->
  py_in FINAL_ANSWER reply = false ->
  agent_parse_tool_usage agent reply = (tool_name, tool_input) ->
  (tool_name = None \/ tool_name = Some [] \/
   exists n, tool_name = Some n /\ tools !! n = None) ->
  _step agent chat tools state =
  Ok {| messages := Some (rr_messages rr ++ [turn "assistant" reply]);
        current_step := Some (rr_current_step rr + 1)%Z;
        max_steps := max_steps state;
        tools_used := tools_used state;
        intermediate_results := intermediate_results state;
        final_answer := final_answer state |}.
Proof.
  intros Hreason Hfa Hprompt Hchat Hmarker Hparse Hnone.
  rewrite (step_until_reply state rr prompt reply) by assumption.
  rewrite Hparse.
  destruct Hnone as [-> | [-> | (n & -> & Hn)]]; try reflexivity.
  destruct n as [|c n]; [reflexivity|]. rewrite Hn. reflexivity.
Qed.

(** X2: a reply without "Final Answer:" whose parse gives no tool
    name, an empty one, or the name of a tool that is not registered is
    not an error and runs no tool: the step appends the reply as an
    assistant turn, adds one to the counter and changes nothing else. *)
Theorem step_without_tool
    (state : AgentState) (rr : ReasoningResult) (prompt reply : pystr)
    (tool_name tool_input : option pystr) :
  agent_reason agent state = Ok rr ->
  truthy_str (rr_final_answer rr) = false ->
  flatten_prompt (rr_messages rr) = Ok prompt ->
  chat prompt = Ok reply ->
  py_in FINAL_ANSWER reply = false ->
  agent_parse_tool_usage agent reply = (tool_name, tool_input) ->
  (tool_name = None \/ tool_name = Some [] \/
   exists n, tool_name = Some n /\ tools !! n = None) ->
  _step agent chat tools state =
  Ok {| messages := Some (rr_messages rr ++ [turn "assistant" reply]);
        current_step := Some (rr_current_step rr + 1)%Z;
        max_steps := max_steps state;
        tools_used := tools_used state;
        intermediate_results := intermediate_results state;
        final_answer := final_answer state |}.
Proof.
  intros Hreason Hfa Hprompt Hchat Hmarker Hparse Hnone.
  eapply step_thinking_path; eassumption.
Qed.

(** X3: every step that returns extends tools_used and
    intermediate_results by the same number of entries, none or one, and
    keeps the entries that were there: the two lists stay aligned. *)
Theorem step_keeps_results_aligned (state state' : AgentState) :
  _step agent chat tools state = Ok state' ->
  exists used results,
    length used = length results /\ length used <= 1 /\
    default [] (tools_used state') = default [] (tools_used state) ++ used /\
    default [] (intermediate_results state')
    = default [] (intermediate_results state) ++ results.
Proof.
  unfold _step. destruct (agent_reason agent state) as [rr|e]; [|discriminate].
  rewrite bind_Ok. intros Hstep.
  assert (Hsame : forall s, tools_used s = tools_used state ->
                            intermediate_results s = intermediate_results state ->
            exists used results,
              length used = length results /\ length used <= 1 /\
              default [] (tools_used s) = default [] (tools_used state) ++ used /\
              default [] (intermediate_results s)
              = default [] (intermediate_results state) ++ results).
  { intros s -> ->. exists [], []. rewrite !app_nil_r. simpl. auto. }
  destruct (truthy_str (rr_final_answer rr));
    [injection Hstep as <-; apply Hsame; reflexivity|].
  destruct (flatten_prompt (rr_messages rr)) as [prompt|e]; [|discriminate].
  rewrite bind_Ok in Hstep.
  destruct (chat prompt) as [reply|e]; [|discriminate].
  rewrite bind_Ok in Hstep.
  destruct (py_in FINAL_ANSWER reply);
    [injection Hstep as <-; apply Hsame; reflexivity|].
  destruct (agent_parse_tool_usage agent reply) as [[[|c n]|] tool_input];
    try (injection Hstep as <-; apply Hsame; reflexivity).
  destruct (tools !! (c :: n)) as [tool|];
    [|injection Hstep as <-; apply Hsame; reflexivity].
  destruct (new_QueryContext tool_input) as [ctx|e]; [|discriminate].
  rewrite bind_Ok in Hstep.
  destruct (execute tool ctx (query ctx)) as [tool_result|e]; [|discriminate].
  rewrite bind_Ok in Hstep.
  destruct (agent_format_tool_result agent (c :: n) tool_result) as [obs|e];
    [|discriminate].
  rewrite bind_Ok in Hstep. injection Hstep as <-.
  exists [c :: n], [tool_result]. simpl. auto.
Qed.

(** The exception of the model provider leaves the step. *)
Lemma step_chat_failure
    (state : AgentState) (rr : ReasoningResult) (prompt : pystr) (e : exn) :
  agent_reason agent state = Ok rr ->
  truthy_str (rr_final_answer rr) = false ->
  flatten_prompt (rr_messages rr) = Ok prompt ->
  chat prompt = Raise e ->
  _step agent chat tools state = Raise e.
Proof.
  intros Hreason Hfa Hprompt Hchat.
  unfold _step. rewrite Hreason, bind_Ok, Hfa, Hprompt, bind_Ok, Hchat. reflexivity.
Qed.

End StepPaths.

(** ** Steps and runs of an agent of the class *)

Lemma contents_total (conversation : list Message) :
  Forall (fun m => content m <> None) conversation ->
  exists cs, contents conversation = Ok cs.
Proof.
  induction 1 as [|m rest Hm _ [cs IH]]; [exists []; reflexivity|].
  simpl. destruct (content m) as [c|]; [|contradiction].
  rewrite IH. exists (c :: cs). reflexivity.
Qed.

Lemma contents_strings (conversation : list Message) (cs : list pystr) :
  contents conversation = Ok cs -> Forall (fun m => content m <> None) conversation.
Proof.
  revert cs. induction conversation as [|m rest IH]; intros cs Hc; [constructor|].
  simpl in Hc. destruct (content m) as [c|] eqn:Em; [|discriminate].
  destruct (contents rest) as [cs'|] eqn:Er; [|discriminate].
  constructor; [congruence | eapply IH; reflexivity].
Qed.

Lemma flatten_prompt_total (conversation : list Message) :
  Forall (fun m => content m <> None) conversation ->
  exists prompt, flatten_prompt conversation = Ok prompt.
Proof.
  intros Hall. destruct (contents_total conversation Hall) as [cs Hcs].
  unfold flatten_prompt. rewrite Hcs. eexists. reflexivity.
Qed.

Ltac history_done :=
  simpl; split; [reflexivity|split; [reflexivity|split; [lia|assumption]]].

Section ClassRuns.
Context `{PyBuiltins}.
Variable chat : ChatProvider.
Variable tools : gmap pystr BaseTool.

(** X4: whatever _get_system_prompt returns, a step that returns has
    kept the whole history: the new history is one system turn, then the
    old history, then one or two new turns, and the prompt was a
    string.  The history is never truncated, and every step puts one
    more system turn in front of it. *)
Theorem step_extends_history
    (system_prompt : option pystr) (state state' : AgentState) :
  _step (agent_with (Ok system_prompt)) chat tools state = Ok state' ->
  exists msgs tail,
    messages state = Some msgs /\
    messages state'
    = Some ({| role := utf8 "system"; content := system_prompt |} :: msgs ++ tail) /\
    1 <= length tail <= 2 /\
    system_prompt <> None.
Proof.
  unfold _step. cbn [agent_reason agent_with]. rewrite reason_with_prompt.
  destruct (messages state) as [msgs|]; [|discriminate].
  destruct (current_step state) as [n|]; [|discriminate].
  rewrite bind_Ok. cbn [rr_messages rr_current_step rr_final_answer truthy_str].
  destruct (flatten_prompt _) as [prompt|e] eqn:Hflat; [|discriminate].
  assert (Hp : system_prompt <> None).
  { unfold flatten_prompt in Hflat.
    destruct (contents _) as [cs|] eqn:Hcs; [|discriminate].
    apply contents_strings in Hcs. inversion Hcs; subst. assumption. }
  rewrite bind_Ok. destruct (chat prompt) as [reply|e]; [|discriminate].
  rewrite bind_Ok. intros Hstep. exists msgs.
  destruct (py_in FINAL_ANSWER reply);
    [injection Hstep as <-; eexists [_]; history_done|].
  cbn [agent_parse_tool_usage agent_format_tool_result agent_with] in Hstep.
  destruct (parse_tool_usage reply) as [[[|c nm]|] tool_input];
    try (injection Hstep as <-; eexists [_]; history_done).
  destruct (tools !! (c :: nm)) as [tool|];
    [|injection Hstep as <-; eexists [_]; history_done].
  destruct (new_QueryContext tool_input) as [ctx|e]; [|discriminate].
  rewrite bind_Ok in Hstep.
  destruct (execute tool ctx (query ctx)) as [tool_result|e]; [|discriminate].
  rewrite bind_Ok in Hstep.
  destruct (format_tool_result (c :: nm) tool_result) as [obs|e]; [|discriminate].
  rewrite bind_Ok in Hstep. injection Hstep as <-.
  eexists [_; _]. rewrite <- app_assoc. history_done.
Qed.

(** X5: the exception of the model provider leaves the step as it
    is, for every agent: no state is returned and nothing after the call
    runs.  An exception that leaves the run is turned by analyze into
    its failure payload, with the text of that exception, success false,
    zero steps and empty tool lists. *)
Theorem provider_failure_propagates
    (agent : ReActAgent) (state : AgentState) (rr : ReasoningResult)
    (prompt : pystr) (e : exn) (sid : option pystr) :
  agent_reason agent state = Ok rr ->
  truthy_str (rr_final_answer rr) = false ->
  flatten_prompt (rr_messages rr) = Ok prompt ->
  chat prompt = Raise e ->
  _step agent chat tools state = Raise e /\
  analyze_outcome (Raise e) sid
  = {| answer := utf8 "Xin lỗi, đã xảy ra lỗi trong quá trình phân tích: " ++ str_exn e;
       metadata := {| success := false;
                      md_session_id := sid;
                      steps := 0;
                      md_tools_used := [];
                      md_intermediate_results := [] |} |}.
Proof.
  intros Hreason Hfa Hprompt Hchat. split; [|reflexivity].
  apply (step_chat_failure agent chat tools state rr prompt e); assumption.
Qed.

(** X6: a run never returns a state.  run hands the step an
    instance of the pydantic model AgentState, which reason subscripts:
    the subscript raises TypeError in the try block and again in the
    handler.  So, whatever _get_system_prompt returns and whatever the
    provider and the tools are, reason and the step raise TypeError on
    every instance, run raises TypeError, and analyze answers every
    query with its failure payload. *)
Theorem run_raises_type_error
    (get_system_prompt : result (option pystr)) (fields : AgentState)
    (q : pystr) (sid : option pystr) :
  reason_on get_system_prompt (Model fields) = Raise TypeError /\
  step_on get_system_prompt chat tools (Model fields) = Raise TypeError /\
  run get_system_prompt chat tools q sid = Raise TypeError /\
  analyze get_system_prompt chat tools q sid
  = {| answer := utf8 "Xin lỗi, đã xảy ra lỗi trong quá trình phân tích: "
                 ++ str_exn TypeError;
       metadata := {| success := false;
                      md_session_id := sid;
                      steps := 0;
                      md_tools_used := [];
                      md_intermediate_results := [] |} |}.
Proof.
  split; [apply reason_on_model|]. split; [apply step_on_model|].
  split; [apply run_raises|].
  unfold analyze. rewrite run_raises. reflexivity.
Qed.

End ClassRuns.

Lemma parse_tool_usage_without_action (message : pystr) :
  py_in ACTION message = false -> parse_tool_usage message = (None, None).
Proof. intros Hno. unfold parse_tool_usage. rewrite Hno. reflexivity. Qed.

Section Scenarios.
Context `{PyBuiltins}.
Variable chat : ChatProvider.
Variable tools : gmap pystr BaseTool.
Variable p : pystr.

(** X7: a reply that holds neither "Final Answer:" nor "Action:"
    ends the loop without a final answer.  For a dictionary state
    without a final answer and an agent of the class with the prompt p:
    the step returns the history with the system turn in front and the
    reply behind, the predicate of the conditional edge says "end" on
    the returned state, and analyze, given that state, reports success,
    counts the messages as steps and answers with the contents of the
    non-user turns, the system prompt included. *)
Theorem step_plain_reply_ends
    (state : AgentState) (msgs : list Message) (n bound : Z)
    (prompt reply : pystr) (sid : option pystr) :
  messages state = Some msgs ->
  current_step state = Some n ->
  max_steps state = Some bound ->
  truthy_str (final_answer state) = false ->
  flatten_prompt (turn "system" p :: msgs) = Ok prompt ->
  chat prompt = Ok reply ->
  py_in FINAL_ANSWER reply = false ->
  py_in ACTION reply = false ->
  exists state',
    _step (agent_with (Ok (Some p))) chat tools state = Ok state' /\
    messages state' = Some (turn "system" p :: msgs ++ [turn "assistant" reply]) /\
    current_step state' = Some (n + 1)%Z /\
    should_continue state' = Ok End_ /\
    answer (analyze_outcome (Ok state') sid)
    = strip (synthesized (turn "system" p :: msgs ++ [turn "assistant" reply])) /\
    success (metadata (analyze_outcome (Ok state') sid)) = true /\
    steps (metadata (analyze_outcome (Ok state') sid)) = length msgs + 2.
Proof.
  intros Hmsgs Hn Hbound Hfa Hprompt Hchat Hfinal Haction.
  assert (Hreason : agent_reason (agent_with (Ok (Some p))) state
            = Ok {| rr_messages := turn "system" p :: msgs;
                    rr_current_step := n; rr_final_answer := None |}).
  { cbn [agent_reason agent_with]. rewrite reason_with_prompt, Hmsgs, Hn. reflexivity. }
  eexists. split.
  { apply (step_thinking_path _ chat tools state _ prompt reply None None Hreason);
      try reflexivity; try assumption.
    - cbn [agent_parse_tool_usage agent_with].
      apply parse_tool_usage_without_action, Haction.
    - left. reflexivity. }
  cbn [messages current_step rr_messages rr_current_step].
  split; [reflexivity|]. split; [reflexivity|]. split.
  { unfold should_continue. cbn [messages current_step max_steps final_answer getitem].
    rewrite !bind_Ok, Hfa, Hbound. cbn [getitem]. rewrite bind_Ok.
    destruct (n + 1 >=? bound)%Z; [reflexivity|].
    unfold last_message.
    change (turn "system" p :: msgs ++ [turn "assistant" reply])
      with ((turn "system" p :: msgs) ++ [turn "assistant" reply]).
    rewrite last_snoc. cbn [content turn]. rewrite Haction. reflexivity. }
  assert (Hall : Forall (fun m => role m = utf8 "user" \/ content m <> None)
            ((turn "system" p :: msgs) ++ [turn "assistant" reply])).
  { unfold flatten_prompt in Hprompt.
    destruct (contents (turn "system" p :: msgs)) as [cs|] eqn:Hcs; [|discriminate].
    apply contents_strings in Hcs.
    apply List.Forall_app. split.
    - eapply List.Forall_impl; [|exact Hcs]. intros m Hm. right. exact Hm.
    - constructor; [right; discriminate | constructor]. }
  unfold analyze_outcome, reshape. rewrite bind_Ok. cbn [messages default final_answer].
  unfold id. rewrite (combine_synthesized [] _ Hall), bind_Ok.
  cbn [answer metadata success steps].
  split; [|split; [reflexivity|]].
  - destruct (final_answer state) as [[|c a]|]; [reflexivity|discriminate|reflexivity].
  - rewrite length_app. simpl. lia.
Qed.

End Scenarios.

(** ** When the predicate and the service fail *)

(** X9: should_continue raises in exactly four situations: the
    messages key is absent (KeyError, even when a final answer is set);
    no final answer is set and current_step, or else max_steps, is
    absent (KeyError); or no final answer is set, the budget is not used
    up and the last message has content None (TypeError).  A non-empty
    final answer is tested before the counters and the last message are
    read, and an exhausted budget before the last message is read. *)
Theorem should_continue_raises (state : AgentState) (e : exn) :
  should_continue state = Raise e <->
  (messages state = None /\ e = KeyError (utf8 "messages")) \/
  (messages state <> None /\ truthy_str (final_answer state) = false /\
   current_step state = None /\ e = KeyError (utf8 "current_step")) \/
  (messages state <> None /\ truthy_str (final_answer state) = false /\
   current_step state <> None /\ max_steps state = None /\
   e = KeyError (utf8 "max_steps")) \/
  (exists msgs n bound m,
     messages state = Some msgs /\ truthy_str (final_answer state) = false /\
     current_step state = Some n /\ max_steps state = Some bound /\
     (n < bound)%Z /\ last msgs = Some m /\ content m = None /\ e = TypeError).
Proof.
  unfold should_continue.
  destruct (messages state) as [msgs|]; simpl.
  2:{ split.
      - intros [= <-]. left. auto.
      - intros [[_ ->]|[(Hm & _)|[(Hm & _)|(? & ? & ? & ? & Hm & _)]]];
          [reflexivity | contradiction | contradiction | discriminate]. }
  destruct (truthy_str (final_answer state)).
  { split; [discriminate|].
    intros [[Hm _]|[(_ & Hf & _)|[(_ & Hf & _)|(? & ? & ? & ? & _ & Hf & _)]]];
      discriminate. }
  destruct (current_step state) as [n|]; simpl.
  2:{ split.
      - intros [= <-]. right. left. repeat split; auto; discriminate.
      - intros [[Hm _]|[(_ & _ & _ & ->)|[(_ & _ & Hn & _)|(? & ? & ? & ? & _ & _ & Hn & _)]]];
          [discriminate | reflexivity | contradiction | discriminate]. }
  destruct (max_steps state) as [bound|]; simpl.
  2:{ split.
      - intros [= <-]. right. right. left. repeat split; auto; discriminate.
      - intros [[Hm _]|[(_ & _ & Hn & _)|[(_ & _ & _ & _ & ->)|(? & ? & ? & ? & _ & _ & _ & Hb & _)]]];
          [discriminate | discriminate | reflexivity | discriminate]. }
  destruct (Z.geb_spec n bound) as [Hge|Hlt].
  { split; [discriminate|].
    intros [[Hm _]|[(_ & _ & Hn & _)|[(_ & _ & _ & Hb & _)|(? & n' & b' & ? & _ & _ & Hn & Hb & Hlt & _)]]];
      try discriminate.
    injection Hn as <-. injection Hb as <-. lia. }
  unfold last_message. destruct (last msgs) as [m|] eqn:El.
  2:{ split; [discriminate|].
      intros [[Hm _]|[(_ & _ & Hn & _)|[(_ & _ & _ & Hb & _)|(ms & ? & ? & ? & Hm & _ & _ & _ & _ & Hl & _)]]];
        try discriminate.
      injection Hm as <-. congruence. }
  destruct (content m) as [text|] eqn:Ec.
  - split; [destruct (py_in ACTION text); discriminate|].
    intros [[Hm _]|[(_ & _ & Hn & _)|[(_ & _ & _ & Hb & _)|(ms & ? & ? & m' & Hm & _ & _ & _ & _ & Hl & Hc & _)]]];
      try discriminate.
    injection Hm as <-. congruence.
  - split.
    + intros [= <-]. right. right. right. exists msgs, n, bound, m. auto 10.
    + intros [[Hm _]|[(_ & _ & Hn & _)|[(_ & _ & _ & Hb & _)|(? & ? & ? & ? & _ & _ & _ & _ & _ & _ & _ & ->)]]];
        try discriminate. reflexivity.
Qed.

(** The loop over the turns raises exactly when a turn whose role is
    not "user" has content None. *)
Lemma combine_raises (acc : pystr) (msgs : list Message) :
  (exists e, combine acc msgs = Raise e) <->
  Exists (fun m => role m <> utf8 "user" /\ content m = None) msgs.
Proof.
  revert acc. induction msgs as [|m msgs IH]; intros acc; simpl.
  - split; [intros [e He]; discriminate | intros Hex; inversion Hex].
  - destruct (decide (role m = utf8 "user")) as [Hu|Hu].
    + rewrite IH. split; [intros Hex; right; exact Hex|].
      intros Hex. inversion Hex as [? ? [Hr _]|]; subst; [contradiction|assumption].
    + destruct (content m) as [c|] eqn:Ec.
      * rewrite IH. split; [intros Hex; right; exact Hex|].
        intros Hex. inversion Hex as [? ? [_ Hc]|]; subst; [congruence|assumption].
      * split; [intros _; left; auto | intros _; eexists; reflexivity].
Qed.

Section Flag.
Context `{PyBuiltins}.

(** X10: analyze never raises and always echoes the session id.  Its
    success flag is false exactly when the workflow raised or the
    terminal state holds a non-user turn with content None; in that case
    the answer is the error text, steps is 0 and both tool lists are
    empty.  In every other case success is true, also when no final
    answer was produced, and steps is the number of messages. *)
Theorem analyze_success_flag (outcome : result AgentState) (sid : option pystr) :
  let r := analyze_outcome outcome sid in
  md_session_id (metadata r) = sid /\
  (success (metadata r) = false <->
   (exists e, outcome = Raise e) \/
   (exists final_state,
      outcome = Ok final_state /\
      Exists (fun m => role m <> utf8 "user" /\ content m = None)
             (default [] (messages final_state)))) /\
  (success (metadata r) = false ->
   steps (metadata r) = 0 /\ md_tools_used (metadata r) = [] /\
   md_intermediate_results (metadata r) = [] /\
   exists e, answer r
             = utf8 "Xin lỗi, đã xảy ra lỗi trong quá trình phân tích: " ++ str_exn e) /\
  (success (metadata r) = true ->
   exists final_state,
     outcome = Ok final_state /\
     steps (metadata r) = length (default [] (messages final_state)) /\
     md_tools_used (metadata r) = default [] (tools_used final_state) /\
     md_intermediate_results (metadata r)
     = default [] (intermediate_results final_state)).
Proof.
  intros r. subst r. unfold analyze_outcome.
  destruct outcome as [final_state|e].
  - rewrite bind_Ok. unfold reshape.
    destruct (combine [] (default [] (messages final_state))) as [combined|e] eqn:Hc.
    + rewrite bind_Ok. cbn [metadata success md_session_id steps md_tools_used
                              md_intermediate_results].
      split; [reflexivity|]. split; [|split; [discriminate|]].
      * split; [discriminate|].
        intros [[e He]|(fs & Hfs & Hex)]; [discriminate|].
        injection Hfs as <-. apply combine_raises with (acc := []) in Hex.
        destruct Hex as [e He]. congruence.
      * intros _. exists final_state. auto.
    + simpl. split; [reflexivity|]. split; [|split; [|discriminate]].
      * split; [|reflexivity]. intros _. right. exists final_state.
        split; [reflexivity|]. apply (combine_raises []). eauto.
      * intros _. repeat split. eexists. reflexivity.
  - simpl. split; [reflexivity|]. split; [|split; [|discriminate]].
    + split; [|reflexivity]. intros _. left. eauto.
    + intros _. repeat split. eexists. reflexivity.
Qed.

End Flag.

(** ** Writing a directive and reading it back *)

Lemma strip_rstrip (t : pystr) : strip (rstrip t) = strip t.
Proof.
  destruct (rstrip_decomp t) as (w & Ht & Hw).
  rewrite Ht at 2. rewrite strip_space_suffix by assumption. reflexivity.
Qed.

(** A marker that neither begins nor ends with whitespace survives
    [strip] at the head of its line. *)
Lemma strip_after_marker (m t : pystr) :
  m <> [] -> no_lead m -> no_lead (rev m) -> strip (m ++ t) = m ++ rstrip t.
Proof.
  intros Hm Hhead Hlast. unfold strip.
  assert (Hl : lstrip (m ++ t) = m ++ t).
  { destruct m as [|c m]; [contradiction|]. simpl in *. rewrite Hhead. reflexivity. }
  rewrite Hl. unfold rstrip. rewrite rev_app_distr, lstrip_app.
  destruct (lstrip (rev t)) as [|c r] eqn:E.
  - rewrite lstrip_id by assumption. rewrite rev_involutive, app_nil_r. reflexivity.
  - rewrite rev_app_distr, rev_involutive. reflexivity.
Qed.

Lemma py_in_app_l (m a b : pystr) : py_in m a = true -> py_in m (a ++ b) = true.
Proof.
  intros Ha. apply py_in_spec in Ha as (x & y & ->).
  apply py_in_spec. exists x, (y ++ b). rewrite <- !app_assoc. reflexivity.
Qed.

Lemma py_in_rstrip (m t : pystr) : py_in m t = false -> py_in m (rstrip t) = false.
Proof.
  intros Ht. destruct (py_in m (rstrip t)) eqn:E; [|reflexivity].
  destruct (rstrip_decomp t) as (w & Hw & _).
  rewrite Hw, (py_in_app_l m _ w E) in Ht. discriminate.
Qed.

Lemma input_not_action (l : pystr) :
  startswith l ACTION_INPUT = true -> startswith l ACTION = false.
Proof.
  intros Hi. destruct (startswith l ACTION) eqn:Ha; [|reflexivity].
  rewrite (action_not_input l Ha) in Hi. discriminate.
Qed.

Lemma startswith_app (m t : pystr) : startswith (m ++ t) m = true.
Proof. apply startswith_spec. eauto. Qed.

Lemma strip_action_line (t : pystr) : strip (ACTION ++ t) = ACTION ++ rstrip t.
Proof. apply strip_after_marker; [discriminate | reflexivity | reflexivity]. Qed.

Lemma strip_input_line (t : pystr) :
  strip (ACTION_INPUT ++ t) = ACTION_INPUT ++ rstrip t.
Proof. apply strip_after_marker; [discriminate | reflexivity | reflexivity]. Qed.

(** X11: a directive written in the protocol is read back: for a
    message that ends with the line "Action:" + name followed by the
    line "Action Input:" + input, where neither text holds a newline or
    its own marker, parse_tool_usage returns the stripped name and the
    stripped input, whatever lines come before (earlier directives
    included). *)
Theorem parse_tool_usage_directive
    (before : list pystr) (tool_name tool_input : pystr) :
  Forall (fun l => ~ In 10%N l)
         (before ++ [ACTION ++ tool_name; ACTION_INPUT ++ tool_input]) ->
  py_in ACTION tool_name = false ->
  py_in ACTION_INPUT tool_input = false ->
  parse_tool_usage
    (join NL (before ++ [ACTION ++ tool_name; ACTION_INPUT ++ tool_input]))
  = (Some (strip tool_name), Some (strip tool_input)).
Proof.
  intros Hlines Hname Hinput.
  rewrite parse_tool_usage_closed.
  rewrite !marker_lines_join by (assumption || (destruct before; discriminate)).
  rewrite List.map_app, !List.filter_app. cbn [map List.filter].
  rewrite strip_action_line, strip_input_line.
  rewrite (startswith_app ACTION), (startswith_app ACTION_INPUT).
  rewrite (action_not_input _ (startswith_app ACTION (rstrip tool_name))).
  rewrite (input_not_action _ (startswith_app ACTION_INPUT (rstrip tool_input))).
  rewrite !last_snoc.
  rewrite (after_marker ACTION _ ACTION_nonempty (py_in_rstrip _ _ Hname)).
  rewrite (after_marker ACTION_INPUT _ ACTION_INPUT_nonempty (py_in_rstrip _ _ Hinput)).
  rewrite !strip_rstrip. reflexivity.
Qed.

(** X12: lines that, once stripped, begin with neither marker do not
    affect the result: such a line can be removed from the message
    (Thought and Observation lines, blank lines, prose). *)
Theorem parse_tool_usage_skips_other_lines
    (before after : list pystr) (line : pystr) :
  Forall (fun l => ~ In 10%N l) (before ++ line :: after) ->
  startswith (strip line) ACTION = false ->
  startswith (strip line) ACTION_INPUT = false ->
  parse_tool_usage (join NL (before ++ line :: after))
  = parse_tool_usage (join NL (before ++ after)).
Proof.
  intros Hlines Ha Hi.
  assert (Hrest : Forall (fun l => ~ In 10%N l) (before ++ after)).
  { apply List.Forall_app in Hlines as [Hb Hl]. inversion Hl; subst.
    apply List.Forall_app. split; assumption. }
  rewrite !parse_tool_usage_closed.
  rewrite (marker_lines_join ACTION (before ++ line :: after))
    by (assumption || (destruct before; discriminate)).
  rewrite (marker_lines_join ACTION_INPUT (before ++ line :: after))
    by (assumption || (destruct before; discriminate)).
  rewrite !List.map_app, !List.filter_app. cbn [map List.filter]. rewrite Ha, Hi.
  destruct (before ++ after) as [|l ls] eqn:E.
  - apply app_eq_nil in E as [-> ->]. reflexivity.
  - rewrite <- E in *. rewrite !marker_lines_join by (assumption || congruence).
    rewrite !List.map_app, !List.filter_app. reflexivity.
Qed.

(** ** Observations *)

Lemma dict_get_head (k : pystr) (v d0 : pyval) (d : ToolDict) :
  dict_get ((k, v) :: d) k d0 = v.
Proof. simpl. destruct (decide (k = k)); [reflexivity | contradiction]. Qed.

Lemma dict_get_skip (k k' : pystr) (v d0 : pyval) (d : ToolDict) :
  k <> k' -> dict_get ((k, v) :: d) k' d0 = dict_get d k' d0.
Proof. intros Hk. simpl. destruct (decide (k = k')); [contradiction | reflexivity]. Qed.

Section Observations.
Context `{PyBuiltins}.

Lemma format_tool_result_search (tool_result : ToolDict) :
  format_tool_result (utf8 "tavily_search") tool_result =
  let results := dict_get tool_result (utf8 "results") (VList []) in
  if negb (truthy results) then
    Ok (utf8 "Không tìm thấy thông tin liên quan trên web.")
  else
    top ← match results with
           | VList l => Ok (firstn 3 l)
           | VStr s => Ok (map (fun c => VStr [c]) (firstn 3 s))
           | _ => Raise TypeError
           end;
    formatted_results ← format_search_results top;
    Ok (utf8 "Kết quả tìm kiếm web:
" ++ join (utf8 "

") formatted_results).
Proof.
  unfold format_tool_result.
  destruct (decide (utf8 "tavily_search" = utf8 "rag_knowledge")) as [E|_];
    [vm_compute in E; discriminate|].
  destruct (decide (utf8 "tavily_search" = utf8 "tavily_search")) as [_|E];
    [reflexivity | contradiction].
Qed.

(** X13: the observation of a web search depends on the first three
    results only: later results are neither shown nor inspected, so a
    malformed fourth result cannot make the formatting fail. *)
Theorem format_search_top_three (tool_result : ToolDict) (l : list pyval) :
  dict_get tool_result (utf8 "results") (VList []) = VList l ->
  format_tool_result (utf8 "tavily_search") tool_result
  = format_tool_result (utf8 "tavily_search") [(utf8 "results", VList (firstn 3 l))].
Proof.
  intros Hl. rewrite !format_tool_result_search. rewrite Hl, dict_get_head.
  destruct l as [|a [|b [|c l]]]; reflexivity.
Qed.

(** X14: format_tool_result can fail for two tool names only.  For
    rag_knowledge it fails exactly with TypeError, when sources is true
    as a condition but has no length (True or a non-zero number); for
    tavily_search it can fail only when results is true as a condition
    (the empty-results text is returned otherwise); for chat_llm and for
    every other name it returns a text for every payload. *)
Theorem format_tool_result_failures
    (tool_name : pystr) (tool_result : ToolDict) (e : exn) :
  format_tool_result tool_name tool_result = Raise e ->
  (tool_name = utf8 "rag_knowledge" /\ e = TypeError /\
   truthy (dict_get tool_result (utf8 "sources") (VList [])) = true /\
   py_len (dict_get tool_result (utf8 "sources") (VList [])) = Raise TypeError) \/
  (tool_name = utf8 "tavily_search" /\
   truthy (dict_get tool_result (utf8 "results") (VList [])) = true).
Proof.
  unfold format_tool_result.
  destruct (decide (tool_name = utf8 "rag_knowledge")) as [Hrag|_].
  { intros Hfail. left. split; [exact Hrag|].
    destruct (truthy (dict_get tool_result (utf8 "sources") (VList []))) eqn:Ht;
      [|discriminate].
    destruct (py_len (dict_get tool_result (utf8 "sources") (VList []))) as [n|e'] eqn:El;
      [discriminate|].
    simpl in Hfail. injection Hfail as <-.
    destruct (dict_get tool_result (utf8 "sources") (VList [])); simpl in El;
      try discriminate; injection El as <-; auto. }
  destruct (decide (tool_name = utf8 "tavily_search")) as [Htav|_].
  { intros Hfail. right. split; [exact Htav|].
    destruct (truthy (dict_get tool_result (utf8 "results") (VList [])));
      [reflexivity | discriminate]. }
  destruct (decide (tool_name = utf8 "chat_llm")); discriminate.
Qed.

End Observations.

Ltac not_in_marker :=
  let Hin := fresh "Hin" in
  intros Hin; vm_compute in Hin;
  repeat (destruct Hin as [Hin|Hin]; [discriminate|]); destruct Hin.

Section AfterTool.
Context `{PyBuiltins}.
Variable chat : ChatProvider.
Variable tools : gmap pystr BaseTool.


(** X16: the observation of a chat_llm call contains "Action:"
    exactly when the rendered model name or the rendered response does;
    the fixed text around them never supplies the marker. *)
Theorem chat_observation_marker (tool_result : ToolDict) :
  exists observation,
    format_tool_result (utf8 "chat_llm") tool_result = Ok observation /\
    py_in ACTION observation
    = py_in ACTION (fmt (dict_get tool_result (utf8 "model") (VStr (utf8 "unknown"))))
      || py_in ACTION (fmt (dict_get tool_result (utf8 "response") (VStr []))).
Proof.
  eexists. split.
  - unfold format_tool_result.
    destruct (decide (utf8 "chat_llm" = utf8 "rag_knowledge")) as [E|_];
      [vm_compute in E; discriminate|].
    destruct (decide (utf8 "chat_llm" = utf8 "tavily_search")) as [E|_];
      [vm_compute in E; discriminate|].
    destruct (decide (utf8 "chat_llm" = utf8 "chat_llm")) as [_|E];
      [reflexivity | contradiction].
  - cbv zeta.
    set (model := fmt (dict_get tool_result (utf8 "model") (VStr (utf8 "unknown")))).
    set (response := fmt (dict_get tool_result (utf8 "response") (VStr []))).
    assert (Hpre : utf8 "Kết quả từ LLM (" = utf8 "Kết quả từ LLM " ++ [40%N])
      by reflexivity.
    assert (Hmid : utf8 "):
" = [41%N; 58%N; 10%N]) by reflexivity.
    rewrite Hpre, Hmid, <- !app_assoc.
    change ([40%N] ++ model ++ [41%N; 58%N; 10%N] ++ response)
      with (40%N :: (model ++ 41%N :: ([58%N] ++ 10%N :: response))).
    rewrite (py_in_around_char 40%N ACTION ACTION_nonempty) by not_in_marker.
    rewrite (py_in_around_char 41%N ACTION ACTION_nonempty) by not_in_marker.
    rewrite (py_in_around_char 10%N ACTION ACTION_nonempty) by not_in_marker.
    reflexivity.
Qed.

End AfterTool.

(** ** The content filter of the chat tool *)

Section Replacement.
Variables old new t : pystr.
Hypothesis old_nonempty : old <> [].
Hypothesis t_nonempty : t <> [].
Hypothesis new_outside_t : forall c, In c new -> ~ In c t.

(** An occurrence of [t] cannot reach into a text none of whose
    characters [t] has. *)
Lemma py_in_skip_new (b : pystr) : py_in t (new ++ b) = py_in t b.
Proof.
  revert new_outside_t. clear old_nonempty.
  induction new as [|c n IH]; intros Hout; [reflexivity|].
  change ((c :: n) ++ b) with ([] ++ c :: (n ++ b)).
  rewrite (py_in_around_char c t t_nonempty) by (apply Hout; left; reflexivity).
  rewrite (py_in_nil t t_nonempty). simpl orb.
  apply IH. intros x Hx. apply Hout. right. exact Hx.
Qed.

Lemma py_in_app_r (a b : pystr) : py_in t b = true -> py_in t (a ++ b) = true.
Proof.
  intros Hb. apply py_in_spec in Hb as (u & v & ->).
  apply py_in_spec. exists (a ++ u), v. rewrite <- app_assoc. reflexivity.
Qed.

End Replacement.

Section ReplacementPrefix.
Variables old new : pystr.
Hypothesis old_nonempty : old <> [].
Hypothesis new_nonempty : new <> [].

(** A prefix of the replaced text that has no character of [new] was
    already a prefix of the original. *)
Lemma startswith_replace (s t : pystr) :
  (forall c, In c new -> ~ In c t) ->
  startswith (replace s old new) t = true -> startswith s t = true.
Proof.
  revert t.
  induction s as [| s rest E IH | c s E IH] using (scan_ind old old_nonempty);
    intros t Hout.
  - unfold replace. simpl. rewrite (strip_prefix_nil old old_nonempty). auto.
  - rewrite (replace_hit old old_nonempty new s rest E).
    destruct t as [|d t]; [intros _; apply startswith_nil|].
    destruct new as [|n0 n]; [contradiction|].
    simpl app. rewrite startswith_cons. intros Hs.
    apply andb_true_iff in Hs as [Hd _]. apply N.eqb_eq in Hd. subst n0.
    exfalso. apply (Hout d); left; reflexivity.
  - rewrite (replace_miss old new c s E).
    destruct t as [|d t]; [intros _; apply startswith_nil|].
    rewrite !startswith_cons. intros Hs.
    apply andb_true_iff in Hs as [Hd Hs]. rewrite Hd. simpl.
    apply IH; [|exact Hs]. intros x Hx Hin. apply (Hout x Hx). right. exact Hin.
Qed.

Lemma startswith_cons_replace (c : char) (s t : pystr) :
  (forall x, In x new -> ~ In x t) ->
  startswith (c :: replace s old new) t = true -> startswith (c :: s) t = true.
Proof.
  intros Hout. destruct t as [|d t]; [intros _; apply startswith_nil|].
  rewrite !startswith_cons. intros Hs.
  apply andb_true_iff in Hs as [Hd Hs]. rewrite Hd. simpl.
  apply startswith_replace; [|exact Hs].
  intros x Hx Hin. apply (Hout x Hx). right. exact Hin.
Qed.

(** Replacing by a text foreign to [t] creates no occurrence of [t]. *)
Lemma replace_creates_nothing (t s : pystr) :
  t <> [] -> (forall c, In c new -> ~ In c t) ->
  py_in t s = false -> py_in t (replace s old new) = false.
Proof.
  intros Ht Hout.
  induction s as [| s rest E IH | c s E IH] using (scan_ind old old_nonempty);
    intros Hs.
  - unfold replace. simpl. rewrite (strip_prefix_nil old old_nonempty). exact Hs.
  - rewrite (replace_hit old old_nonempty new s rest E).
    rewrite (py_in_skip_new new t Ht Hout). apply IH.
    apply strip_prefix_spec in E. subst s.
    destruct (py_in t rest) eqn:Hr; [|reflexivity].
    rewrite (py_in_app_r t old rest Hr) in Hs. discriminate.
  - rewrite (replace_miss old new c s E).
    simpl in Hs. apply orb_false_iff in Hs as [Hhead Htail].
    simpl. rewrite (IH Htail), orb_false_r.
    destruct (startswith (c :: replace s old new) t) eqn:Hst; [|reflexivity].
    apply (startswith_cons_replace c s t Hout) in Hst. congruence.
Qed.

(** After the replacement no occurrence of [old] is left, when [new]
    shares no character with it. *)
Lemma replace_removes (s : pystr) :
  (forall c, In c new -> ~ In c old) ->
  py_in old (replace s old new) = false.
Proof.
  intros Hout.
  induction s as [| s rest E IH | c s E IH] using (scan_ind old old_nonempty).
  - unfold replace. simpl. rewrite (strip_prefix_nil old old_nonempty).
    apply py_in_nil, old_nonempty.
  - rewrite (replace_hit old old_nonempty new s rest E).
    rewrite (py_in_skip_new new old old_nonempty Hout). exact IH.
  - rewrite (replace_miss old new c s E). simpl. rewrite IH, orb_false_r.
    destruct (startswith (c :: replace s old new) old) eqn:Hst; [|reflexivity].
    apply (startswith_cons_replace c s old Hout) in Hst.
    unfold startswith in Hst. rewrite E in Hst. discriminate.
Qed.

End ReplacementPrefix.

Lemma foreign_chars (new t : pystr) :
  forallb (fun c => negb (existsb (N.eqb c) t)) new = true ->
  forall c, In c new -> ~ In c t.
Proof.
  intros Hall c Hc Hin. rewrite forallb_forall in Hall.
  specialize (Hall c Hc). apply negb_true_iff in Hall.
  assert (Hex : existsb (N.eqb c) t = true)
    by (apply existsb_exists; exists c; split; [exact Hin | apply N.eqb_refl]).
  congruence.
Qed.

Lemma content_filter_clean (text : pystr) :
  Forall (fun term => py_in term (ChatTool._apply_content_filter text) = false)
         ChatTool.sensitive_terms.
Proof.
  set (t1 := utf8 "inappropriate"). set (t2 := utf8 "offensive").
  set (t3 := utf8 "harmful").
  assert (N1 : t1 <> []) by discriminate.
  assert (N2 : t2 <> []) by discriminate.
  assert (N3 : t3 <> []) by discriminate.
  assert (NF : ChatTool.FILTERED <> []) by discriminate.
  assert (F1 : forall c, In c ChatTool.FILTERED -> ~ In c t1)
    by (apply foreign_chars; vm_compute; reflexivity).
  assert (F2 : forall c, In c ChatTool.FILTERED -> ~ In c t2)
    by (apply foreign_chars; vm_compute; reflexivity).
  assert (F3 : forall c, In c ChatTool.FILTERED -> ~ In c t3)
    by (apply foreign_chars; vm_compute; reflexivity).
  change (ChatTool._apply_content_filter text)
    with (replace (replace (replace text t1 ChatTool.FILTERED) t2 ChatTool.FILTERED)
                  t3 ChatTool.FILTERED).
  change ChatTool.sensitive_terms with [t1; t2; t3].
  constructor; [|constructor; [|constructor; [|constructor]]].
  - apply (replace_creates_nothing t3 _ N3 NF t1 _ N1 F1).
    apply (replace_creates_nothing t2 _ N2 NF t1 _ N1 F1).
    apply (replace_removes t1 _ N1 NF _ F1).
  - apply (replace_creates_nothing t3 _ N3 NF t2 _ N2 F2).
    apply (replace_removes t2 _ N2 NF _ F2).
  - apply (replace_removes t3 _ N3 NF _ F3).
Qed.

(** X17: the content filter of the chat tool.  The filtered text
    contains none of the three sensitive terms, filtering twice is
    filtering once, and the texts the filter leaves unchanged are exactly
    those that contain none of the terms. *)
Theorem content_filter_removes_terms (text : pystr) :
  Forall (fun term => py_in term (ChatTool._apply_content_filter text) = false)
         ChatTool.sensitive_terms
  /\ ChatTool._apply_content_filter (ChatTool._apply_content_filter text)
     = ChatTool._apply_content_filter text
  /\ (ChatTool._apply_content_filter text = text
      <-> Forall (fun term => py_in term text = false) ChatTool.sensitive_terms).
Proof.
  set (t1 := utf8 "inappropriate"). set (t2 := utf8 "offensive").
  set (t3 := utf8 "harmful").
  assert (Hfixed : forall s, py_in t1 s = false -> py_in t2 s = false ->
            py_in t3 s = false -> ChatTool._apply_content_filter s = s).
  { intros s H1 H2 H3.
    change (ChatTool._apply_content_filter s)
      with (replace (replace (replace s t1 ChatTool.FILTERED) t2 ChatTool.FILTERED)
                    t3 ChatTool.FILTERED).
    rewrite (replace_absent t1 ltac:(discriminate) _ s H1).
    rewrite (replace_absent t2 ltac:(discriminate) _ s H2).
    apply (replace_absent t3 ltac:(discriminate) _ s H3). }
  pose proof (content_filter_clean text) as Hclean.
  change ChatTool.sensitive_terms with [t1; t2; t3] in *.
  split; [exact Hclean|]. split.
  - inversion Hclean as [|? ? C1 Hc1]; subst.
    inversion Hc1 as [|? ? C2 Hc2]; subst.
    inversion Hc2 as [|? ? C3 _]; subst.
    apply Hfixed; assumption.
  - split.
    + intros Heq. rewrite Heq in Hclean. exact Hclean.
    + intros Hall. inversion Hall as [|? ? H1 Hall1]; subst.
      inversion Hall1 as [|? ? H2 Hall2]; subst.
      inversion Hall2 as [|? ? H3 _]; subst.
      apply Hfixed; assumption.
Qed.

(** ** The web search tool and its observation *)

Lemma format_results_dicts (rs : list pyval) :
  forallb is_dict rs = true ->
  TavilySearchTool._format_results rs = Ok (map reshaped rs).
Proof.
  induction rs as [|r rs IH]; [reflexivity|]. simpl.
  intros Hall. apply andb_true_iff in Hall as [Hr Hrs].
  destruct r; try discriminate. simpl. rewrite (IH Hrs). reflexivity.
Qed.

Lemma format_results_not_dict (rs : list pyval) :
  forallb is_dict rs = false ->
  TavilySearchTool._format_results rs = Raise AttributeError.
Proof.
  induction rs as [|r rs IH]; [discriminate|]. simpl.
  destruct r; try reflexivity. simpl. intros Hrs. rewrite (IH Hrs). reflexivity.
Qed.

Lemma forallb_firstn {A : Type} (f : A -> bool) (n : nat) (l : list A) :
  forallb f l = true -> forallb f (firstn n l) = true.
Proof.
  revert n. induction l as [|x l IH]; intros [|n]; simpl; try reflexivity.
  intros Hall. apply andb_true_iff in Hall as [Hx Hl].
  rewrite Hx. simpl. apply IH. exact Hl.
Qed.

Section WebSearch.
Context `{PyBuiltins}.
Variable enhance : pystr -> pystr.
Variable search : pystr -> Z -> result (list pyval).

Lemma format_search_result_reshaped (r : pyval) :
  is_dict r = true -> format_search_result (reshaped r) = format_search_result r.
Proof.
  destruct r as [| | | | | |d]; try discriminate. intros _.
  unfold reshaped, TavilySearchTool.format_result, format_search_result.
  rewrite !dict_get_head.
  rewrite !(dict_get_skip (utf8 "title")) by (vm_compute; discriminate).
  rewrite !dict_get_head.
  rewrite !(dict_get_skip (utf8 "url")) by (vm_compute; discriminate).
  rewrite !dict_get_head. reflexivity.
Qed.

Lemma format_search_results_reshaped (rs : list pyval) :
  forallb is_dict rs = true ->
  format_search_results (map reshaped rs) = format_search_results rs.
Proof.
  induction rs as [|r rs IH]; [reflexivity|]. simpl.
  intros Hall. apply andb_true_iff in Hall as [Hr Hrs].
  rewrite (format_search_result_reshaped r Hr), (IH Hrs). reflexivity.
Qed.

(** X18: the web search tool followed by the agent's formatting.
    When the retriever returns dictionaries, the tool returns a payload
    that counts them all, and the observation built from that payload is
    the one the raw results would give: the empty-results text for no
    result, otherwise the first three raw results formatted. Reshaping
    by _format_results loses nothing the observation uses. *)
Theorem tavily_observation
    (context : QueryContext) (q : pystr) (rs : list pyval) :
  search (enhance q) 5%Z = Ok rs ->
  forallb is_dict rs = true ->
  exists payload,
    TavilySearchTool._execute_impl enhance search context q = Ok payload /\
    dict_get payload (utf8 "query") VNone = VStr (enhance q) /\
    dict_get payload (utf8 "total_results") VNone = VInt (Z.of_nat (length rs)) /\
    format_tool_result (utf8 "tavily_search") payload
    = match rs with
      | [] => Ok (utf8 "Không tìm thấy thông tin liên quan trên web.")
      | _ :: _ =>
        formatted_results ← format_search_results (firstn 3 rs);
        Ok (utf8 "Kết quả tìm kiếm web:
" ++ join (utf8 "

") formatted_results)
      end.
Proof.
  intros Hsearch Hdicts. eexists. split; [|split; [|split]].
  - unfold TavilySearchTool._execute_impl. cbv zeta.
    rewrite Hsearch, bind_Ok, (format_results_dicts rs Hdicts), bind_Ok.
    reflexivity.
  - apply dict_get_head.
  - rewrite (dict_get_skip (utf8 "query")) by (vm_compute; discriminate).
    rewrite (dict_get_skip (utf8 "results")) by (vm_compute; discriminate).
    rewrite dict_get_head, length_map. reflexivity.
  - rewrite format_tool_result_search. cbv zeta.
    rewrite (dict_get_skip (utf8 "query")) by (vm_compute; discriminate).
    rewrite dict_get_head.
    destruct rs as [|r rs']; [reflexivity|].
    change (negb (truthy (VList (map reshaped (r :: rs'))))) with false.
    cbv iota. rewrite bind_Ok.
    rewrite <- (format_search_results_reshaped (firstn 3 (r :: rs'))).
    + rewrite firstn_map. reflexivity.
    + apply forallb_firstn. exact Hdicts.
Qed.

(** X19: the web search tool raises in two cases only: the
    retriever's own exception is passed on, and a result that is not a
    dictionary makes _format_results raise AttributeError. *)
Theorem tavily_tool_failures (context : QueryContext) (q : pystr) (e : exn) :
  TavilySearchTool._execute_impl enhance search context q = Raise e <->
  search (enhance q) 5%Z = Raise e \/
  exists rs, search (enhance q) 5%Z = Ok rs /\
             forallb is_dict rs = false /\ e = AttributeError.
Proof.
  unfold TavilySearchTool._execute_impl. cbv zeta.
  destruct (search (enhance q) 5%Z) as [rs|e'].
  - rewrite bind_Ok. destruct (forallb is_dict rs) eqn:Hd.
    + rewrite (format_results_dicts rs Hd), bind_Ok. split; [discriminate|].
      intros [?|(rs' & Hrs & Hfalse & _)]; [discriminate|].
      injection Hrs as <-. congruence.
    + rewrite (format_results_not_dict rs Hd). split.
      * intros [= <-]. right. exists rs. auto.
      * intros [?|(rs' & _ & _ & ->)]; [discriminate|reflexivity].
  - split.
    + intros [= <-]. left. reflexivity.
    + intros [[= <-]|(rs & ? & _)]; [reflexivity|discriminate].
Qed.

End WebSearch.

(* ===================================================================== *)
(** * Concrete runs of the further properties *)
(* ===================================================================== *)

Lemma step_tool_call_witness :
  _step prompted_agent (scripted tool_reply) working_registry hi_state =
  Ok {| messages := Some (rr_messages hi_reasoning ++
                          [turn "assistant" tool_reply;
                           turn "user" (utf8 "Kết quả từ LLM (gpt):
Xin chào")]);
        current_step := Some (rr_current_step hi_reasoning + 1)%Z;
        max_steps := max_steps hi_state;
        tools_used := Some (default [] (tools_used hi_state) ++ [utf8 "chat_llm"]);
        intermediate_results :=
          Some (default [] (intermediate_results hi_state) ++ [greeting]);
        final_answer := final_answer hi_state |}.
Proof.
  apply (step_tool_call prompted_agent (scripted tool_reply) working_registry
           hi_state hi_reasoning hi_prompt tool_reply
           (utf8 "chat_llm") (utf8 "hi") greeting_tool greeting);
    try (vm_compute; reflexivity).
  discriminate.
Defined.

Lemma step_without_tool_witness :
  _step prompted_agent (scripted tool_reply) ∅ hi_state =
  Ok {| messages := Some (rr_messages hi_reasoning ++ [turn "assistant" tool_reply]);
        current_step := Some (rr_current_step hi_reasoning + 1)%Z;
        max_steps := max_steps hi_state;
        tools_used := tools_used hi_state;
        intermediate_results := intermediate_results hi_state;
        final_answer := final_answer hi_state |}.
Proof.
  apply (step_without_tool prompted_agent (scripted tool_reply) ∅
           hi_state hi_reasoning hi_prompt tool_reply
           (Some (utf8 "chat_llm")) (Some (utf8 "hi")));
    try (vm_compute; reflexivity).
  right. right. exists (utf8 "chat_llm"). split; reflexivity.
Defined.

Lemma step_keeps_results_aligned_witness :
  exists used results,
    length used = length results /\ length used <= 1 /\
    default [] (tools_used observed_state) = default [] (tools_used hi_state) ++ used /\
    default [] (intermediate_results observed_state)
    = default [] (intermediate_results hi_state) ++ results.
Proof.
  apply (step_keeps_results_aligned prompted_agent (scripted tool_reply)
           working_registry hi_state observed_state).
  vm_compute. reflexivity.
Defined.

Lemma step_extends_history_witness :
  exists msgs tail,
    messages hi_state = Some msgs /\
    messages observed_state
    = Some ({| role := utf8 "system"; content := Some SYSTEM |} :: msgs ++ tail) /\
    1 <= length tail <= 2 /\
    Some SYSTEM <> None.
Proof.
  apply (step_extends_history (scripted tool_reply) working_registry
           (Some SYSTEM) hi_state observed_state).
  vm_compute. reflexivity.
Defined.

Lemma provider_failure_propagates_witness :
  _step prompted_agent (fun _ => Raise (Failure (utf8 "quota exceeded"))) ∅ hi_state
  = Raise (Failure (utf8 "quota exceeded")) /\
  analyze_outcome (Raise (Failure (utf8 "quota exceeded"))) (Some (utf8 "s1"))
  = {| answer := utf8 "Xin lỗi, đã xảy ra lỗi trong quá trình phân tích: "
                 ++ utf8 "quota exceeded";
       metadata := {| success := false;
                      md_session_id := Some (utf8 "s1");
                      steps := 0;
                      md_tools_used := [];
                      md_intermediate_results := [] |} |}.
Proof.
  apply (@provider_failure_propagates sample_builtins
           (fun _ => Raise (Failure (utf8 "quota exceeded"))) ∅
           prompted_agent hi_state hi_reasoning hi_prompt
           (Failure (utf8 "quota exceeded")) (Some (utf8 "s1")));
    reflexivity.
Defined.

Lemma step_plain_reply_ends_witness :
  exists state',
    _step prompted_agent (scripted (utf8 "VNM is a dairy company.")) ∅ hi_state
    = Ok state' /\
    messages state' = Some [turn "system" SYSTEM; turn "user" (utf8 "hi");
                            turn "assistant" (utf8 "VNM is a dairy company.")] /\
    current_step state' = Some 1%Z /\
    should_continue state' = Ok End_ /\
    answer (analyze_outcome (Ok state') None)
    = utf8 "You are a ReAct agent.
VNM is a dairy company." /\
    success (metadata (analyze_outcome (Ok state') None)) = true /\
    steps (metadata (analyze_outcome (Ok state') None)) = 3.
Proof.
  apply (@step_plain_reply_ends sample_builtins
           (scripted (utf8 "VNM is a dairy company.")) ∅ SYSTEM
           hi_state [turn "user" (utf8 "hi")] 0 10 hi_prompt
           (utf8 "VNM is a dairy company.") None);
    vm_compute; reflexivity.
Defined.

Lemma parse_tool_usage_directive_witness :
  parse_tool_usage
    (join NL ([utf8 "Thought: ask the model"; utf8 "Action: rag_knowledge"]
              ++ [ACTION ++ utf8 " chat_llm "; ACTION_INPUT ++ utf8 "  hi"]))
  = (Some (strip (utf8 " chat_llm ")), Some (strip (utf8 "  hi"))).
Proof.
  apply (parse_tool_usage_directive
           [utf8 "Thought: ask the model"; utf8 "Action: rag_knowledge"]
           (utf8 " chat_llm ") (utf8 "  hi"));
    try (vm_compute; reflexivity).
  repeat (constructor; [not_in_marker|]). constructor.
Defined.

Lemma parse_tool_usage_skips_other_lines_witness :
  parse_tool_usage
    (join NL ([utf8 "Action: chat_llm"]
              ++ utf8 "Observation: Action: none" :: [utf8 "Action Input: hi"]))
  = parse_tool_usage
      (join NL ([utf8 "Action: chat_llm"] ++ [utf8 "Action Input: hi"])).
Proof.
  apply (parse_tool_usage_skips_other_lines
           [utf8 "Action: chat_llm"] [utf8 "Action Input: hi"]
           (utf8 "Observation: Action: none"));
    try (vm_compute; reflexivity).
  repeat (constructor; [not_in_marker|]). constructor.
Defined.

Lemma format_search_top_three_witness :
  format_tool_result (utf8 "tavily_search")
    [(utf8 "query", VStr (utf8 "VNM"));
     (utf8 "results", VList [VDict [(utf8 "title", VStr (utf8 "a"))];
                             VDict [(utf8 "title", VStr (utf8 "b"))];
                             VDict [(utf8 "title", VStr (utf8 "c"))];
                             VNone])]
  = format_tool_result (utf8 "tavily_search")
      [(utf8 "results",
        VList (firstn 3 [VDict [(utf8 "title", VStr (utf8 "a"))];
                         VDict [(utf8 "title", VStr (utf8 "b"))];
                         VDict [(utf8 "title", VStr (utf8 "c"))];
                         VNone]))].
Proof.
  apply (format_search_top_three
           [(utf8 "query", VStr (utf8 "VNM"));
            (utf8 "results", VList [VDict [(utf8 "title", VStr (utf8 "a"))];
                                    VDict [(utf8 "title", VStr (utf8 "b"))];
                                    VDict [(utf8 "title", VStr (utf8 "c"))];
                                    VNone])]).
  vm_compute. reflexivity.
Defined.

Lemma format_tool_result_failures_witness :
  (utf8 "rag_knowledge" = utf8 "rag_knowledge" /\ TypeError = TypeError /\
   truthy (dict_get [(utf8 "sources", VInt 2)] (utf8 "sources") (VList [])) = true /\
   py_len (dict_get [(utf8 "sources", VInt 2)] (utf8 "sources") (VList []))
   = Raise TypeError) \/
  (utf8 "rag_knowledge" = utf8 "tavily_search" /\
   truthy (dict_get [(utf8 "sources", VInt 2)] (utf8 "results") (VList [])) = true).
Proof.
  apply (format_tool_result_failures (utf8 "rag_knowledge")
           [(utf8 "sources", VInt 2)] TypeError).
  vm_compute. reflexivity.
Defined.


Lemma tavily_observation_witness :
  exists payload,
    TavilySearchTool._execute_impl
      (fun _ => utf8 "VNM Vietnam stock HOSE HNX")
      (fun _ _ => Ok [VDict [(utf8 "title", VStr (utf8 "VNM"));
                             (utf8 "content", VStr (utf8 "up"));
                             (utf8 "raw_content", VNone)]])
      {| query := utf8 "VNM"; user_id := None; session_id := None |} (utf8 "VNM")
    = Ok payload /\
    dict_get payload (utf8 "query") VNone = VStr (utf8 "VNM Vietnam stock HOSE HNX") /\
    dict_get payload (utf8 "total_results") VNone = VInt 1 /\
    format_tool_result (utf8 "tavily_search") payload
    = Ok (utf8 "Kết quả tìm kiếm web:
• VNM
  up...
  Nguồn: ").
Proof.
  apply (tavily_observation
           (fun _ => utf8 "VNM Vietnam stock HOSE HNX")
           (fun _ _ => Ok [VDict [(utf8 "title", VStr (utf8 "VNM"));
                                  (utf8 "content", VStr (utf8 "up"));
                                  (utf8 "raw_content", VNone)]])
           {| query := utf8 "VNM"; user_id := None; session_id := None |} (utf8 "VNM")
           [VDict [(utf8 "title", VStr (utf8 "VNM"));
                   (utf8 "content", VStr (utf8 "up"));
                   (utf8 "raw_content", VNone)]]);
    reflexivity.
Defined.

(* ===================================================================== *)
(** * The health check and the endpoints *)
(* ===================================================================== *)

Lemma dict_set_twice (d : ToolDict) (k : pystr) (r v : pyval) :
  dict_set (dict_set d k r) k v = dict_set d k v.
Proof.
  induction d as [|[k' x] d IH]; simpl.
  - destruct (decide (k = k)); [reflexivity | contradiction].
  - destruct (decide (k' = k)) as [->|Hne]; simpl.
    + destruct (decide (k = k)); [reflexivity | contradiction].
    + destruct (decide (k' = k)); [contradiction|]. rewrite IH. reflexivity.
Qed.

Lemma dict_set_fresh (d : ToolDict) (k : pystr) (v : pyval) :
  ~ In k (map fst d) -> dict_set d k v = d ++ [(k, v)].
Proof.
  induction d as [|[k' x] d IH]; simpl; [reflexivity|]. intros Hfresh.
  destruct (decide (k' = k)) as [->|_]; [exfalso; apply Hfresh; left; reflexivity|].
  rewrite IH; [reflexivity|]. intros Hin. apply Hfresh. right. exact Hin.
Qed.

Lemma dict_set_nonempty (d : ToolDict) (k : pystr) (v : pyval) : dict_set d k v <> [].
Proof. destruct d as [|[k' x] d]; simpl; [|destruct (decide (k' = k))]; discriminate. Qed.

Lemma dict_set_dicts (d : ToolDict) (k : pystr) (v : pyval) :
  Forall (fun kv => is_dict (snd kv) = true) d -> is_dict v = true ->
  Forall (fun kv => is_dict (snd kv) = true) (dict_set d k v).
Proof.
  intros Hd Hv. induction Hd as [|[k' x] d Hx Hd IH]; simpl.
  - repeat constructor. exact Hv.
  - destruct (decide (k' = k)); constructor; assumption.
Qed.

Section Health.
Context `{PyBuiltins}.

Lemma failed_status (service_name : pystr) (e : exn) :
  subscript (HealthCheckService.failed service_name e) STATUS = Ok (VStr UNHEALTHY).
Proof. reflexivity. Qed.

Lemma recorded_status (service : pystr * result pyval) :
  exists status,
    subscript (snd (recorded service)) STATUS = Ok status /\
    eq_str status UNHEALTHY = troubled service.
Proof.
  destruct service as [service_name [r|e]]; unfold recorded, troubled; simpl.
  - destruct (subscript r STATUS) as [status|e] eqn:Hr.
    + exists status. auto.
    + exists (VStr UNHEALTHY). split; reflexivity.
  - exists (VStr UNHEALTHY). split; reflexivity.
Qed.

Lemma recorded_is_dict (service : pystr * result pyval) :
  is_dict (snd (recorded service)) = true.
Proof.
  destruct (recorded_status service) as (status & Hs & _).
  destruct (snd (recorded service)); simpl in Hs; try discriminate. reflexivity.
Qed.

Lemma check_service_closed
    (results : ToolDict) (overall_status : pystr) (service : pystr * result pyval) :
  HealthCheckService.check_service (results, overall_status) service
  = (dict_set results (fst service) (snd (recorded service)),
     if troubled service then UNHEALTHY else overall_status).
Proof.
  destruct service as [service_name [r|e]];
    unfold HealthCheckService.check_service, recorded, troubled; simpl;
    [|reflexivity].
  destruct (subscript r STATUS) as [status|e]; [reflexivity|].
  rewrite dict_set_twice. reflexivity.
Qed.

Lemma fold_check_service
    (services : list (pystr * result pyval)) (results : ToolDict)
    (overall_status : pystr) :
  fold_left HealthCheckService.check_service services (results, overall_status)
  = (fold_left (fun d service => dict_set d (fst service) (snd (recorded service)))
               services results,
     if existsb troubled services then UNHEALTHY else overall_status).
Proof.
  revert results overall_status.
  induction services as [|service services IH]; intros results overall_status;
    [reflexivity|].
  cbn [fold_left existsb]. rewrite check_service_closed, IH.
  destruct (troubled service), (existsb troubled services); reflexivity.
Qed.

Lemma fold_set_fresh (services : list (pystr * result pyval)) (results : ToolDict) :
  NoDup (map fst services) ->
  (forall n, In n (map fst services) -> ~ In n (map fst results)) ->
  fold_left (fun d service => dict_set d (fst service) (snd (recorded service)))
            services results
  = results ++ map recorded services.
Proof.
  revert results.
  induction services as [|service services IH]; intros results Hnodup Hfresh.
  - simpl. rewrite app_nil_r. reflexivity.
  - cbn [map fold_left] in *. inversion Hnodup as [|? ? Hnot Hrest]; subst.
    rewrite dict_set_fresh by (apply Hfresh; left; reflexivity).
    rewrite IH; [rewrite <- app_assoc; reflexivity | exact Hrest |].
    intros n Hn. rewrite List.map_app, in_app_iff. simpl.
    intros [Hin|[Heq|[]]].
    + apply (Hfresh n); [right; exact Hn | exact Hin].
    + subst n. apply Hnot. apply list_elem_of_In. exact Hn.
Qed.

Lemma fold_set_dicts (services : list (pystr * result pyval)) (results : ToolDict) :
  Forall (fun kv => is_dict (snd kv) = true) results ->
  (services <> [] \/ results <> []) ->
  let results' :=
    fold_left (fun d service => dict_set d (fst service) (snd (recorded service)))
              services results in
  Forall (fun kv => is_dict (snd kv) = true) results' /\ results' <> [].
Proof.
  revert results.
  induction services as [|service services IH]; intros results Hd Hne; simpl.
  - split; [exact Hd|]. destruct Hne as [Hne|Hne]; [contradiction | exact Hne].
  - apply IH.
    + apply dict_set_dicts; [exact Hd | apply recorded_is_dict].
    + right. apply dict_set_nonempty.
Qed.

Lemma check_health_closed
    (services : list (pystr * result pyval)) (version : pyval) :
  NoDup (map fst services) ->
  HealthCheckService.check_health services version
  = [(STATUS, VStr (if existsb troubled services then UNHEALTHY else utf8 "healthy"));
     (utf8 "version", version);
     (utf8 "services", VDict (map recorded services))].
Proof.
  intros Hnodup. unfold HealthCheckService.check_health.
  rewrite fold_check_service, fold_set_fresh; [reflexivity | exact Hnodup |].
  intros n _ [].
Qed.

(** X20: the report of the health check in closed form.  For
    services with distinct names, the overall status is "unhealthy"
    exactly when some service's check raised, returned something without
    a readable status, or reported "unhealthy" (any other reported
    status, such as "degraded", counts as healthy); every service has
    one entry, in the order of registration, and every entry has a
    readable status. *)
Theorem check_health_report
    (services : list (pystr * result pyval)) (version : pyval) :
  NoDup (map fst services) ->
  HealthCheckService.check_health services version
  = [(STATUS, VStr (if existsb troubled services then UNHEALTHY else utf8 "healthy"));
     (utf8 "version", version);
     (utf8 "services", VDict (map recorded services))]
  /\ Forall (fun entry => exists status, subscript (snd entry) STATUS = Ok status)
            (map recorded services).
Proof.
  intros Hnodup. split.
  - apply check_health_closed. exact Hnodup.
  - apply List.Forall_forall. intros entry Hin.
    apply in_map_iff in Hin as (service & <- & _).
    destruct (recorded_status service) as (status & Hs & _). eauto.
Qed.

Lemma unhealthy_items_recorded (services : list (pystr * result pyval)) :
  AgentRouter.unhealthy_items (map recorded services)
  = Ok (map fst (List.filter troubled services)).
Proof.
  induction services as [|service services IH]; [reflexivity|].
  change (map recorded (service :: services))
    with ((fst service, snd (recorded service)) :: map recorded services).
  cbn [AgentRouter.unhealthy_items].
  destruct (recorded_status service) as (status & Hs & Ht).
  rewrite Hs, bind_Ok, IH, bind_Ok, Ht. simpl.
  destruct (troubled service); reflexivity.
Qed.

Section Endpoints.
Variable coerce_str : pyval -> option pystr.
Variable coerce_dict : pyval -> option (list (pystr * pystr)).
Variable bool_field : pyval -> option bool.
Variable float_field : pyval -> option pyval.

Lemma str_values_dicts (items : ToolDict) :
  items <> [] -> Forall (fun kv => is_dict (snd kv) = true) items ->
  Responses.str_values coerce_str items = None.
Proof.
  intros Hne Hd. destruct Hd as [|[k v] items Hv _]; [contradiction|].
  simpl in Hv. destruct v; try discriminate. reflexivity.
Qed.

Lemma new_HealthResponse_dicts (status version : pystr) (results : ToolDict) :
  results <> [] -> Forall (fun kv => is_dict (snd kv) = true) results ->
  Responses.new_HealthResponse coerce_str coerce_dict
    [(STATUS, VStr status); (utf8 "version", VStr version);
     (utf8 "services", VDict results)]
  = Raise ValidationError.
Proof.
  intros Hne Hd. unfold Responses.new_HealthResponse, Responses.required.
  change (dict_lookup _ (utf8 "status")) with (Some (VStr status)).
  change (dict_lookup _ (utf8 "version")) with (Some (VStr version)).
  change (dict_lookup _ (utf8 "services")) with (Some (VDict results)).
  cbn [Responses.str_field Responses.services_field].
  rewrite !bind_Ok, (str_values_dicts results Hne Hd). reflexivity.
Qed.

(** X21: the health endpoint never reports a healthy system.  As
    soon as one service is registered (the constructor registers six),
    the report of check_health is rejected by HealthResponse, whose
    services field wants strings where the report has dictionaries, and
    the handler answers "unhealthy" with the eight fixed entries; the
    same handler answers when the constructor raises. *)
Theorem health_check_reports_unknown
    (constructed : result (list (pystr * result pyval))) (version : pystr) :
  constructed <> Ok [] ->
  HealthRouter.health_check coerce_str coerce_dict constructed version
  = HealthRouter.unknown
      (match constructed with Ok _ => ValidationError | Raise e => e end) version.
Proof.
  intros Hne. unfold HealthRouter.health_check.
  destruct constructed as [services|e]; [|reflexivity].
  rewrite bind_Ok. unfold HealthCheckService.check_health.
  rewrite fold_check_service.
  destruct (fold_set_dicts services []) as [Hd Hnonempty];
    [constructor | left; congruence |].
  rewrite (new_HealthResponse_dicts _ _ _ Hnonempty Hd). reflexivity.
Qed.

Lemma query_agent_closed
    (services : list (pystr * result pyval)) (version : pyval)
    (analysis : StockAnalysisService.Response) :
  NoDup (map fst services) ->
  AgentRouter.query_agent coerce_str bool_field float_field
    (HealthCheckService.check_health services version) analysis
  = if existsb troubled services then
      AgentRouter.HTTPException 503
        (utf8 "Cannot process query: unhealthy services: "
         ++ str_val (VList (map VStr (map fst (List.filter troubled services)))))
    else
      match Responses.validate_results coerce_str bool_field float_field
              (md_intermediate_results (metadata analysis)) with
      | Ok results =>
        AgentRouter.Returned
          {| Responses.ar_answer := answer analysis;
             Responses.ar_success := success (metadata analysis);
             Responses.ar_steps := steps (metadata analysis);
             Responses.ar_tools_used := md_tools_used (metadata analysis);
             Responses.ar_intermediate_results := results;
             Responses.ar_session_id := md_session_id (metadata analysis) |}
      | Raise e =>
        AgentRouter.HTTPException 500 (utf8 "Query processing failed: " ++ str_exn e)
      end.
Proof.
  intros Hnodup.
  rewrite (check_health_closed services version Hnodup).
  unfold AgentRouter.query_agent.
  change (subscript (VDict _) STATUS)
    with (Ok (A:=pyval)
            (VStr (if existsb troubled services then UNHEALTHY else utf8 "healthy"))).
  rewrite bind_Ok.
  destruct (existsb troubled services).
  - change (eq_str (VStr UNHEALTHY) UNHEALTHY) with true. cbv iota.
    change (subscript (VDict _) (utf8 "services"))
      with (Ok (A:=pyval) (VDict (map recorded services))).
    rewrite bind_Ok. cbn [AgentRouter.unhealthy_services].
    rewrite unhealthy_items_recorded, bind_Ok. reflexivity.
  - change (eq_str (VStr (utf8 "healthy")) UNHEALTHY) with false. cbv iota zeta.
    unfold Responses.new_AgentResponse.
    destruct (Responses.validate_results _ _ _ _) as [results|e]; reflexivity.
Qed.

Lemma validate_results_rejects (ds : list ToolDict) :
  existsb (fun d => negb (has_required_fields d)) ds = true ->
  Responses.validate_results coerce_str bool_field float_field ds
  = Raise ValidationError.
Proof.
  induction ds as [|d ds IH]; [discriminate|]. simpl.
  intros Hex. unfold Responses.ToolResultResponse_validate, Responses.required.
  unfold has_required_fields in Hex.
  destruct (dict_lookup d (utf8 "tool_name")) as [v1|]; [|reflexivity].
  destruct (Responses.str_field coerce_str v1); [|reflexivity]. rewrite bind_Ok.
  destruct (dict_lookup d (utf8 "success")) as [v2|]; [|reflexivity].
  destruct (bool_field v2); [|reflexivity]. rewrite bind_Ok.
  destruct (dict_lookup d (utf8 "execution_time")) as [v3|]; [|reflexivity].
  destruct (float_field v3); [|reflexivity]. rewrite bind_Ok.
  simpl in Hex.
  destruct (Responses.optional_str coerce_str d "error_message") as [m|e] eqn:Hm.
  - rewrite bind_Ok, (IH Hex). reflexivity.
  - unfold Responses.optional_str in Hm.
    destruct (dict_lookup d (utf8 "error_message")) as [[]|];
      try discriminate;
      destruct (Responses.str_field coerce_str _); try discriminate;
      injection Hm as <-; reflexivity.
Qed.

(** X22: the query endpoint answers 503 on the report of a
    troubled service: when some service's check raised, had no readable
    status or reported "unhealthy", the answer is the status 503 whose
    detail lists the names of exactly those services, in order, and it
    does not depend on the analysis. *)
Theorem query_agent_unavailable
    (services : list (pystr * result pyval)) (version : pyval)
    (analysis : StockAnalysisService.Response) :
  NoDup (map fst services) ->
  existsb troubled services = true ->
  AgentRouter.query_agent coerce_str bool_field float_field
    (HealthCheckService.check_health services version) analysis
  = AgentRouter.HTTPException 503
      (utf8 "Cannot process query: unhealthy services: "
       ++ str_val (VList (map VStr (map fst (List.filter troubled services)))))
  /\ List.filter troubled services <> [].
Proof.
  intros Hnodup Htroubled. split.
  - rewrite (query_agent_closed services version analysis Hnodup), Htroubled.
    reflexivity.
  - apply existsb_exists in Htroubled as (service & Hin & Ht).
    intros Hnil.
    assert (Hf : In service (List.filter troubled services))
      by (apply filter_In; split; assumption).
    rewrite Hnil in Hf. destruct Hf.
Qed.

(** X23: an analysis that used a tool cannot be returned when the
    tool's payload lacks one of the fields tool_name, success and
    execution_time that ToolResultResponse requires: with all services
    healthy, the endpoint then answers 500 with the text of the
    validation error, although the analysis succeeded. *)
Theorem query_agent_rejects_tool_results
    (services : list (pystr * result pyval)) (version : pyval)
    (analysis : StockAnalysisService.Response) :
  NoDup (map fst services) ->
  existsb troubled services = false ->
  existsb (fun d => negb (has_required_fields d))
          (md_intermediate_results (metadata analysis)) = true ->
  AgentRouter.query_agent coerce_str bool_field float_field
    (HealthCheckService.check_health services version) analysis
  = AgentRouter.HTTPException 500
      (utf8 "Query processing failed: " ++ str_exn ValidationError).
Proof.
  intros Hnodup Hhealthy Hmissing.
  rewrite (query_agent_closed services version analysis Hnodup), Hhealthy.
  rewrite (validate_results_rejects _ Hmissing). reflexivity.
Qed.

(** X24: with the agent as shipped and all services healthy, every
    query is answered with a regular response, not with an error status:
    the response carries success false, zero steps, no tools and the
    apology with the text of the TypeError. *)
Theorem query_agent_shipped
    (services : list (pystr * result pyval)) (version : pyval)
    (chat : ChatProvider) (tools : gmap pystr BaseTool)
    (q : pystr) (sid : option pystr) :
  NoDup (map fst services) ->
  existsb troubled services = false ->
  AgentRouter.query_agent coerce_str bool_field float_field
    (HealthCheckService.check_health services version)
    (analyze StockReActAgent._get_system_prompt chat tools q sid)
  = AgentRouter.Returned
      {| Responses.ar_answer :=
           utf8 "Xin lỗi, đã xảy ra lỗi trong quá trình phân tích: " ++ str_exn TypeError;
         Responses.ar_success := false;
         Responses.ar_steps := 0;
         Responses.ar_tools_used := [];
         Responses.ar_intermediate_results := [];
         Responses.ar_session_id := sid |}.
Proof.
  intros Hnodup Hhealthy.
  rewrite (query_agent_closed services version _ Hnodup), Hhealthy.
  rewrite analyze_shipped_agent_fails. reflexivity.
Qed.

End Endpoints.
End Health.

(** X26: no payload the web search tool returns has the fields that
    ToolResultResponse requires: its keys are query, results and
    total_results. *)
Theorem tavily_payload_lacks_fields
    (enhance : pystr -> pystr) (search : pystr -> Z -> result (list pyval))
    (context : QueryContext) (q : pystr) (payload : ToolDict) :
  TavilySearchTool._execute_impl enhance search context q = Ok payload ->
  map fst payload = [utf8 "query"; utf8 "results"; utf8 "total_results"] /\
  has_required_fields payload = false.
Proof.
  unfold TavilySearchTool._execute_impl. cbv zeta.
  destruct (search (enhance q) 5%Z) as [rs|e]; [|discriminate].
  rewrite bind_Ok.
  destruct (TavilySearchTool._format_results rs) as [formatted|e]; [|discriminate].
  rewrite bind_Ok. intros [= <-]. split; reflexivity.
Qed.

(* ===================================================================== *)
(** * Concrete runs of the endpoints *)
(* ===================================================================== *)

Lemma check_health_report_witness :
  HealthCheckService.check_health troubled_services (VStr (utf8 "1.0"))
  = [(STATUS, VStr (if existsb troubled troubled_services
                    then UNHEALTHY else utf8 "healthy"));
     (utf8 "version", VStr (utf8 "1.0"));
     (utf8 "services", VDict (map recorded troubled_services))]
  /\ Forall (fun entry => exists status, subscript (snd entry) STATUS = Ok status)
            (map recorded troubled_services).
Proof.
  apply (check_health_report troubled_services (VStr (utf8 "1.0"))).
  apply NoDup_ListNoDup. vm_compute. repeat constructor; not_in_marker.
Defined.

Lemma health_check_reports_unknown_witness :
  HealthRouter.health_check no_coercion no_coercion (Ok healthy_services) (utf8 "1.0")
  = HealthRouter.unknown ValidationError (utf8 "1.0").
Proof.
  apply (health_check_reports_unknown no_coercion no_coercion
           (Ok healthy_services) (utf8 "1.0")).
  discriminate.
Defined.

Lemma query_agent_unavailable_witness :
  AgentRouter.query_agent no_coercion no_coercion no_coercion
    (HealthCheckService.check_health troubled_services (VStr (utf8 "1.0")))
    (analyze_outcome (Ok observed_state) None)
  = AgentRouter.HTTPException 503
      (utf8 "Cannot process query: unhealthy services: "
       ++ str_val (VList (map VStr (map fst (List.filter troubled troubled_services)))))
  /\ List.filter troubled troubled_services <> [].
Proof.
  apply (query_agent_unavailable no_coercion no_coercion no_coercion
           troubled_services (VStr (utf8 "1.0"))).
  - apply NoDup_ListNoDup. vm_compute. repeat constructor; not_in_marker.
  - vm_compute. reflexivity.
Defined.

Lemma query_agent_rejects_tool_results_witness :
  AgentRouter.query_agent no_coercion no_coercion no_coercion
    (HealthCheckService.check_health healthy_services (VStr (utf8 "1.0")))
    (analyze_outcome (Ok observed_state) None)
  = AgentRouter.HTTPException 500
      (utf8 "Query processing failed: " ++ str_exn ValidationError).
Proof.
  apply (query_agent_rejects_tool_results no_coercion no_coercion no_coercion
           healthy_services (VStr (utf8 "1.0"))).
  - apply NoDup_ListNoDup. vm_compute. repeat constructor; not_in_marker.
  - vm_compute. reflexivity.
  - vm_compute. reflexivity.
Defined.

Lemma query_agent_shipped_witness :
  AgentRouter.query_agent no_coercion no_coercion no_coercion
    (HealthCheckService.check_health healthy_services (VStr (utf8 "1.0")))
    (analyze StockReActAgent._get_system_prompt (scripted final_reply) ∅ (utf8 "hi") None)
  = AgentRouter.Returned
      {| Responses.ar_answer :=
           utf8 "Xin lỗi, đã xảy ra lỗi trong quá trình phân tích: " ++ str_exn TypeError;
         Responses.ar_success := false;
         Responses.ar_steps := 0;
         Responses.ar_tools_used := [];
         Responses.ar_intermediate_results := [];
         Responses.ar_session_id := None |}.
Proof.
  apply (query_agent_shipped no_coercion no_coercion no_coercion
           healthy_services (VStr (utf8 "1.0")) (scripted final_reply) ∅
           (utf8 "hi") None).
  - apply NoDup_ListNoDup. vm_compute. repeat constructor; not_in_marker.
  - vm_compute. reflexivity.
Defined.

Lemma tavily_payload_lacks_fields_witness :
  map fst [(utf8 "query", VStr (utf8 "VNM Vietnam stock HOSE HNX"));
           (utf8 "results", VList (map reshaped sample_results));
           (utf8 "total_results", VInt 1)]
  = [utf8 "query"; utf8 "results"; utf8 "total_results"] /\
  has_required_fields
    [(utf8 "query", VStr (utf8 "VNM Vietnam stock HOSE HNX"));
     (utf8 "results", VList (map reshaped sample_results));
     (utf8 "total_results", VInt 1)] = false.
Proof.
  apply (tavily_payload_lacks_fields
           (fun _ => utf8 "VNM Vietnam stock HOSE HNX") sample_search
           {| query := utf8 "VNM"; user_id := None; session_id := None |} (utf8 "VNM")).
  reflexivity.
Defined.

(* ===================================================================== *)
(** * The knowledge base tool and its observation *)
(* ===================================================================== *)

Lemma filter_by_score_kept (rs kept : list pyval) :
  RAGTool.filter_by_score rs = Ok kept ->
  length kept <= length rs /\ forallb is_dict kept = true.
Proof.
  revert kept. induction rs as [|r rs IH]; intros kept.
  - intros [= <-]. split; [lia | reflexivity].
  - simpl. destruct r as [| | | | | |d]; try discriminate.
    destruct (RAGTool.at_least_min_score _) as [keep|e]; [|discriminate].
    rewrite bind_Ok.
    destruct (RAGTool.filter_by_score rs) as [kept'|e]; [|discriminate].
    rewrite bind_Ok. intros [= <-].
    destruct (IH kept' eq_refl) as [Hlen Hd].
    destruct keep; simpl; [rewrite Hd|]; split; auto; lia.
Qed.

(** The results kept are those whose score is not below the
    threshold, in the order retrieved. *)
Lemma filter_by_score_closed (rs kept : list pyval) :
  RAGTool.filter_by_score rs = Ok kept -> kept = List.filter passes_min_score rs.
Proof.
  revert kept. induction rs as [|r rs IH]; intros kept.
  - intros [= <-]. reflexivity.
  - simpl. destruct r as [| | | | | |d]; try discriminate.
    destruct (RAGTool.at_least_min_score _) as [keep|e] eqn:Hkeep; [|discriminate].
    rewrite bind_Ok.
    destruct (RAGTool.filter_by_score rs) as [kept'|e]; [|discriminate].
    rewrite bind_Ok. intros [= <-]. rewrite (IH kept' eq_refl).
    assert (Hpass : passes_min_score (VDict d) = keep).
    { unfold passes_min_score, score_of.
      unfold RAGTool.at_least_min_score, RAGTool.MIN_SCORE_NUM, RAGTool.MIN_SCORE_DEN
        in Hkeep.
      destruct (dict_get d (utf8 "score") (VInt 0)) as [|b|z|num den| | |];
        try discriminate; injection Hkeep as <-.
      - destruct b; reflexivity.
      - rewrite Z.geb_leb. reflexivity.
      - rewrite Z.geb_leb. reflexivity. }
    rewrite Hpass. reflexivity.
Qed.

Lemma confidence_scores_closed (rs scores : list pyval) :
  RAGTool.confidence_scores rs = Ok scores -> scores = map score_of rs.
Proof.
  revert scores. induction rs as [|r rs IH]; intros scores.
  - intros [= <-]. reflexivity.
  - simpl. destruct r as [| | | | | |d]; try discriminate.
    rewrite bind_Ok.
    destruct (RAGTool.confidence_scores rs) as [xs|e]; [|discriminate].
    rewrite bind_Ok. intros [= <-]. rewrite (IH xs eq_refl). reflexivity.
Qed.

Lemma extract_sources_length (rs sources : list pyval) :
  RAGTool._extract_sources rs = Ok sources -> length sources = length rs.
Proof.
  revert sources. induction rs as [|r rs IH]; intros sources.
  - intros [= <-]. reflexivity.
  - simpl. destruct (RAGTool.source_of r) as [x|e]; [|discriminate].
    rewrite bind_Ok.
    destruct (RAGTool._extract_sources rs) as [xs|e]; [|discriminate].
    rewrite bind_Ok. intros [= <-]. simpl. rewrite (IH xs eq_refl). reflexivity.
Qed.

Lemma confidence_scores_length (rs scores : list pyval) :
  RAGTool.confidence_scores rs = Ok scores -> length scores = length rs.
Proof.
  revert scores. induction rs as [|r rs IH]; intros scores.
  - intros [= <-]. reflexivity.
  - simpl. destruct r as [| | | | | |d]; try discriminate.
    rewrite bind_Ok.
    destruct (RAGTool.confidence_scores rs) as [xs|e]; [|discriminate].
    rewrite bind_Ok. intros [= <-]. simpl. rewrite (IH xs eq_refl). reflexivity.
Qed.

Section KnowledgeBase.
Context `{PyBuiltins}.
Variable retrieve : pystr -> Z -> result (list pyval).
Variable format_2f : pyval -> result pystr.

(** X27: the knowledge base tool followed by the agent's formatting.
    Whenever the tool returns, total_results is the number of retrieved
    results whose score is at least 0.7, confidence_scores lists the
    scores of exactly those results in the order retrieved, sources has
    as many entries, and the agent's observation for the payload never
    fails: it is the heading, the knowledge context, and, unless no
    result passed, the line that counts the sources.  When no result
    passed, the knowledge context is the not-found text. *)
Theorem rag_observation
    (context : QueryContext) (q : pystr) (payload : ToolDict) :
  RAGTool._execute_impl retrieve format_2f context q = Ok payload ->
  exists (knowledge_context : pystr) (sources scores : list pyval) (n : nat),
    payload = [(utf8 "query", VStr q);
               (utf8 "knowledge_context", VStr knowledge_context);
               (utf8 "sources", VList sources);
               (utf8 "total_results", VInt (Z.of_nat n));
               (utf8 "confidence_scores", VList scores)] /\
    length sources = n /\ length scores = n /\
    (exists retrieved,
       retrieve q 5%Z = Ok retrieved /\ n <= length retrieved /\
       n = length (List.filter passes_min_score retrieved) /\
       scores = map score_of (List.filter passes_min_score retrieved)) /\
    (n = 0 -> knowledge_context = RAGTool.NOT_FOUND) /\
    format_tool_result (utf8 "rag_knowledge") payload
    = Ok (utf8 "Thông tin từ cơ sở dữ liệu nội bộ:
" ++ knowledge_context
          ++ match n with
             | O => []
             | S _ => utf8 "

Nguồn tham khảo: " ++ decimal n ++ utf8 " tài liệu"
             end).
Proof.
  unfold RAGTool._execute_impl. cbv zeta.
  destruct (retrieve q 5%Z) as [retrieved|e] eqn:Hret; [|discriminate].
  rewrite bind_Ok.
  destruct (RAGTool.filter_by_score retrieved) as [kept|e] eqn:Hkept; [|discriminate].
  rewrite bind_Ok.
  destruct (RAGTool._format_knowledge_context format_2f kept)
    as [knowledge_context|e] eqn:Hctx; [|discriminate].
  rewrite bind_Ok.
  destruct (RAGTool._extract_sources kept) as [sources|e] eqn:Hsrc; [|discriminate].
  rewrite bind_Ok.
  destruct (RAGTool.confidence_scores kept) as [scores|e] eqn:Hsc; [|discriminate].
  rewrite bind_Ok. intros [= <-].
  apply extract_sources_length in Hsrc.
  pose proof (confidence_scores_closed _ _ Hsc) as Hscores.
  apply confidence_scores_length in Hsc.
  pose proof (filter_by_score_closed _ _ Hkept) as Hclosed.
  apply filter_by_score_kept in Hkept as [Hlen _].
  exists knowledge_context, sources, scores, (length kept).
  split; [reflexivity|]. split; [exact Hsrc|]. split; [exact Hsc|].
  split.
  { exists retrieved. split; [reflexivity|]. split; [exact Hlen|].
    rewrite <- Hclosed. split; [reflexivity | exact Hscores]. }
  split.
  - intros Hzero. destruct kept; [|discriminate].
    simpl in Hctx. injection Hctx as <-. reflexivity.
  - unfold format_tool_result.
    destruct (decide (utf8 "rag_knowledge" = utf8 "rag_knowledge")) as [_|E];
      [|contradiction].
    change (dict_get _ (utf8 "knowledge_context") (VStr []))
      with (VStr knowledge_context).
    change (dict_get _ (utf8 "sources") (VList [])) with (VList sources).
    cbv zeta. cbn [fmt]. rewrite <- Hsrc.
    destruct sources as [|s sources]; simpl truthy; cbv iota.
    + simpl length. rewrite app_nil_r. reflexivity.
    + cbn [py_len]. rewrite bind_Ok. rewrite <- app_assoc. reflexivity.
Qed.

End KnowledgeBase.

Lemma rag_observation_witness :
  RAGTool._execute_impl
    (fun _ _ => Ok rag_results)
    (fun score => match score with
                  | VFloat 3 4 => Ok (utf8 "0.75")
                  | VInt 1 => Ok (utf8 "1.00")
                  | _ => Raise TypeError
                  end)
    {| query := utf8 "VNM"; user_id := None; session_id := None |} (utf8 "VNM")
  = Ok [(utf8 "query", VStr (utf8 "VNM"));
        (utf8 "knowledge_context",
         VStr (utf8 "[Nguồn 1: VNM memo (độ tin cậy: 0.75)]
Q3 report

---
[Nguồn 2: Unknown (độ tin cậy: 1.00)]
audit
"));
        (utf8 "sources",
         VList [VDict [(utf8 "title", VStr (utf8 "VNM memo"));
                       (utf8 "source", VStr []);
                       (utf8 "document_type", VStr []);
                       (utf8 "score", VFloat 3 4)];
                VDict [(utf8 "title", VStr (utf8 "Unknown"));
                       (utf8 "source", VStr []);
                       (utf8 "document_type", VStr []);
                       (utf8 "score", VInt 1)]]);
        (utf8 "total_results", VInt 2);
        (utf8 "confidence_scores", VList [VFloat 3 4; VInt 1])] /\
  List.filter passes_min_score rag_results
  = [VDict [(utf8 "content", VStr (utf8 "Q3 report"));
            (utf8 "metadata", VDict [(utf8 "title", VStr (utf8 "VNM memo"))]);
            (utf8 "score", VFloat 3 4)];
     VDict [(utf8 "content", VStr (utf8 "audit")); (utf8 "score", VInt 1)]] /\
  exists payload,
    RAGTool._execute_impl
      (fun _ _ => Ok rag_results)
      (fun score => match score with
                    | VFloat 3 4 => Ok (utf8 "0.75")
                    | VInt 1 => Ok (utf8 "1.00")
                    | _ => Raise TypeError
                    end)
      {| query := utf8 "VNM"; user_id := None; session_id := None |} (utf8 "VNM")
    = Ok payload /\
    format_tool_result (utf8 "rag_knowledge") payload
    = Ok (utf8 "Thông tin từ cơ sở dữ liệu nội bộ:
[Nguồn 1: VNM memo (độ tin cậy: 0.75)]
Q3 report

---
[Nguồn 2: Unknown (độ tin cậy: 1.00)]
audit


Nguồn tham khảo: 2 tài liệu").
Proof.
  split; [vm_compute; reflexivity|]. split; [vm_compute; reflexivity|].
  eexists. split; [vm_compute; reflexivity|].
  match goal with
  | |- format_tool_result _ ?payload = _ =>
    destruct (rag_observation
                (fun _ _ => Ok rag_results)
                (fun score => match score with
                              | VFloat 3 4 => Ok (utf8 "0.75")
                              | VInt 1 => Ok (utf8 "1.00")
                              | _ => Raise TypeError
                              end)
                {| query := utf8 "VNM"; user_id := None; session_id := None |}
                (utf8 "VNM") payload)
      as (knowledge_context & sources & scores & n & Hpayload & _ & _ & _ & _ & Hformat);
      [vm_compute; reflexivity|]
  end.
  rewrite Hformat. injection Hpayload as Hcontext _ Hn _.
  assert (n = 2) as -> by lia.
  rewrite <- Hcontext. vm_compute. reflexivity.
Defined.

(* ===================================================================== *)
(** * The chat tool and its observation *)
(* ===================================================================== *)

Section ChatToolRuns.
Context `{PyBuiltins}.
Variable default_provider : pystr.
Variable enhance : pystr -> pystr.
Variable chat : pystr -> result pyval.

(** X28: the chat tool with the content filter enabled.  Whenever
    it returns, the prompt it sent is the filtered enhanced query, the
    response in its payload is a string, neither of them contains a
    sensitive term, the payload has none of the fields that
    ToolResultResponse requires, and the agent's observation for it is
    the heading with the rendered model name followed by the filtered
    response. *)
Theorem chat_tool_filtered
    (context : QueryContext) (q : pystr) (payload : ToolDict) :
  ChatTool._execute_impl true default_provider enhance chat context q = Ok payload ->
  exists (chat_response : pyval) (response : pystr) (model usage total_tokens : pyval),
    chat (ChatTool._apply_content_filter (enhance q)) = Ok chat_response /\
    payload = [(utf8 "query", VStr (ChatTool._apply_content_filter (enhance q)));
               (utf8 "response", VStr response);
               (utf8 "model", model);
               (utf8 "usage", usage);
               (utf8 "total_tokens", total_tokens);
               (utf8 "provider", VStr default_provider)] /\
    Forall (fun term =>
              py_in term (ChatTool._apply_content_filter (enhance q)) = false /\
              py_in term response = false)
           ChatTool.sensitive_terms /\
    has_required_fields payload = false /\
    format_tool_result (utf8 "chat_llm") payload
    = Ok (utf8 "Kết quả từ LLM (" ++ fmt model ++ utf8 "):
" ++ response).
Proof.
  unfold ChatTool._execute_impl. cbv zeta. cbv iota.
  destruct (chat _) as [chat_response|e] eqn:Hchat; [|discriminate].
  rewrite bind_Ok.
  destruct (subscript chat_response (utf8 "response")) as [raw|e]; [|discriminate].
  rewrite bind_Ok.
  destruct raw as [| | | | text | |]; try discriminate.
  cbn [ChatTool.filter_value]. rewrite bind_Ok.
  destruct (subscript chat_response (utf8 "model")) as [model|e]; [|discriminate].
  rewrite bind_Ok.
  destruct (subscript chat_response (utf8 "usage")) as [usage|e]; [|discriminate].
  rewrite bind_Ok.
  destruct (subscript usage (utf8 "total_tokens")) as [total_tokens|e]; [|discriminate].
  rewrite bind_Ok. intros [= <-].
  exists chat_response, (ChatTool._apply_content_filter text), model, usage, total_tokens.
  split; [reflexivity|]. split; [reflexivity|]. split; [|split].
  - pose proof (content_filter_clean (enhance q)) as Hq.
    pose proof (content_filter_clean text) as Hr.
    apply List.Forall_forall. intros term Hterm.
    rewrite List.Forall_forall in Hq, Hr. auto.
  - reflexivity.
  - unfold format_tool_result.
    destruct (decide (utf8 "chat_llm" = utf8 "rag_knowledge")) as [E|_];
      [vm_compute in E; discriminate|].
    destruct (decide (utf8 "chat_llm" = utf8 "tavily_search")) as [E|_];
      [vm_compute in E; discriminate|].
    destruct (decide (utf8 "chat_llm" = utf8 "chat_llm")) as [_|E];
      [reflexivity | contradiction].
Qed.

End ChatToolRuns.

Lemma chat_tool_filtered_witness :
  exists (chat_response : pyval) (response : pystr) (model usage total_tokens : pyval),
    sample_chat (ChatTool._apply_content_filter (utf8 "harmful VNM Vietnam stock HOSE HNX"))
    = Ok chat_response /\
    [(utf8 "query", VStr (utf8 "[FILTERED] VNM Vietnam stock HOSE HNX"));
     (utf8 "response", VStr (utf8 "not [FILTERED] at all"));
     (utf8 "model", VStr (utf8 "gpt"));
     (utf8 "usage", VDict [(utf8 "total_tokens", VInt 7)]);
     (utf8 "total_tokens", VInt 7);
     (utf8 "provider", VStr (utf8 "openai"))]
    = [(utf8 "query",
        VStr (ChatTool._apply_content_filter (utf8 "harmful VNM Vietnam stock HOSE HNX")));
       (utf8 "response", VStr response);
       (utf8 "model", model);
       (utf8 "usage", usage);
       (utf8 "total_tokens", total_tokens);
       (utf8 "provider", VStr (utf8 "openai"))] /\
    Forall (fun term =>
              py_in term
                (ChatTool._apply_content_filter (utf8 "harmful VNM Vietnam stock HOSE HNX"))
              = false /\
              py_in term response = false)
           ChatTool.sensitive_terms /\
    has_required_fields
      [(utf8 "query", VStr (utf8 "[FILTERED] VNM Vietnam stock HOSE HNX"));
       (utf8 "response", VStr (utf8 "not [FILTERED] at all"));
       (utf8 "model", VStr (utf8 "gpt"));
       (utf8 "usage", VDict [(utf8 "total_tokens", VInt 7)]);
       (utf8 "total_tokens", VInt 7);
       (utf8 "provider", VStr (utf8 "openai"))] = false /\
    format_tool_result (utf8 "chat_llm")
      [(utf8 "query", VStr (utf8 "[FILTERED] VNM Vietnam stock HOSE HNX"));
       (utf8 "response", VStr (utf8 "not [FILTERED] at all"));
       (utf8 "model", VStr (utf8 "gpt"));
       (utf8 "usage", VDict [(utf8 "total_tokens", VInt 7)]);
       (utf8 "total_tokens", VInt 7);
       (utf8 "provider", VStr (utf8 "openai"))]
    = Ok (utf8 "Kết quả từ LLM (" ++ fmt model ++ utf8 "):
" ++ response).
Proof.
  apply (chat_tool_filtered (utf8 "openai") (fun _ => utf8 "harmful VNM Vietnam stock HOSE HNX") sample_chat
           {| query := utf8 "harmful VNM"; user_id := None; session_id := None |}
           (utf8 "harmful VNM")).
  vm_compute. reflexivity.
Defined.
